(** * AGLA: the SUMP logic-analyzer sketch for AVR boards

    A shallow embedding of [logic_analyzer.ino]: the command dispatcher
    ([loop], [getCmd]), the acquisition routines ([acquire], [acquireSlow],
    [acquire2MHz]) with their inline-assembler loops, and the transmission
    loops, followed by the properties of the firmware.

    Conventions.
    - [int] is 16 bit on AVR, [unsigned long] is 32 bit, [byte] is 8 bit.
      Values live in [Z]; every C operation is followed by the wrap of its
      type ([to_int], [to_ulong], [to_byte]).  avr-gcc compiles [int]
      arithmetic to 16-bit two's-complement instructions, which is what
      [to_int] writes out.
    - The sketch is built with [REVERSED] defined and [MAXMHZ] equal to 5,
      as the source has them; the board is a parameter ([MCU]).
    - The input port is a function from the number of the sample to the
      level of the lines at that sample; the busy-wait on the timer flag is
      the step from one sample to the next.
    - A pointer into [logicdata] is kept as its offset from [&logicdata[0]],
      modulo 2^16 (the width of an AVR address).  *)

From stdpp Require Import base option numbers list.

Open Scope Z_scope.

(** ** Machine integers *)

Definition to_byte (z : Z) : Z := z mod 256.
Definition to_uint16 (z : Z) : Z := z mod 65536.
Definition to_int (z : Z) : Z := (z + 32768) mod 65536 - 32768.
Definition to_ulong (z : Z) : Z := z mod 4294967296.

(** ** Build configuration *)

Inductive MCU := ATmega328P | ATmega2560.

(** [#define MAX_CAPTURE_SIZE]: 7168 on the Mega boards, 1536 on the
    ATmega328P. *)
Definition MAX_CAPTURE_SIZE (mcu : MCU) : Z :=
  match mcu with
  | ATmega2560 => 7168
  | ATmega328P => 1536
  end.

(** ** SUMP opcodes *)

Definition SUMP_RESET : Z := 0x00.
Definition SUMP_ARM : Z := 0x01.
Definition SUMP_QUERY : Z := 0x02.
Definition SUMP_SELF_TEST : Z := 0x03.
Definition SUMP_GET_METADATA : Z := 0x04.
Definition SUMP_SET_DIVIDER : Z := 0x80.
Definition SUMP_SET_READ_DELAY_COUNT : Z := 0x81.
Definition SUMP_SET_FLAGS : Z := 0x82.
Definition SUMP_TRIGGER_MASK : Z := 0xC0.
Definition SUMP_TRIGGER_VALUES : Z := 0xC1.
Definition SUMP_TRIGGER_CONFIG : Z := 0xC2.
Definition SUMP_TRIGGER_MASK2 : Z := 0xC4.
Definition SUMP_TRIGGER_MASK3 : Z := 0xC8.
Definition SUMP_TRIGGER_MASK4 : Z := 0xCC.
Definition SUMP_TRIGGER_VALUES2 : Z := 0xC5.
Definition SUMP_TRIGGER_VALUES3 : Z := 0xC9.
Definition SUMP_TRIGGER_VALUES4 : Z := 0xCD.
Definition SUMP_TRIGGER_CONFIG2 : Z := 0xC6.
Definition SUMP_TRIGGER_CONFIG3 : Z := 0xCA.
Definition SUMP_TRIGGER_CONFIG4 : Z := 0xCE.

(** ** The state of the sketch *)

(** One access to [logicdata] by an acquisition routine or by its
    transmission loop: the index, and for a store the byte written. *)
Inductive Access :=
  | Store (i v : Z)
  | Load (i : Z).

Definition index_of (a : Access) : Z :=
  match a with
  | Store i _ => i
  | Load i => i
  end.

(** The globals of the sketch that the code reads or writes ([delayTime]
    and [rleEnabled] are never used), the two Timer 1 registers that carry
    the sample period, and the environment: the bytes waiting in the serial
    receive buffer, the bytes written to the host so far, the number of
    samples taken from the input port so far, and the trace of the accesses
    to [logicdata], the most recent one first. *)
Record Sketch := mkSketch {
  cmdByte : Z;
  cmdBytes : list Z;
  logicdata : list Z;
  logicIndex : Z;
  readCount : Z;
  delayCount : Z;
  trigger : Z;
  trigger_values : Z;
  divider : Z;
  TCCR1B : Z;
  OCR1A : Z;
  rx : list Z;
  tx : list Z;
  tick : nat;
  trace : list Access
}.

Definition set_cmdByte (v : Z) (s : Sketch) : Sketch :=
  mkSketch v (cmdBytes s) (logicdata s) (logicIndex s) (readCount s)
    (delayCount s) (trigger s) (trigger_values s) (divider s) (TCCR1B s)
    (OCR1A s) (rx s) (tx s) (tick s) (trace s).

Definition set_cmdBytes (v : list Z) (s : Sketch) : Sketch :=
  mkSketch (cmdByte s) v (logicdata s) (logicIndex s) (readCount s)
    (delayCount s) (trigger s) (trigger_values s) (divider s) (TCCR1B s)
    (OCR1A s) (rx s) (tx s) (tick s) (trace s).

Definition set_logicdata (v : list Z) (s : Sketch) : Sketch :=
  mkSketch (cmdByte s) (cmdBytes s) v (logicIndex s) (readCount s)
    (delayCount s) (trigger s) (trigger_values s) (divider s) (TCCR1B s)
    (OCR1A s) (rx s) (tx s) (tick s) (trace s).

Definition set_logicIndex (v : Z) (s : Sketch) : Sketch :=
  mkSketch (cmdByte s) (cmdBytes s) (logicdata s) v (readCount s)
    (delayCount s) (trigger s) (trigger_values s) (divider s) (TCCR1B s)
    (OCR1A s) (rx s) (tx s) (tick s) (trace s).

Definition set_readCount (v : Z) (s : Sketch) : Sketch :=
  mkSketch (cmdByte s) (cmdBytes s) (logicdata s) (logicIndex s) v
    (delayCount s) (trigger s) (trigger_values s) (divider s) (TCCR1B s)
    (OCR1A s) (rx s) (tx s) (tick s) (trace s).

Definition set_delayCount (v : Z) (s : Sketch) : Sketch :=
  mkSketch (cmdByte s) (cmdBytes s) (logicdata s) (logicIndex s) (readCount s)
    v (trigger s) (trigger_values s) (divider s) (TCCR1B s)
    (OCR1A s) (rx s) (tx s) (tick s) (trace s).

Definition set_trigger (v : Z) (s : Sketch) : Sketch :=
  mkSketch (cmdByte s) (cmdBytes s) (logicdata s) (logicIndex s) (readCount s)
    (delayCount s) v (trigger_values s) (divider s) (TCCR1B s)
    (OCR1A s) (rx s) (tx s) (tick s) (trace s).

Definition set_trigger_values (v : Z) (s : Sketch) : Sketch :=
  mkSketch (cmdByte s) (cmdBytes s) (logicdata s) (logicIndex s) (readCount s)
    (delayCount s) (trigger s) v (divider s) (TCCR1B s)
    (OCR1A s) (rx s) (tx s) (tick s) (trace s).

Definition set_divider (v : Z) (s : Sketch) : Sketch :=
  mkSketch (cmdByte s) (cmdBytes s) (logicdata s) (logicIndex s) (readCount s)
    (delayCount s) (trigger s) (trigger_values s) v (TCCR1B s)
    (OCR1A s) (rx s) (tx s) (tick s) (trace s).

Definition set_timer1 (b a : Z) (s : Sketch) : Sketch :=
  mkSketch (cmdByte s) (cmdBytes s) (logicdata s) (logicIndex s) (readCount s)
    (delayCount s) (trigger s) (trigger_values s) (divider s) b
    a (rx s) (tx s) (tick s) (trace s).

Definition set_rx (v : list Z) (s : Sketch) : Sketch :=
  mkSketch (cmdByte s) (cmdBytes s) (logicdata s) (logicIndex s) (readCount s)
    (delayCount s) (trigger s) (trigger_values s) (divider s) (TCCR1B s)
    (OCR1A s) v (tx s) (tick s) (trace s).

Definition set_tx (v : list Z) (s : Sketch) : Sketch :=
  mkSketch (cmdByte s) (cmdBytes s) (logicdata s) (logicIndex s) (readCount s)
    (delayCount s) (trigger s) (trigger_values s) (divider s) (TCCR1B s)
    (OCR1A s) (rx s) v (tick s) (trace s).

Definition set_trace (v : list Access) (s : Sketch) : Sketch :=
  mkSketch (cmdByte s) (cmdBytes s) (logicdata s) (logicIndex s) (readCount s)
    (delayCount s) (trigger s) (trigger_values s) (divider s) (TCCR1B s)
    (OCR1A s) (rx s) (tx s) (tick s) v.

(** The globals as their initializers leave them at power-up. *)
Definition power_up (mcu : MCU) : Sketch :=
  {| cmdByte := 0;
     cmdBytes := [0; 0; 0; 0; 0];
     logicdata := replicate (Z.to_nat (MAX_CAPTURE_SIZE mcu)) 0;
     logicIndex := 0;
     readCount := MAX_CAPTURE_SIZE mcu;
     delayCount := 0;
     trigger := 0;
     trigger_values := 0;
     divider := 0;
     TCCR1B := 0;
     OCR1A := 0;
     rx := [];
     tx := [];
     tick := 0%nat;
     trace := [] |}.

(** ** The serial port *)

(** [Serial.read()]: the next byte of the receive buffer, or -1 when the
    buffer is empty. *)
Definition Serial_read (s : Sketch) : Z * Sketch :=
  match rx s with
  | [] => (-1, s)
  | b :: r => (to_byte b, set_rx r s)
  end.

Definition Serial_write (b : Z) (s : Sketch) : Sketch :=
  set_tx (tx s ++ [to_byte b]) s.

(** [getCmd]: the four bytes that follow the opcode go to [cmdBytes[0..3]].
    The 10 ms wait is for the bytes to arrive and has no other effect. *)
Definition getCmd (s : Sketch) : Sketch :=
  let '(c0, s) := Serial_read s in
  let '(c1, s) := Serial_read s in
  let '(c2, s) := Serial_read s in
  let '(c3, s) := Serial_read s in
  set_cmdBytes [to_byte c0; to_byte c1; to_byte c2; to_byte c3;
                nth 4 (cmdBytes s) 0] s.

Definition cmd (s : Sketch) (i : nat) : Z := nth i (cmdBytes s) 0.

(** ** Accesses to [logicdata]

    An index outside the array addresses memory that is not [logicdata]
    and that this development does not follow: such a store leaves
    [logicdata] as it is and such a load yields 0.  The trace records the
    access all the same. *)

Definition array_get (l : list Z) (i : Z) : Z :=
  if 0 <=? i then default 0 (l !! Z.to_nat i) else 0.

Definition array_set (l : list Z) (i v : Z) : list Z :=
  if 0 <=? i then <[Z.to_nat i := v]> l else l.

Definition in_bounds (mcu : MCU) (a : Access) : Prop :=
  0 <= index_of a < MAX_CAPTURE_SIZE mcu.

(** ** The inline assembler of the acquisition routines *)

(** What an [asm volatile] block works on: the pointer pair
    [%[LOGICDATAaddr]] (as an offset, see the conventions), the register
    pair [%[DELAYCOUNT]], the array, the number of samples taken and the
    trace. *)
Record Asm := mkAsm {
  LOGICDATAaddr : Z;
  DELAYCOUNT : Z;
  ram : list Z;
  samples : nat;
  accesses : list Access
}.

Definition set_ptr (p : Z) (a : Asm) : Asm :=
  mkAsm p (DELAYCOUNT a) (ram a) (samples a) (accesses a).

(** [st %a[LOGICDATAaddr], __tmp_reg__] *)
Definition st (v : Z) (a : Asm) : Asm :=
  mkAsm (LOGICDATAaddr a) (DELAYCOUNT a)
    (array_set (ram a) (LOGICDATAaddr a) v) (samples a)
    (Store (LOGICDATAaddr a) v :: accesses a).

(** [adiw %A[LOGICDATAaddr], 1] *)
Definition adiw1 (a : Asm) : Asm :=
  set_ptr (to_uint16 (LOGICDATAaddr a + 1)) a.

(** [st %a[LOGICDATAaddr]+, __tmp_reg__] *)
Definition st_postinc (v : Z) (a : Asm) : Asm := adiw1 (st v a).

(** [sbiw %A[DELAYCOUNT], 1] *)
Definition sbiw1 (a : Asm) : Asm :=
  mkAsm (LOGICDATAaddr a) (to_uint16 (DELAYCOUNT a - 1)) (ram a) (samples a)
    (accesses a).

(** The two compares of the pointer with the stop address in [r20:r21] and
    the [movw] that restores the start address from [r22:r23]. *)
Definition wrap_at (stop : Z) (a : Asm) : Asm :=
  if LOGICDATAaddr a =? stop then set_ptr 0 a else a.

Definition next_sample (a : Asm) : Asm :=
  mkAsm (LOGICDATAaddr a) (DELAYCOUNT a) (ram a) (S (samples a)) (accesses a).

Section Engine.

(** The build and the signal on the input lines. *)
Variable mcu : MCU.
Variable pins : nat -> Z.

(** [in __tmp_reg__, %[CHANPINaddr]] for sample number [t]. *)
Definition CHANPIN (t : nat) : Z := to_byte (pins t).

(** [eor __tmp_reg__, %[TRIGVAL]] and [and __tmp_reg__, %[TRIGMASK]]. *)
Definition eor_and (TRIGVAL TRIGMASK tmp : Z) : Z :=
  Z.land (Z.lxor tmp TRIGVAL) TRIGMASK.

(** A loop that reads the port into [__tmp_reg__], runs [body] on it and is
    closed by [eor]/[and]/[brne]: it is left when the result is zero.
    [fuel] bounds the number of samples that are followed. *)
Fixpoint brne_trigger (body : Z -> Asm -> Asm) (TRIGVAL TRIGMASK : Z)
    (fuel : nat) (a : Asm) : option Asm :=
  match fuel with
  | O => None
  | S fuel' =>
      let tmp := CHANPIN (samples a) in
      let a := body tmp (next_sample a) in
      if eor_and TRIGVAL TRIGMASK tmp =? 0 then Some a
      else brne_trigger body TRIGVAL TRIGMASK fuel' a
  end.

(** A loop that reads the port, runs [body] and is closed by
    [sbiw %A[DELAYCOUNT], 1] and [brne]: it is left when the counter
    reaches zero. *)
Fixpoint brne_count (body : Z -> Asm -> Asm) (fuel : nat) (a : Asm)
  : option Asm :=
  match fuel with
  | O => None
  | S fuel' =>
      let tmp := CHANPIN (samples a) in
      let a := sbiw1 (body tmp (next_sample a)) in
      if DELAYCOUNT a =? 0 then Some a else brne_count body fuel' a
  end.

(** The stores of [acquireSlow], the same in both of its loops: store with
    post-increment, then wrap at the stop address. *)
Definition store_wrap (stop : Z) (tmp : Z) (a : Asm) : Asm :=
  wrap_at stop (st_postinc tmp a).

(** [TRIGLOOP] and [SAMPLOOP] of [acquireSlow]; the wait for the timer flag
    is the step to the next sample. *)
Definition TRIGLOOP (stop : Z) := brne_trigger (store_wrap stop).
Definition SAMPLOOP (stop : Z) := brne_count (store_wrap stop).

(** [TRIGLOOP2] of [acquire2MHz] stores through the pointer without
    advancing it; [SAMPLOOP2] stores with post-increment and no wrap. *)
Definition TRIGLOOP2 := brne_trigger st.
Definition SAMPLOOP2 := brne_count st_postinc.

(** The operands an [asm] block is entered with, and the globals it leaves
    behind. *)
Definition asm_enter (s : Sketch) : Asm :=
  mkAsm 0 (to_uint16 (delayCount s)) (logicdata s) (tick s) (trace s).

Definition asm_leave (a : Asm) (s : Sketch) : Sketch :=
  mkSketch (cmdByte s) (cmdBytes s) (ram a) (logicIndex s) (readCount s)
    (delayCount s) (trigger s) (trigger_values s) (divider s) (TCCR1B s)
    (OCR1A s) (rx s) (tx s) (samples a) (accesses a).

(** The [asm volatile] block of [acquireSlow]; [r20:r21] is set to the
    start address plus [readCount]. *)
Definition asm_slow (fuel : nat) (s : Sketch) : option Asm :=
  let stop := to_uint16 (readCount s) in
  a ← TRIGLOOP stop (trigger_values s) (trigger s) fuel (asm_enter s);
  SAMPLOOP stop fuel a.

(** The [asm volatile] block of [acquire2MHz]. *)
Definition asm_2MHz (fuel : nat) (s : Sketch) : option Asm :=
  a ← TRIGLOOP2 (trigger_values s) (trigger s) fuel (asm_enter s);
  SAMPLOOP2 fuel (adiw1 a).

(** ** Transmission *)

(** [Serial.write(logicdata[i])] *)
Definition send (i : Z) (s : Sketch) : Sketch :=
  set_trace (Load i :: trace s) (Serial_write (array_get (logicdata s) i) s).

(** The [REVERSED] loop of [acquireSlow], [n] iterations. *)
Fixpoint send_backward (n : nat) (s : Sketch) : Sketch :=
  match n with
  | O => s
  | S n' =>
      let s := if logicIndex s <? 0
               then set_logicIndex (to_int (readCount s - 1)) s else s in
      let s := send (logicIndex s) s in
      send_backward n' (set_logicIndex (to_int (logicIndex s - 1)) s)
  end.

(** [logicIndex--] and the loop [for (i = 0; i < readCount; i++)]. *)
Definition dump_slow (s : Sketch) : Sketch :=
  send_backward (Z.to_nat (readCount s))
    (set_logicIndex (to_int (logicIndex s - 1)) s).

(** The [REVERSED] loop of [acquire2MHz],
    [for (i = readCount-1; i >= 0; i--)], with [n] the value of [i + 1]. *)
Fixpoint send_down (n : nat) (s : Sketch) : Sketch :=
  match n with
  | O => s
  | S n' => send_down n' (send (Z.of_nat n') s)
  end.

Definition dump_2MHz (s : Sketch) : Sketch :=
  send_down (Z.to_nat (to_int (readCount s - 1) + 1)) s.

(** ** The acquisition routines *)

(** The head of [acquireSlow]: the clamp of [divider], the configuration
    of Timer 1 and the reset of [logicIndex]. *)
Definition timer_setup (s : Sketch) : Sketch :=
  let s := if divider s <? 99 then set_divider 99 s else s in
  let top := to_ulong (to_ulong (divider s + 1) / 100 * 16) in
  let '(top, prescale) :=
    if top >=? 65536 then (top / 256, 4) else (top, 1) in
  let top := to_ulong (top - 1) in
  let s := set_timer1 (Z.lor 8 prescale) (to_uint16 top) s in
  set_logicIndex 0 s.

Definition acquireSlow (fuel : nat) (s : Sketch) : option Sketch :=
  let s := timer_setup s in
  a ← asm_slow fuel s;
  Some (dump_slow (set_logicIndex (to_int (LOGICDATAaddr a)) (asm_leave a s))).

Definition acquire2MHz (fuel : nat) (s : Sketch) : option Sketch :=
  let s := set_delayCount (to_int (readCount s - 1)) s in
  a ← asm_2MHz fuel s;
  Some (dump_2MHz (asm_leave a s)).

(** Modelled from the spec: [acquire5MHz] is called by [acquire] but its
    body is not part of the sources at hand.  The spec gives Regime C the
    shape of Regime B: a trigger wait that does not store, the matching
    sample stored at position 0, then [readCount - 1] further samples stored
    linearly; the session state is only read, and the samples are sent as
    in [acquire2MHz].  [wait5] is the trigger wait: the number of the first
    sample from [t] on that satisfies the trigger. *)
Fixpoint wait5 (TRIGVAL TRIGMASK : Z) (fuel : nat) (t : nat) : option nat :=
  match fuel with
  | O => None
  | S fuel' =>
      if Z.land (Z.lxor (CHANPIN t) TRIGVAL) TRIGMASK =? 0 then Some t
      else wait5 TRIGVAL TRIGMASK fuel' (S t)
  end.

(** Modelled from the spec: the [n] further samples of Regime C, stored
    linearly (the unrolled sequence of [acquire5MHz] is not part of the
    sources at hand). *)
Fixpoint fill5 (n : nat) (a : Asm) : Asm :=
  match n with
  | O => a
  | S n' => fill5 n' (st_postinc (CHANPIN (samples a)) (next_sample a))
  end.

(** Modelled from the spec: [acquire5MHz], whose body is not part of the
    sources at hand, as the trigger wait, the store of the matching sample
    at position 0, [readCount - 1] further samples and the dump. *)
Definition acquire5MHz (fuel : nat) (s : Sketch) : option Sketch :=
  t ← wait5 (trigger_values s) (trigger s) fuel (tick s);
  let a := st_postinc (CHANPIN t) (mkAsm 0 0 (logicdata s) (S t) (trace s)) in
  let a := fill5 (Z.to_nat (readCount s - 1)) a in
  Some (dump_2MHz (asm_leave a s)).

(** [acquire]: the switch on [divider]. *)
Definition acquire (fuel : nat) (s : Sketch) : option Sketch :=
  if divider s =? 19 then acquire5MHz fuel s
  else if divider s =? 49 then acquire2MHz fuel s
  else acquireSlow fuel s.

(** ** The command dispatcher *)

(** The decoding of one count of [SUMP_SET_READ_DELAY_COUNT]:
    [4 * (((hi << 8) | lo) + 1)] in [int], then the clamp. *)
Definition decode_count (hi lo : Z) : Z :=
  let n := to_int (4 * to_int (Z.lor (to_int (Z.shiftl hi 8)) lo + 1)) in
  if n >? MAX_CAPTURE_SIZE mcu then MAX_CAPTURE_SIZE mcu else n.

(** The bytes of [send_metadata], for [REVERSED], [MAXMHZ] 5 and [CHAN5]
    defined. *)
Definition metadata : list Z :=
  [0x01; 65; 71; 76; 65; 114; 101; 118; 86; 49; 0x00;
   0x02; 48; 46; 50; 50; 0x00;
   0x21; 0x00; 0x00;
   match mcu with ATmega2560 => 0x1C | ATmega328P => 0x06 end; 0x00;
   0x23; 0x00; 0x4C; 0x4B; 0x40;
   0x40; match mcu with ATmega2560 => 0x08 | ATmega328P => 0x06 end;
   0x41; 0x02;
   0x00].

Definition send_metadata (s : Sketch) : Sketch :=
  fold_left (fun s b => Serial_write b s) metadata s.

(** One pass through [loop].  [None]: an acquisition started by this pass
    has a loop that is not left within [fuel] samples. *)
Definition loop (fuel : nat) (s : Sketch) : option Sketch :=
  match rx s with
  | [] => Some s
  | _ :: _ =>
      let '(c, s) := Serial_read s in
      let s := set_cmdByte c s in
      if c =? SUMP_RESET then Some s
      else if c =? SUMP_QUERY then
        Some (Serial_write 83 (Serial_write 76 (Serial_write 65
               (Serial_write 49 s))))
      else if c =? SUMP_ARM then
        acquire fuel
          (set_logicdata (replicate (Z.to_nat (MAX_CAPTURE_SIZE mcu)) 0) s)
      else if c =? SUMP_TRIGGER_MASK then
        let s := getCmd s in Some (set_trigger (cmd s 0) s)
      else if c =? SUMP_TRIGGER_VALUES then
        let s := getCmd s in Some (set_trigger_values (cmd s 0) s)
      else if (c =? SUMP_TRIGGER_CONFIG) || (c =? SUMP_TRIGGER_MASK2)
              || (c =? SUMP_TRIGGER_MASK3) || (c =? SUMP_TRIGGER_MASK4)
              || (c =? SUMP_TRIGGER_VALUES2) || (c =? SUMP_TRIGGER_VALUES3)
              || (c =? SUMP_TRIGGER_VALUES4) || (c =? SUMP_TRIGGER_CONFIG2)
              || (c =? SUMP_TRIGGER_CONFIG3) || (c =? SUMP_TRIGGER_CONFIG4)
      then Some (getCmd s)
      else if c =? SUMP_SET_DIVIDER then
        let s := getCmd s in
        let d := cmd s 2 in
        let d := to_ulong (Z.shiftl d 8) in
        let d := to_ulong (d + cmd s 1) in
        let d := to_ulong (Z.shiftl d 8) in
        let d := to_ulong (d + cmd s 0) in
        Some (set_divider d s)
      else if c =? SUMP_SET_READ_DELAY_COUNT then
        let s := getCmd s in
        let s := set_readCount (decode_count (cmd s 1) (cmd s 0)) s in
        Some (set_delayCount (decode_count (cmd s 3) (cmd s 2)) s)
      else if c =? SUMP_SET_FLAGS then Some (getCmd s)
      else if c =? SUMP_GET_METADATA then Some (send_metadata s)
      else if c =? SUMP_SELF_TEST then Some s
      else Some s
  end.

(** [n] passes through [loop]. *)
Fixpoint run (fuel : nat) (n : nat) (s : Sketch) : option Sketch :=
  match n with
  | O => Some s
  | S n' => s' ← loop fuel s; run fuel n' s'
  end.

(** The host sends [bytes]; the sketch takes one pass per byte. *)
Definition receive (fuel : nat) (bytes : list Z) (s : Sketch)
  : option Sketch :=
  run fuel (length bytes) (set_rx (rx s ++ bytes) s).

End Engine.

(** ** Vocabulary of the properties *)

(** One pass through the body of a sampling loop: the port is read into
    [__tmp_reg__] and the body runs on it; [counted] adds the [sbiw]. *)
Definition sampled (pins : nat -> Z) (body : Z -> Asm -> Asm) (a : Asm) : Asm :=
  body (CHANPIN pins (samples a)) (next_sample a).

Definition counted (pins : nat -> Z) (body : Z -> Asm -> Asm) (a : Asm) : Asm :=
  sbiw1 (sampled pins body a).

(** The number of passes of a loop closed by [sbiw]/[brne] that is entered
    with the 16-bit counter [d]: the counter is decremented before it is
    tested, so 0 stands for 65536. *)
Definition passes (d : Z) : nat := Z.to_nat (if d =? 0 then 65536 else d).

(** Sample number [t + k] is the first one from sample [t] on that
    satisfies the trigger with values [v] and mask [m]. *)
Definition first_match (pins : nat -> Z) (v m : Z) (t k : nat) : Prop :=
  (forall j, (j < k)%nat -> Z.land (Z.lxor (CHANPIN pins (t + j)) v) m <> 0) /\
  Z.land (Z.lxor (CHANPIN pins (t + k)) v) m = 0.

(** The session state: divider, trigger mask, trigger values, read count
    and delay count. *)
Definition session (s : Sketch) : Z * Z * Z * Z * Z :=
  (divider s, trigger s, trigger_values s, readCount s, delayCount s).

(** The opcodes that [loop] follows by [getCmd]. *)
Definition five_byte_opcodes : list Z :=
  [SUMP_TRIGGER_MASK; SUMP_TRIGGER_VALUES; SUMP_TRIGGER_CONFIG;
   SUMP_TRIGGER_MASK2; SUMP_TRIGGER_MASK3; SUMP_TRIGGER_MASK4;
   SUMP_TRIGGER_VALUES2; SUMP_TRIGGER_VALUES3; SUMP_TRIGGER_VALUES4;
   SUMP_TRIGGER_CONFIG2; SUMP_TRIGGER_CONFIG3; SUMP_TRIGGER_CONFIG4;
   SUMP_SET_DIVIDER; SUMP_SET_READ_DELAY_COUNT; SUMP_SET_FLAGS].

(** The part of the assembler state that decides what a loop stores and
    when it ends. *)
Definition registers (a : Asm) : Z * Z * list Z :=
  (LOGICDATAaddr a, DELAYCOUNT a, ram a).

(** Invariants of the sampling loops for a build [mcu].  [within]: the
    pointer of [acquireSlow] stays below the stop address; [holding]: the
    pointer of [TRIGLOOP2] stays at the start and the counter at [d];
    [counting_up]: the pointer of [SAMPLOOP2] and the counter add up to the
    read count.  In each, the accesses so far are within the buffer. *)
Definition within (mcu : MCU) (stop : Z) (a : Asm) : Prop :=
  0 <= LOGICDATAaddr a < stop /\ Forall (in_bounds mcu) (accesses a).

Definition holding (mcu : MCU) (d : Z) (a : Asm) : Prop :=
  LOGICDATAaddr a = 0 /\ DELAYCOUNT a = d /\ Forall (in_bounds mcu) (accesses a).

Definition counting_up (mcu : MCU) (rc : Z) (a : Asm) : Prop :=
  0 <= LOGICDATAaddr a /\ 0 <= DELAYCOUNT a /\
  LOGICDATAaddr a + DELAYCOUNT a = rc /\ Forall (in_bounds mcu) (accesses a).

(** The bytes that the reversed dump of [acquireSlow] sends from the buffer
    [l] when the capture ended with the cursor at [c]. *)
Definition backward_bytes (l : list Z) (c rc : Z) : list Z :=
  map (fun i => to_byte (array_get l ((c - 1 - Z.of_nat i) mod rc)))
    (seq 0 (Z.to_nat rc)).

(** The bytes that the reversed dump of [acquire2MHz] sends. *)
Definition downward_bytes (l : list Z) (rc : Z) : list Z :=
  map (fun i => to_byte (array_get l (Z.of_nat i))) (rev (seq 0 (Z.to_nat rc))).

(** Two states that ask for the same capture into the same buffer. *)
Definition same_request (s t : Sketch) : Prop :=
  readCount t = readCount s /\ trigger t = trigger s /\
  trigger_values t = trigger_values s /\ logicdata t = logicdata s.

(** ** Example states and inputs *)

(** A finished capture of 8 samples with the cursor at 3. *)
Definition capture_8_3 : Sketch :=
  set_logicIndex 3 (set_readCount 8
    (set_logicdata [10; 11; 12; 13; 14; 15; 16; 17] (power_up ATmega328P))).

(** A request for 8 samples, 4 of them after the trigger, and one for 4
    samples with the trigger on line 0 being low. *)
Definition request_8_4 : Sketch :=
  set_delayCount 4 (set_readCount 8 (power_up ATmega328P)).

Definition request_4_low : Sketch :=
  set_trigger 1 (set_readCount 4 (power_up ATmega328P)).

(** Line 0 high at the first sample and low from then on. *)
Definition falling (t : nat) : Z :=
  match t with
  | O => 1
  | S _ => 0
  end.

(** The circular buffer of [acquireSlow] after [n] stores into the slots 0
    to [r - 1], begun at sample [t0] over the buffer [init]: the cursor is at
    [n mod r], each of the last [r] samples is in the slot of its number
    modulo [r], and the slots not yet reached are as they were. *)
Definition circular (pins : nat -> Z) (r t0 : nat) (init : list Z)
    (n : nat) (a : Asm) : Prop :=
  samples a = (t0 + n)%nat /\
  LOGICDATAaddr a = Z.of_nat (n mod r) /\
  length (ram a) = length init /\
  (forall m, (m < n)%nat -> (n <= m + r)%nat ->
     ram a !! (m mod r)%nat = Some (CHANPIN pins (t0 + m))) /\
  (forall i, (n <= i)%nat -> ram a !! i = init !! i).

(** An input that shows the number of the sample. *)
Definition ramp (t : nat) : Z := Z.of_nat t.

(** A request for 8 samples, 2 of them after the trigger, the trigger being
    line 2 high. *)
Definition request_8_2_line2 : Sketch :=
  set_trigger 4 (set_trigger_values 4
    (set_delayCount 2 (set_readCount 8 (power_up ATmega328P)))).

(** The same with as many samples after the trigger as the read count. *)
Definition request_8_8_line2 : Sketch := set_delayCount 8 request_8_2_line2.

(** The ranges of the session state: the trigger mask and values are bytes,
    the divider has 24 bits, the read count is a multiple of 4 of type
    [int] that does not exceed the capacity, the delay count is of type
    [int]. *)
Definition in_range (mcu : MCU) (s : Sketch) : Prop :=
  0 <= trigger s < 256 /\ 0 <= trigger_values s < 256 /\
  0 <= divider s < 16777216 /\
  readCount s mod 4 = 0 /\ -32768 <= readCount s <= MAX_CAPTURE_SIZE mcu /\
  -32768 <= delayCount s < 32768.

(** A pass of [loop] that arms does so with a read count from 2 up to the
    capacity: the passes whose stores stay within [logicdata]. *)
Definition arm_ready (mcu : MCU) (s : Sketch) : bool :=
  match rx s with
  | [] => true
  | c :: _ =>
      negb (to_byte c =? SUMP_ARM)
      || ((1 <? readCount s) && (readCount s <=? MAX_CAPTURE_SIZE mcu))
  end.

(** The same for each of [n] passes in a row. *)
Fixpoint arms_ready (mcu : MCU) (pins : nat -> Z) (fuel n : nat) (s : Sketch)
  : bool :=
  match n with
  | O => true
  | S n' =>
      arm_ready mcu s
      && match loop mcu pins fuel s with
         | Some s' => arms_ready mcu pins fuel n' s'
         | None => true
         end
  end.

(** * Properties *)

(** ** Machine integers *)

Lemma to_int_range z : -32768 <= to_int z < 32768.
Proof. unfold to_int. pose proof (Z.mod_pos_bound (z + 32768) 65536). lia. Qed.

Lemma to_int_id z : -32768 <= z < 32768 -> to_int z = z.
Proof. intros H. unfold to_int. rewrite Z.mod_small; lia. Qed.

Lemma to_uint16_range z : 0 <= to_uint16 z < 65536.
Proof. unfold to_uint16. apply Z.mod_pos_bound. lia. Qed.

Lemma to_uint16_id z : 0 <= z < 65536 -> to_uint16 z = z.
Proof. intros H. unfold to_uint16. apply Z.mod_small. lia. Qed.

Lemma to_byte_range z : 0 <= to_byte z < 256.
Proof. unfold to_byte. apply Z.mod_pos_bound. lia. Qed.

Lemma to_byte_id z : 0 <= z < 256 -> to_byte z = z.
Proof. intros H. unfold to_byte. apply Z.mod_small. lia. Qed.

Lemma to_byte_idemp z : to_byte (to_byte z) = to_byte z.
Proof. apply to_byte_id, to_byte_range. Qed.

Lemma to_int_mult4 z : to_int (4 * z) mod 4 = 0.
Proof. unfold to_int. Z.div_mod_to_equations. lia. Qed.

Lemma MAX_CAPTURE_SIZE_range mcu : 1536 <= MAX_CAPTURE_SIZE mcu <= 7168.
Proof. destruct mcu; simpl; lia. Qed.

Lemma MAX_CAPTURE_SIZE_mult4 mcu : MAX_CAPTURE_SIZE mcu mod 4 = 0.
Proof. destruct mcu; reflexivity. Qed.

(** ** Decoding of the counts *)

(** What the decoding does guarantee: a multiple of 4, at most the
    capacity, within [int]. *)
Lemma decode_count_mult4 mcu hi lo : decode_count mcu hi lo mod 4 = 0.
Proof.
  unfold decode_count.
  destruct (_ >? _); [apply MAX_CAPTURE_SIZE_mult4 | apply to_int_mult4].
Qed.

Lemma decode_count_le mcu hi lo :
  -32768 <= decode_count mcu hi lo <= MAX_CAPTURE_SIZE mcu.
Proof.
  unfold decode_count.
  pose proof (MAX_CAPTURE_SIZE_range mcu).
  destruct (Z.gtb_spec (to_int (4 * to_int (Z.lor (to_int (Z.shiftl hi 8)) lo + 1)))
              (MAX_CAPTURE_SIZE mcu)) as [H1|H1].
  - lia.
  - pose proof (to_int_range (4 * to_int (Z.lor (to_int (Z.shiftl hi 8)) lo + 1))).
    lia.
Qed.

(** In the range where [4 * (raw + 1)] fits an [int], the decoding is the
    formula followed by the clamp. *)
Lemma decode_count_small mcu hi lo :
  0 <= hi < 32 -> 0 <= lo < 256 -> hi * 256 + lo < 8191 ->
  decode_count mcu hi lo = Z.min (4 * (hi * 256 + lo + 1)) (MAX_CAPTURE_SIZE mcu).
Proof.
  intros Hhi Hlo Hraw. unfold decode_count.
  rewrite Z.shiftl_mul_pow2 by lia. change (2 ^ 8) with 256.
  rewrite (to_int_id (hi * 256)) by lia.
  assert (Hor : Z.lor (hi * 256) lo = hi * 256 + lo).
  { symmetry. apply Z.add_nocarry_lor.
    replace (hi * 256) with (Z.shiftl hi 8) by (rewrite Z.shiftl_mul_pow2; lia).
    apply Z.bits_inj'. intros n Hn. rewrite Z.land_spec, Z.bits_0.
    destruct (Z.ltb_spec n 8).
    - rewrite Z.shiftl_spec_low by lia. reflexivity.
    - rewrite (Z.bits_above_log2 lo n); [apply andb_false_r | lia |].
      destruct (Z.eq_dec lo 0) as [->|]; [simpl; lia|].
      apply Z.log2_lt_pow2; [lia|].
      apply Z.lt_le_trans with (2 ^ 8); [simpl; lia|].
      apply Z.pow_le_mono_r; lia. }
  rewrite Hor.
  rewrite (to_int_id (hi * 256 + lo + 1)) by lia.
  rewrite (to_int_id (4 * _)) by lia.
  destruct (Z.gtb_spec (4 * (hi * 256 + lo + 1)) (MAX_CAPTURE_SIZE mcu)); lia.
Qed.

(** C1 (code defect).  Specified: for every pair of 16-bit raw fields the
    decoded [readCount] and [delayCount] are non-negative multiples of 4
    that do not exceed the capacity.  The code: for the raw field 0x2000
    (payload bytes 0x00, 0x20) the product 4 * 8193 = 32772 does not fit the
    16-bit [int] it is computed in and becomes -32764; the clamp only
    tests the upper bound, so the command leaves a negative [readCount]
    (and likewise a negative [delayCount]) in the session state. *)
Theorem set_read_delay_count_negative :
  forall mcu pins fuel,
    decode_count mcu 0x20 0x00 = -32764 /\
    exists s,
      receive mcu pins fuel [SUMP_SET_READ_DELAY_COUNT; 0x00; 0x20; 0x00; 0x20]
        (power_up mcu) = Some s /\
      readCount s = -32764 /\ delayCount s = -32764.
Proof.
  intros mcu pins fuel. split.
  - destruct mcu; vm_compute; reflexivity.
  - destruct mcu; vm_compute; eexists; (split; [reflexivity|]);
      split; reflexivity.
Qed.

(** ** The loops of the inline assembler *)

Section Loops.

Variable pins : nat -> Z.
Variable body : Z -> Asm -> Asm.
Hypothesis body_samples : forall v a, samples (body v a) = samples a.
Hypothesis body_DELAYCOUNT : forall v a, DELAYCOUNT (body v a) = DELAYCOUNT a.

Lemma samples_sampled a : samples (sampled pins body a) = S (samples a).
Proof. unfold sampled. rewrite body_samples. reflexivity. Qed.

Lemma samples_iter_sampled n a :
  samples (Nat.iter n (sampled pins body) a) = (samples a + n)%nat.
Proof.
  induction n as [|n IH]; [simpl; lia|].
  rewrite Nat.iter_succ, samples_sampled, IH. lia.
Qed.

Lemma samples_counted a : samples (counted pins body a) = S (samples a).
Proof. apply samples_sampled. Qed.

Lemma samples_iter_counted n a :
  samples (Nat.iter n (counted pins body) a) = (samples a + n)%nat.
Proof.
  induction n as [|n IH]; [simpl; lia|].
  rewrite Nat.iter_succ, samples_counted, IH. lia.
Qed.

Lemma DELAYCOUNT_counted a :
  DELAYCOUNT (counted pins body a) = to_uint16 (DELAYCOUNT a - 1).
Proof. unfold counted, sampled. simpl. rewrite body_DELAYCOUNT. reflexivity. Qed.

(** A trigger loop is left at the first sample for which [eor]/[and] give
    zero, after one pass of the body per sample examined. *)
Lemma brne_trigger_first v m k : forall fuel a,
  (k < fuel)%nat ->
  (forall j, (j < k)%nat -> eor_and v m (CHANPIN pins (samples a + j)) <> 0) ->
  eor_and v m (CHANPIN pins (samples a + k)) = 0 ->
  brne_trigger pins body v m fuel a = Some (Nat.iter (S k) (sampled pins body) a).
Proof.
  induction k as [|k IH]; intros fuel a Hfuel Hbefore Hat.
  - destruct fuel as [|fuel]; [lia|]. simpl.
    rewrite Nat.add_0_r in Hat. rewrite Hat. reflexivity.
  - destruct fuel as [|fuel]; [lia|]. simpl brne_trigger.
    specialize (Hbefore 0%nat ltac:(lia)) as H0. rewrite Nat.add_0_r in H0.
    apply Z.eqb_neq in H0. rewrite H0.
    rewrite Nat.iter_succ_r. fold (sampled pins body a).
    apply IH; [lia| |]; rewrite samples_sampled.
    + intros j Hj. replace (S (samples a) + j)%nat with (samples a + S j)%nat by lia.
      apply Hbefore. lia.
    + replace (S (samples a) + k)%nat with (samples a + S k)%nat by lia. exact Hat.
Qed.

(** It is not left while no sample gives zero. *)
Lemma brne_trigger_none v m : forall fuel a,
  (forall j, (j < fuel)%nat -> eor_and v m (CHANPIN pins (samples a + j)) <> 0) ->
  brne_trigger pins body v m fuel a = None.
Proof.
  induction fuel as [|fuel IH]; intros a Hnever; [reflexivity|].
  simpl. specialize (Hnever 0%nat ltac:(lia)) as H0. rewrite Nat.add_0_r in H0.
  apply Z.eqb_neq in H0. rewrite H0. apply IH.
  intros j Hj. rewrite body_samples.
  replace (samples (next_sample a) + j)%nat with (samples a + S j)%nat
    by (simpl; lia).
  apply Hnever. lia.
Qed.

Lemma brne_count_S fuel a :
  brne_count pins body (S fuel) a
  = if DELAYCOUNT (counted pins body a) =? 0 then Some (counted pins body a)
    else brne_count pins body fuel (counted pins body a).
Proof. reflexivity. Qed.

(** A counting loop entered with the counter at [n] modulo 2^16, for
    [n] from 1 to 65536, makes [n] passes. *)
Lemma brne_count_iter n : forall fuel a,
  1 <= Z.of_nat n <= 65536 ->
  DELAYCOUNT a = to_uint16 (Z.of_nat n) ->
  (n <= fuel)%nat ->
  brne_count pins body fuel a = Some (Nat.iter n (counted pins body) a).
Proof.
  induction n as [|n IH]; intros fuel a Hn Hd Hfuel; [lia|].
  destruct fuel as [|fuel]; [lia|]. rewrite brne_count_S.
  rewrite DELAYCOUNT_counted, Hd.
  assert (Hdec : to_uint16 (to_uint16 (Z.of_nat (S n)) - 1) = to_uint16 (Z.of_nat n)).
  { unfold to_uint16. destruct (decide (Z.of_nat n = 65535)) as [E|E].
    - replace (Z.of_nat (S n)) with 65536 by lia. rewrite E. reflexivity.
    - rewrite (Z.mod_small (Z.of_nat (S n))) by lia. f_equal. lia. }
  rewrite Hdec. destruct n as [|n].
  - reflexivity.
  - rewrite (to_uint16_id (Z.of_nat (S n))) by lia.
    destruct (Z.eqb_spec (Z.of_nat (S n)) 0) as [E|_]; [lia|].
    rewrite Nat.iter_succ_r. apply IH; [lia| |lia].
    rewrite DELAYCOUNT_counted, Hd, Hdec. reflexivity.
Qed.

Lemma DELAYCOUNT_iter_sampled n a :
  DELAYCOUNT (Nat.iter n (sampled pins body) a) = DELAYCOUNT a.
Proof.
  induction n as [|n IH]; [reflexivity|].
  rewrite Nat.iter_succ. unfold sampled at 1. rewrite body_DELAYCOUNT. exact IH.
Qed.

Lemma passes_range d : 0 <= d < 65536 -> 1 <= Z.of_nat (passes d) <= 65536.
Proof. intros H. unfold passes. destruct (Z.eqb_spec d 0); lia. Qed.

Lemma passes_uint16 d :
  0 <= d < 65536 -> to_uint16 (Z.of_nat (passes d)) = d.
Proof.
  intros H. unfold passes. destruct (Z.eqb_spec d 0) as [->|]; [reflexivity|].
  rewrite Z2Nat.id by lia. apply to_uint16_id. lia.
Qed.

(** A counting loop entered with the counter [d] makes [passes d] passes:
    [d] of them, and 65536 when [d] is 0. *)
Lemma brne_count_passes fuel a :
  0 <= DELAYCOUNT a < 65536 ->
  (passes (DELAYCOUNT a) <= fuel)%nat ->
  brne_count pins body fuel a
  = Some (Nat.iter (passes (DELAYCOUNT a)) (counted pins body) a).
Proof.
  intros Hd Hfuel. apply brne_count_iter.
  - apply passes_range, Hd.
  - symmetry. apply passes_uint16, Hd.
  - exact Hfuel.
Qed.

End Loops.

(** ** The bodies of the loops *)

Lemma samples_st v a : samples (st v a) = samples a.
Proof. reflexivity. Qed.

Lemma samples_st_postinc v a : samples (st_postinc v a) = samples a.
Proof. reflexivity. Qed.

Lemma samples_store_wrap stop v a : samples (store_wrap stop v a) = samples a.
Proof. unfold store_wrap, wrap_at. destruct (_ =? _); reflexivity. Qed.

Lemma DELAYCOUNT_st v a : DELAYCOUNT (st v a) = DELAYCOUNT a.
Proof. reflexivity. Qed.

Lemma DELAYCOUNT_st_postinc v a : DELAYCOUNT (st_postinc v a) = DELAYCOUNT a.
Proof. reflexivity. Qed.

Lemma DELAYCOUNT_store_wrap stop v a :
  DELAYCOUNT (store_wrap stop v a) = DELAYCOUNT a.
Proof. unfold store_wrap, wrap_at. destruct (_ =? _); reflexivity. Qed.

#[local] Hint Resolve samples_st samples_st_postinc samples_store_wrap
  DELAYCOUNT_st DELAYCOUNT_st_postinc DELAYCOUNT_store_wrap : core.

(** ** Transmission leaves everything but [tx], [trace] and [logicIndex] *)

Lemma send_backward_fields n : forall s,
  session (send_backward n s) = session s /\
  logicdata (send_backward n s) = logicdata s /\
  tick (send_backward n s) = tick s /\
  rx (send_backward n s) = rx s.
Proof.
  induction n as [|n IH]; intros s; [done|].
  cbn [send_backward].
  match goal with |- context [send_backward n ?s1] =>
    destruct (IH s1) as (-> & -> & -> & ->) end.
  destruct (logicIndex s <? 0); done.
Qed.

Lemma send_down_fields n : forall s,
  session (send_down n s) = session s /\
  logicdata (send_down n s) = logicdata s /\
  tick (send_down n s) = tick s /\
  rx (send_down n s) = rx s /\
  logicIndex (send_down n s) = logicIndex s.
Proof.
  induction n as [|n IH]; intros s; [done|].
  cbn [send_down]. destruct (IH (send (Z.of_nat n) s)) as (-> & -> & -> & -> & ->).
  done.
Qed.

(** ** The slow routine *)

Lemma session_timer_setup s :
  session (timer_setup s)
  = (Z.max 99 (divider s), trigger s, trigger_values s, readCount s, delayCount s).
Proof.
  unfold timer_setup.
  destruct (Z.ltb_spec (divider s) 99); cbn;
    match goal with |- context [if ?c then _ else _] => destruct c end;
    cbn; unfold session; cbn; repeat f_equal; lia.
Qed.

Lemma timer_setup_fields s :
  logicdata (timer_setup s) = logicdata s /\ tick (timer_setup s) = tick s /\
  trace (timer_setup s) = trace s /\ tx (timer_setup s) = tx s /\
  rx (timer_setup s) = rx s /\ logicIndex (timer_setup s) = 0.
Proof.
  unfold timer_setup.
  destruct (Z.ltb_spec (divider s) 99); cbn;
    match goal with |- context [if ?c then _ else _] => destruct c end; done.
Qed.

Lemma eor_and_0_mask v tmp : eor_and v 0 tmp = 0.
Proof. apply Z.land_0_r. Qed.

(** The block of [acquireSlow] returns once the trigger has matched and
    [passes] further samples have been stored. *)
Lemma asm_slow_eq pins fuel s k :
  first_match pins (trigger_values s) (trigger s) (tick s) k ->
  (k < fuel)%nat ->
  (passes (to_uint16 (delayCount s)) <= fuel)%nat ->
  asm_slow pins fuel s
  = Some (Nat.iter (passes (to_uint16 (delayCount s)))
            (counted pins (store_wrap (to_uint16 (readCount s))))
            (Nat.iter (S k) (sampled pins (store_wrap (to_uint16 (readCount s))))
               (asm_enter s))).
Proof.
  intros [Hbefore Hat] Hk Hfuel. unfold asm_slow, TRIGLOOP, SAMPLOOP.
  rewrite (brne_trigger_first pins _ (samples_store_wrap _) _ _ k); auto.
  cbn [mbind option_bind].
  rewrite (brne_count_passes pins _ (DELAYCOUNT_store_wrap _));
    rewrite (DELAYCOUNT_iter_sampled pins _ (DELAYCOUNT_store_wrap _)); cbn [asm_enter DELAYCOUNT].
  - reflexivity.
  - apply to_uint16_range.
  - exact Hfuel.
Qed.

(** No return while the trigger does not match. *)
Lemma asm_slow_waits pins fuel s :
  (forall j, (j < fuel)%nat ->
     Z.land (Z.lxor (CHANPIN pins (tick s + j)) (trigger_values s)) (trigger s) <> 0) ->
  asm_slow pins fuel s = None.
Proof.
  intros Hnever. unfold asm_slow, TRIGLOOP.
  rewrite (brne_trigger_none pins _ (samples_store_wrap _)); [reflexivity|].
  exact Hnever.
Qed.

Lemma acquireSlow_eq pins fuel s k :
  first_match pins (trigger_values s) (trigger s) (tick s) k ->
  (k < fuel)%nat ->
  (passes (to_uint16 (delayCount s)) <= fuel)%nat ->
  exists a,
    asm_slow pins fuel (timer_setup s) = Some a /\
    samples a = (tick s + S k + passes (to_uint16 (delayCount s)))%nat /\
    acquireSlow pins fuel s
    = Some (dump_slow (set_logicIndex (to_int (LOGICDATAaddr a))
                         (asm_leave a (timer_setup s)))).
Proof.
  intros Hfirst Hk Hfuel.
  pose proof (session_timer_setup s) as Hs. unfold session in Hs.
  injection Hs as _ Htr Hval Hrc Hdc.
  destruct (timer_setup_fields s) as (_ & Htick & _).
  eexists. split; [|split].
  - apply (asm_slow_eq pins fuel (timer_setup s) k); rewrite ?Htr, ?Hval, ?Htick, ?Hdc; auto.
  - rewrite (samples_iter_counted pins _ (samples_store_wrap _)).
    rewrite (samples_iter_sampled pins _ (samples_store_wrap _)).
    rewrite Hdc. cbn [asm_enter samples]. rewrite Htick. lia.
  - unfold acquireSlow.
    rewrite (asm_slow_eq pins fuel (timer_setup s) k);
      rewrite ?Htr, ?Hval, ?Htick, ?Hdc; auto.
Qed.

Lemma tick_dump_slow s : tick (dump_slow s) = tick s.
Proof. unfold dump_slow. destruct (send_backward_fields (Z.to_nat (readCount s))
  (set_logicIndex (to_int (logicIndex s - 1)) s)) as (_ & _ & -> & _). done. Qed.

Lemma session_dump_slow s : session (dump_slow s) = session s.
Proof. unfold dump_slow. destruct (send_backward_fields (Z.to_nat (readCount s))
  (set_logicIndex (to_int (logicIndex s - 1)) s)) as (-> & _). done. Qed.

(** The number of samples that [acquireSlow] takes: those up to the
    trigger, and [passes] of the delay count after it. *)
Lemma acquireSlow_samples pins fuel s k :
  first_match pins (trigger_values s) (trigger s) (tick s) k ->
  (k < fuel)%nat ->
  (passes (to_uint16 (delayCount s)) <= fuel)%nat ->
  exists s',
    acquireSlow pins fuel s = Some s' /\
    tick s' = (tick s + S k + passes (to_uint16 (delayCount s)))%nat /\
    session s'
    = (Z.max 99 (divider s), trigger s, trigger_values s, readCount s, delayCount s).
Proof.
  intros Hfirst Hk Hfuel.
  destruct (acquireSlow_eq pins fuel s k Hfirst Hk Hfuel) as (a & _ & Hsamples & ->).
  eexists. split; [reflexivity|]. split.
  - rewrite tick_dump_slow. exact Hsamples.
  - rewrite session_dump_slow. rewrite <- session_timer_setup. reflexivity.
Qed.

(** ** The dispatcher on [SUMP_ARM] *)

Lemma loop_arm mcu pins fuel s r :
  rx s = SUMP_ARM :: r ->
  loop mcu pins fuel s
  = acquire pins fuel
      (set_logicdata (replicate (Z.to_nat (MAX_CAPTURE_SIZE mcu)) 0)
         (set_cmdByte SUMP_ARM (set_rx r s))).
Proof. intros H. unfold loop, Serial_read. rewrite H. reflexivity. Qed.

Lemma loop_idle mcu pins fuel s : rx s = [] -> loop mcu pins fuel s = Some s.
Proof. intros H. unfold loop. rewrite H. reflexivity. Qed.

Lemma run_idle mcu pins fuel n : forall s,
  rx s = [] -> run mcu pins fuel n s = Some s.
Proof.
  induction n as [|n IH]; intros s H; [reflexivity|].
  cbn [run]. rewrite loop_idle by exact H. cbn. apply IH, H.
Qed.

Arguments passes : simpl never.

Lemma passes_0 : Z.of_nat (passes 0) = 65536.
Proof. unfold passes. cbn [Z.eqb]. rewrite Z2Nat.id; lia. Qed.

Lemma passes_pos d : 0 < d < 65536 -> Z.of_nat (passes d) = d.
Proof.
  intros H. unfold passes. destruct (Z.eqb_spec d 0); [lia|].
  rewrite Z2Nat.id; lia.
Qed.

Lemma acquire_slow_branch pins fuel s :
  divider s <> 19 -> divider s <> 49 ->
  acquire pins fuel s = acquireSlow pins fuel s.
Proof.
  intros H19 H49. unfold acquire.
  destruct (Z.eqb_spec (divider s) 19); [done|].
  destruct (Z.eqb_spec (divider s) 49); done.
Qed.

Lemma first_match_no_mask pins v t : first_match pins v 0 t 0.
Proof. split; [intros j Hj; lia | apply Z.land_0_r]. Qed.

(** The first [SUMP_ARM] after power-up. *)
Lemma first_arm mcu pins fuel :
  65536 <= Z.of_nat fuel ->
  exists s,
    receive mcu pins fuel [SUMP_ARM] (power_up mcu) = Some s /\
    Z.of_nat (tick s) = 65537 /\
    session s = (99, 0, 0, MAX_CAPTURE_SIZE mcu, 0).
Proof.
  intros Hfuel. unfold receive. cbn [length run].
  rewrite (loop_arm mcu pins fuel _ []) by reflexivity.
  rewrite acquire_slow_branch by (cbn; lia).
  match goal with |- context [acquireSlow pins fuel ?s0] =>
    destruct (acquireSlow_samples pins fuel s0 0) as (s' & -> & Htick & Hsession)
  end.
  - apply first_match_no_mask.
  - lia.
  - cbn [delayCount set_logicdata set_cmdByte set_rx power_up].
    change (to_uint16 0) with 0. pose proof passes_0. lia.
  - exists s'. cbn [mbind option_bind]. split; [reflexivity|]. split.
    + rewrite Htick. cbn [delayCount set_logicdata set_cmdByte set_rx power_up tick].
      change (to_uint16 0) with 0. pose proof passes_0. lia.
    + rewrite Hsession. reflexivity.
Qed.

(** C2 (code defect).  Specified: in [acquireSlow], once a stored sample
    satisfies the trigger, exactly [delayCount] further samples are stored,
    and none when [delayCount] is 0.  The code: [SAMPLOOP] stores a sample
    before [sbiw]/[brne] test the counter, so entered with the counter at 0
    it stores 65536 samples; [delayCount] is 0 at power-up, and the first
    arm then takes 1 + 65536 samples. *)
Theorem zero_delay_count_samples_65536 :
  forall mcu pins fuel,
    65536 <= Z.of_nat fuel ->
    (forall stop a,
       DELAYCOUNT a = 0 ->
       exists a',
         SAMPLOOP pins stop fuel a = Some a' /\
         Z.of_nat (samples a') = Z.of_nat (samples a) + 65536) /\
    delayCount (power_up mcu) = 0 /\
    exists s,
      receive mcu pins fuel [SUMP_ARM] (power_up mcu) = Some s /\
      Z.of_nat (tick s) = 1 + 65536.
Proof.
  intros mcu pins fuel Hfuel. split; [|split; [reflexivity|]].
  - intros stop a Hd. unfold SAMPLOOP.
    rewrite (brne_count_passes pins _ (DELAYCOUNT_store_wrap _)); rewrite Hd;
      [|lia|pose proof passes_0; lia].
    eexists. split; [reflexivity|].
    rewrite (samples_iter_counted pins _ (samples_store_wrap _)).
    pose proof passes_0. lia.
  - destruct (first_arm mcu pins fuel Hfuel) as (s & Hs & Htick & _).
    exists s. split; [exact Hs | lia].
Qed.

Lemma zero_delay_count_samples_65536_witness :
  65536 <= Z.of_nat (Z.to_nat 65536) /\
  exists s,
    receive ATmega328P (fun _ => 0) (Z.to_nat 65536) [SUMP_ARM]
      (power_up ATmega328P) = Some s /\
    Z.of_nat (tick s) = 1 + 65536.
Proof.
  split; [lia|].
  apply (zero_delay_count_samples_65536 ATmega328P (fun _ => 0) (Z.to_nat 65536)).
  lia.
Defined.

(** C10.  At power-up the session state is [readCount] = capacity,
    [delayCount] = 0, [divider] = 0, trigger mask 0 and trigger values 0;
    the first arm goes to [acquireSlow] (0 is neither 19 nor 49), which
    raises [divider] to 99, and its trigger loop is left after the first
    sample. *)
Theorem power_up_defaults :
  forall mcu pins,
    session (power_up mcu) = (0, 0, 0, MAX_CAPTURE_SIZE mcu, 0) /\
    (forall fuel,
       acquire pins fuel (power_up mcu) = acquireSlow pins fuel (power_up mcu)) /\
    divider (timer_setup (power_up mcu)) = 99 /\
    (forall fuel,
       exists a,
         TRIGLOOP pins (to_uint16 (readCount (power_up mcu)))
           (trigger_values (power_up mcu)) (trigger (power_up mcu))
           (S fuel) (asm_enter (timer_setup (power_up mcu))) = Some a /\
         samples a = 1%nat) /\
    (forall fuel,
       65536 <= Z.of_nat fuel ->
       exists s,
         receive mcu pins fuel [SUMP_ARM] (power_up mcu) = Some s /\
         divider s = 99).
Proof.
  intros mcu pins. split; [reflexivity|]. split; [|split; [|split]].
  - intros fuel. apply acquire_slow_branch; cbn; lia.
  - reflexivity.
  - intros fuel. unfold TRIGLOOP.
    rewrite (brne_trigger_first pins _ (samples_store_wrap _) _ _ 0%nat).
    + eexists. split; [reflexivity|].
      rewrite (samples_iter_sampled pins _ (samples_store_wrap _)). reflexivity.
    + lia.
    + intros j Hj. lia.
    + apply eor_and_0_mask.
  - intros fuel Hfuel.
    destruct (first_arm mcu pins fuel Hfuel) as (s & Hs & _ & Hsession).
    exists s. split; [exact Hs|]. unfold session in Hsession. congruence.
Qed.

Lemma power_up_defaults_witness :
  65536 <= Z.of_nat (Z.to_nat 65536) /\
  exists s,
    receive ATmega2560 (fun _ => 0) (Z.to_nat 65536) [SUMP_ARM]
      (power_up ATmega2560) = Some s /\
    divider s = 99.
Proof.
  split; [lia|].
  apply (power_up_defaults ATmega2560 (fun _ => 0)). lia.
Defined.

(** ** Framing of the commands *)

Lemma getCmd_payload p0 p1 p2 p3 rest s :
  rx s = p0 :: p1 :: p2 :: p3 :: rest ->
  rx (getCmd s) = rest /\ tx (getCmd s) = tx s /\
  session (getCmd s) = session s /\
  cmdBytes (getCmd s)
  = [to_byte p0; to_byte p1; to_byte p2; to_byte p3; nth 4 (cmdBytes s) 0].
Proof.
  intros H. unfold getCmd, Serial_read. rewrite H. cbn.
  rewrite !to_byte_idemp. done.
Qed.

(** C8.  Every opcode that carries a payload has its four payload bytes
    taken from the serial buffer by the pass of [loop] that reads the
    opcode, nothing is sent in reply, and the next pass starts at the byte
    after the payload; the bytes 0xC4, 0, 0, 0, 0, 0x02 are answered by
    '1', 'A', 'L', 'S' and nothing else. *)
Theorem payload_is_consumed :
  forall mcu pins fuel,
    (forall c p0 p1 p2 p3 rest s,
       In c five_byte_opcodes ->
       exists s',
         loop mcu pins fuel (set_rx (c :: p0 :: p1 :: p2 :: p3 :: rest) s)
         = Some s' /\
         rx s' = rest /\ tx s' = tx s) /\
    (forall s,
       exists s',
         receive mcu pins fuel [0xC4; 0; 0; 0; 0; 0x02] (set_rx [] s) = Some s' /\
         rx s' = [] /\ tx s' = tx s ++ [49; 65; 76; 83]).
Proof.
  intros mcu pins fuel. split.
  - intros c p0 p1 p2 p3 rest s Hc.
    unfold five_byte_opcodes in Hc. cbn [In] in Hc.
    repeat (destruct Hc as [<-|Hc]); [..|done];
      (eexists; split; [reflexivity|]; split; reflexivity).
  - intros s. eexists. split; [vm_compute; reflexivity|].
    split; [reflexivity|]. cbn [tx].
    change ((((tx s ++ [49]) ++ [65]) ++ [76]) ++ [83]
            = tx s ++ [49; 65; 76; 83]).
    rewrite <- !app_assoc. reflexivity.
Qed.

Lemma payload_is_consumed_witness :
  In 0xC4 five_byte_opcodes /\
  exists s',
    loop ATmega328P (fun _ => 0) 0
      (set_rx [0xC4; 1; 2; 3; 4; 0x02] (power_up ATmega328P)) = Some s' /\
    rx s' = [0x02] /\ tx s' = tx (power_up ATmega328P).
Proof.
  assert (H : In 0xC4 five_byte_opcodes) by (vm_compute; tauto).
  split; [exact H|].
  apply (proj1 (payload_is_consumed ATmega328P (fun _ => 0) 0%nat)), H.
Defined.

(** ** The trigger test *)

Lemma brne_trigger_1 pins body v m a :
  brne_trigger pins body v m 1 a
  = if Z.land (Z.lxor (CHANPIN pins (samples a)) v) m =? 0
    then Some (sampled pins body a) else None.
Proof. reflexivity. Qed.

Lemma brne_trigger_no_mask pins body v fuel a :
  brne_trigger pins body v 0 (S fuel) a = Some (sampled pins body a).
Proof. cbn [brne_trigger]. rewrite eor_and_0_mask. reflexivity. Qed.

(** C7.  A sample [s] ends the trigger loop of [acquireSlow] and of
    [acquire2MHz] exactly when [(s XOR v) AND m = 0]; the loops end at the
    first such sample; with [m = 0] they end at the first sample examined,
    which is the one sample stored. *)
Theorem trigger_test :
  forall pins stop (s v m : Z) (a : Asm),
    CHANPIN pins (samples a) = s ->
    (is_Some (TRIGLOOP pins stop v m 1 a) <-> Z.land (Z.lxor s v) m = 0) /\
    (is_Some (TRIGLOOP2 pins v m 1 a) <-> Z.land (Z.lxor s v) m = 0) /\
    (forall k fuel,
       first_match pins v m (samples a) k -> (k < fuel)%nat ->
       exists a1 a2,
         TRIGLOOP pins stop v m fuel a = Some a1 /\
         TRIGLOOP2 pins v m fuel a = Some a2 /\
         samples a1 = (samples a + S k)%nat /\
         samples a2 = (samples a + S k)%nat) /\
    (m = 0 ->
     forall fuel,
       exists a1 a2,
         TRIGLOOP pins stop v m (S fuel) a = Some a1 /\
         TRIGLOOP2 pins v m (S fuel) a = Some a2 /\
         samples a1 = S (samples a) /\ samples a2 = S (samples a) /\
         accesses a1 = Store (LOGICDATAaddr a) s :: accesses a /\
         accesses a2 = Store (LOGICDATAaddr a) s :: accesses a).
Proof.
  intros pins stop s v m a Hs. unfold TRIGLOOP, TRIGLOOP2.
  split; [|split; [|split]].
  - rewrite brne_trigger_1, Hs.
    destruct (Z.eqb_spec (Z.land (Z.lxor s v) m) 0) as [E|E].
    + split; [done | intros _; eexists; reflexivity].
    + split; [intros [x Hx]; discriminate | done].
  - rewrite brne_trigger_1, Hs.
    destruct (Z.eqb_spec (Z.land (Z.lxor s v) m) 0) as [E|E].
    + split; [done | intros _; eexists; reflexivity].
    + split; [intros [x Hx]; discriminate | done].
  - intros k fuel [Hbefore Hat] Hk.
    rewrite (brne_trigger_first pins _ (samples_store_wrap stop) v m k) by auto.
    rewrite (brne_trigger_first pins _ samples_st v m k) by auto.
    eexists _, _. split; [reflexivity|]. split; [reflexivity|].
    rewrite (samples_iter_sampled pins _ (samples_store_wrap stop)).
    rewrite (samples_iter_sampled pins _ samples_st). done.
  - intros -> fuel. rewrite !brne_trigger_no_mask.
    eexists _, _. split; [reflexivity|]. split; [reflexivity|].
    rewrite (samples_sampled pins _ (samples_store_wrap stop)).
    rewrite (samples_sampled pins _ samples_st).
    split; [done|]. split; [done|]. split.
    + unfold sampled, store_wrap, wrap_at. rewrite Hs.
      destruct (_ =? _); reflexivity.
    + unfold sampled. rewrite Hs. reflexivity.
Qed.

Lemma trigger_test_witness :
  CHANPIN (fun _ => 0x15) (samples (mkAsm 0 4 [0; 0; 0; 0] 0 [])) = 0x15 /\
  (is_Some (TRIGLOOP (fun _ => 0x15) 4 0x05 0x0F 1 (mkAsm 0 4 [0; 0; 0; 0] 0 []))
   <-> Z.land (Z.lxor 0x15 0x05) 0x0F = 0) /\
  exists a1 a2,
    TRIGLOOP (fun _ => 0x15) 4 0x05 0 1 (mkAsm 0 4 [0; 0; 0; 0] 0 []) = Some a1 /\
    TRIGLOOP2 (fun _ => 0x15) 0x05 0 1 (mkAsm 0 4 [0; 0; 0; 0] 0 []) = Some a2 /\
    samples a1 = 1%nat /\ samples a2 = 1%nat.
Proof.
  split; [reflexivity|]. split.
  - apply (trigger_test (fun _ => 0x15) 4 0x15 0x05 0x0F
             (mkAsm 0 4 [0; 0; 0; 0] 0 [])).
    reflexivity.
  - destruct (trigger_test (fun _ => 0x15) 4 0x15 0x05 0
                (mkAsm 0 4 [0; 0; 0; 0] 0 []) eq_refl) as (_ & _ & _ & H).
    destruct (H eq_refl 0%nat) as (a1 & a2 & H1 & H2 & H3 & H4 & _).
    exists a1, a2. split; [exact H1|]. split; [exact H2|].
    split; [exact H3 | exact H4].
Defined.

(** ** The reversed transmission of [acquireSlow] *)

Lemma send_fields i s :
  tx (send i s) = tx s ++ [to_byte (array_get (logicdata s) i)] /\
  trace (send i s) = Load i :: trace s /\
  logicdata (send i s) = logicdata s /\
  readCount (send i s) = readCount s /\
  logicIndex (send i s) = logicIndex s.
Proof. done. Qed.

(** Entered with [logicIndex] from -1 to [readCount - 1], the loop sends
    the entries at [logicIndex], [logicIndex - 1], ... modulo
    [readCount]. *)
Lemma send_backward_spec n : forall s,
  0 < readCount s < 32768 ->
  -1 <= logicIndex s < readCount s ->
  tx (send_backward n s)
  = tx s ++ map (fun i => to_byte (array_get (logicdata s)
                    ((logicIndex s - Z.of_nat i) mod readCount s))) (seq 0 n) /\
  trace (send_backward n s)
  = rev (map (fun i => Load ((logicIndex s - Z.of_nat i) mod readCount s))
           (seq 0 n)) ++ trace s.
Proof.
  induction n as [|n IH]; intros s Hrc Hli.
  { cbn. rewrite app_nil_r. done. }
  cbn [send_backward].
  set (s1 := if logicIndex s <? 0
             then set_logicIndex (to_int (readCount s - 1)) s else s).
  set (s2 := set_logicIndex _ (send (logicIndex s1) s1)).
  pose proof (Z.mod_pos_bound (logicIndex s) (readCount s) ltac:(lia)) as Hmod.
  assert (Hs1 : logicIndex s1 = logicIndex s mod readCount s /\
                logicdata s1 = logicdata s /\ readCount s1 = readCount s /\
                tx s1 = tx s /\ trace s1 = trace s).
  { subst s1. destruct (Z.ltb_spec (logicIndex s) 0).
    - cbn. rewrite to_int_id by lia. split; [|done].
      replace (logicIndex s) with (-1) by lia.
      apply Z.mod_unique with (-1); lia.
    - rewrite Z.mod_small by lia. done. }
  destruct Hs1 as (Hli1 & Hdata1 & Hrc1 & Htx1 & Htrace1).
  assert (Hs2 : logicIndex s2 = logicIndex s mod readCount s - 1 /\
                logicdata s2 = logicdata s /\ readCount s2 = readCount s /\
                tx s2 = tx s ++ [to_byte (array_get (logicdata s)
                                   (logicIndex s mod readCount s))] /\
                trace s2 = Load (logicIndex s mod readCount s) :: trace s).
  { subst s2. cbn. rewrite Hli1, Hdata1, Hrc1, Htx1, Htrace1.
    rewrite to_int_id by lia. done. }
  clearbody s2. clear s1 Hli1 Hdata1 Hrc1 Htx1 Htrace1.
  destruct Hs2 as (Hli2 & Hdata2 & Hrc2 & Htx2 & Htrace2).
  destruct (IH s2) as [-> ->]; [lia..|].
  rewrite Hli2, Hdata2, Hrc2, Htx2, Htrace2.
  assert (Hshift : forall i,
    (logicIndex s mod readCount s - 1 - Z.of_nat i) mod readCount s
    = (logicIndex s - Z.of_nat (S i)) mod readCount s).
  { intros i.
    replace (logicIndex s mod readCount s - 1 - Z.of_nat i)
      with (logicIndex s mod readCount s - (1 + Z.of_nat i)) by lia.
    rewrite Zminus_mod_idemp_l. f_equal. lia. }
  cbn [seq map rev]. rewrite <- !seq_shift, !map_map.
  change (Z.of_nat 0) with 0. rewrite Z.sub_0_r. split.
  - rewrite <- app_assoc. cbn [app]. do 2 f_equal.
    apply map_ext. intros i. rewrite Hshift. reflexivity.
  - rewrite <- app_assoc. cbn [app]. do 2 f_equal.
    apply map_ext. intros i. rewrite Hshift. reflexivity.
Qed.

(** C6.  With [REVERSED], after a capture with [0 < readCount <= capacity]
    (a multiple of 4, as every read count is) that ends with the cursor at
    [c], [0 <= c < readCount], the dump sends [readCount] bytes: the entries
    at [c - 1], [c - 2], ... down to 0, then from [readCount - 1] down to
    [c]; slot [c] is sent last, not first.  For [readCount = 8] and cursor 3
    the indices are 2, 1, 0, 7, 6, 5, 4, 3. *)
Theorem reversed_dump_order :
  forall mcu (s : Sketch),
    0 < readCount s <= MAX_CAPTURE_SIZE mcu ->
    readCount s mod 4 = 0 ->
    0 <= logicIndex s < readCount s ->
    let idx := map (fun i => (logicIndex s - 1 - Z.of_nat i) mod readCount s)
                 (seq 0 (Z.to_nat (readCount s))) in
    tx (dump_slow s)
    = tx s ++ map (fun i => to_byte (array_get (logicdata s) i)) idx /\
    rev (trace (dump_slow s)) = rev (trace s) ++ map Load idx /\
    Z.of_nat (length idx) = readCount s /\
    head idx = Some ((logicIndex s - 1) mod readCount s) /\
    (logicIndex s - 1) mod readCount s <> logicIndex s /\
    last idx = Some (logicIndex s) /\
    Forall (fun i => 0 <= i < readCount s) idx.
Proof.
  intros mcu s Hrc H4 Hc idx.
  pose proof (MAX_CAPTURE_SIZE_range mcu) as Hmax.
  assert (Hrc4 : 4 <= readCount s).
  { apply Z.mod_divide in H4; [|lia]. destruct H4 as [q Hq]. lia. }
  unfold dump_slow. rewrite (to_int_id (logicIndex s - 1)) by lia.
  destruct (send_backward_spec (Z.to_nat (readCount s))
              (set_logicIndex (logicIndex s - 1) s)) as [Htx Htrace].
  { cbn. lia. }
  { cbn. lia. }
  cbn [tx trace logicdata readCount logicIndex set_logicIndex] in Htx, Htrace.
  split; [|split; [|split; [|split; [|split; [|split]]]]].
  - rewrite Htx. subst idx. rewrite map_map. reflexivity.
  - rewrite Htrace. subst idx. rewrite rev_app_distr, rev_involutive, map_map.
    reflexivity.
  - subst idx. rewrite length_map, length_seq. lia.
  - subst idx. destruct (Z.to_nat (readCount s)) as [|n] eqn:E; [lia|].
    cbn [seq map head]. change (Z.of_nat 0) with 0. rewrite Z.sub_0_r. reflexivity.
  - destruct (Z.eq_dec (logicIndex s) 0) as [E|E].
    + rewrite E. replace (0 - 1) with (-1) by lia.
      rewrite <- (Z.mod_unique (-1) (readCount s) (-1) (readCount s - 1)); lia.
    + rewrite Z.mod_small; lia.
  - subst idx. destruct (Z.to_nat (readCount s)) as [|n] eqn:E; [lia|].
    rewrite seq_S, map_app. cbn [map]. rewrite last_snoc. f_equal.
    replace (logicIndex s - 1 - Z.of_nat (0 + n))
      with (logicIndex s + (-1) * readCount s) by lia.
    rewrite Z.mod_add by lia. apply Z.mod_small. lia.
  - subst idx. apply Forall_forall. intros i Hi.
    apply list_elem_of_In, in_map_iff in Hi. destruct Hi as (j & <- & _).
    apply Z.mod_pos_bound. lia.
Qed.

Lemma reversed_dump_order_witness :
  0 < readCount capture_8_3 <= MAX_CAPTURE_SIZE ATmega328P /\
  readCount capture_8_3 mod 4 = 0 /\
  0 <= logicIndex capture_8_3 < readCount capture_8_3 /\
  rev (trace (dump_slow capture_8_3)) = map Load [2; 1; 0; 7; 6; 5; 4; 3] /\
  tx (dump_slow capture_8_3) = [12; 11; 10; 17; 16; 15; 14; 13].
Proof.
  assert (H1 : 0 < readCount capture_8_3 <= MAX_CAPTURE_SIZE ATmega328P)
    by (cbn; lia).
  assert (H2 : readCount capture_8_3 mod 4 = 0) by reflexivity.
  assert (H3 : 0 <= logicIndex capture_8_3 < readCount capture_8_3)
    by (cbn; lia).
  split; [exact H1|]. split; [exact H2|]. split; [exact H3|].
  destruct (reversed_dump_order ATmega328P capture_8_3 H1 H2 H3)
    as (Htx & Htrace & _).
  split; [exact Htrace | exact Htx].
Defined.

(** ** What an acquisition does to the session state *)

Lemma session_dump_2MHz s : session (dump_2MHz s) = session s.
Proof.
  unfold dump_2MHz.
  destruct (send_down_fields (Z.to_nat (to_int (readCount s - 1) + 1)) s)
    as (-> & _). done.
Qed.

Lemma acquireSlow_session pins fuel s s' :
  acquireSlow pins fuel s = Some s' ->
  session s'
  = (Z.max 99 (divider s), trigger s, trigger_values s, readCount s, delayCount s).
Proof.
  unfold acquireSlow. destruct (asm_slow pins fuel (timer_setup s)) as [a|]; [|done].
  cbn [mbind option_bind]. intros [= <-].
  rewrite session_dump_slow, <- session_timer_setup. reflexivity.
Qed.

Lemma acquire2MHz_session pins fuel s s' :
  acquire2MHz pins fuel s = Some s' ->
  session s'
  = (divider s, trigger s, trigger_values s, readCount s, to_int (readCount s - 1)).
Proof.
  unfold acquire2MHz.
  destruct (asm_2MHz pins fuel _) as [a|]; [|done].
  cbn [mbind option_bind]. intros [= <-].
  rewrite session_dump_2MHz. reflexivity.
Qed.

Lemma acquire5MHz_session pins fuel s s' :
  acquire5MHz pins fuel s = Some s' -> session s' = session s.
Proof.
  unfold acquire5MHz.
  destruct (wait5 pins _ _ fuel (tick s)) as [t|]; [|done].
  cbn [mbind option_bind]. intros [= <-].
  rewrite session_dump_2MHz. reflexivity.
Qed.

(** The session state after an acquisition that returns. *)
Lemma acquire_frame pins fuel s s' :
  acquire pins fuel s = Some s' ->
  session s'
  = (if (divider s =? 19) || (divider s =? 49) then divider s
     else Z.max 99 (divider s),
     trigger s, trigger_values s, readCount s,
     if divider s =? 49 then to_int (readCount s - 1) else delayCount s).
Proof.
  unfold acquire.
  destruct (Z.eqb_spec (divider s) 19) as [E19|E19].
  - intros H. apply acquire5MHz_session in H. rewrite H.
    destruct (Z.eqb_spec (divider s) 49); [lia|]. reflexivity.
  - destruct (Z.eqb_spec (divider s) 49) as [E49|E49]; intros H.
    + apply acquire2MHz_session in H. rewrite H. reflexivity.
    + apply acquireSlow_session in H. rewrite H. reflexivity.
Qed.

Lemma acquire_fields pins fuel s s' :
  acquire pins fuel s = Some s' ->
  trigger s' = trigger s /\
  trigger_values s' = trigger_values s /\
  readCount s' = readCount s /\
  divider s'
  = (if (divider s =? 19) || (divider s =? 49) then divider s
     else Z.max 99 (divider s)) /\
  delayCount s'
  = (if divider s =? 49 then to_int (readCount s - 1) else delayCount s).
Proof.
  intros H. apply acquire_frame in H. unfold session in H.
  injection H as -> -> -> -> ->. done.
Qed.

(** C3 (amended).  An acquisition that is started with a read count from 2
    up to the capacity leaves the trigger mask, the trigger values and
    [readCount] as they are.  [acquireSlow] raises [divider] to 99 when it is
    below 99 and leaves [delayCount]; [acquire2MHz] sets [delayCount] to
    [readCount - 1] and leaves [divider]; for [divider = 19] the routine is
    the one modelled from the spec, which changes nothing.  (With a read
    count outside that range the stores leave the array, and what they
    overwrite is not followed here.) *)
Theorem acquire_session :
  forall mcu pins fuel s s',
    1 < readCount s <= MAX_CAPTURE_SIZE mcu ->
    acquire pins fuel s = Some s' ->
    let slow := negb ((divider s =? 19) || (divider s =? 49)) in
    trigger s' = trigger s /\
    trigger_values s' = trigger_values s /\
    readCount s' = readCount s /\
    divider s' = (if slow then Z.max 99 (divider s) else divider s) /\
    delayCount s'
    = (if divider s =? 49 then to_int (readCount s - 1) else delayCount s) /\
    (slow = true -> 99 <= divider s -> session s' = session s).
Proof.
  intros mcu pins fuel s s' _ H slow.
  destruct (acquire_fields pins fuel s s' H) as (Htr & Hval & Hrc & Hdiv & Hdc).
  subst slow.
  destruct (Z.eqb_spec (divider s) 19) as [E19|E19];
    destruct (Z.eqb_spec (divider s) 49) as [E49|E49];
    cbn [orb negb] in *; repeat split; try done.
  intros _ H99. unfold session. rewrite Htr, Hval, Hrc, Hdiv, Hdc.
  rewrite Z.max_r by lia. reflexivity.
Qed.

Lemma acquire_session_witness :
  1 < readCount request_8_4 <= MAX_CAPTURE_SIZE ATmega328P /\
  exists s',
    acquire (fun _ => 0) 8 request_8_4 = Some s' /\
    divider s' = 99 /\ delayCount s' = 4 /\ readCount s' = 8.
Proof.
  assert (H1 : 1 < readCount request_8_4 <= MAX_CAPTURE_SIZE ATmega328P)
    by (cbn; lia).
  split; [exact H1|].
  destruct (acquire (fun _ => 0) 8 request_8_4) as [s'|] eqn:E;
    [|vm_compute in E; discriminate].
  exists s'. split; [reflexivity|].
  destruct (acquire_session ATmega328P _ _ _ _ H1 E)
    as (_ & _ & Hrc & Hdiv & Hdc & _).
  split; [exact Hdiv|]. split; [exact Hdc | exact Hrc].
Defined.

(** C3, as stated, fails.  With [readCount = 8], [delayCount = 4] and the
    other globals as at power-up, [acquireSlow] changes [divider] from 0 to
    99; with [divider = 49] in addition, [acquire2MHz] changes [delayCount]
    from 4 to 7. *)
Lemma acquire_changes_session :
  (exists s',
     acquire (fun _ => 0) 8 request_8_4 = Some s' /\
     divider request_8_4 = 0 /\ divider s' = 99 /\
     session s' <> session request_8_4) /\
  (exists s',
     acquire (fun _ => 0) 8 (set_divider 49 request_8_4) = Some s' /\
     delayCount (set_divider 49 request_8_4) = 4 /\ delayCount s' = 7 /\
     session s' <> session (set_divider 49 request_8_4)).
Proof.
  split.
  - destruct (acquire (fun _ => 0) 8 request_8_4) as [s'|] eqn:E;
      [|vm_compute in E; discriminate].
    exists s'. split; [reflexivity|].
    destruct (acquire_fields _ _ _ _ E) as (_ & _ & _ & Hdiv & _).
    split; [reflexivity|]. split; [exact Hdiv|].
    intros H. apply (f_equal (fun p => fst (fst (fst (fst p))))) in H.
    cbn [session fst] in H. rewrite Hdiv in H. vm_compute in H. discriminate.
  - destruct (acquire (fun _ => 0) 8 (set_divider 49 request_8_4))
      as [s'|] eqn:E; [|vm_compute in E; discriminate].
    exists s'. split; [reflexivity|].
    destruct (acquire_fields _ _ _ _ E) as (_ & _ & _ & _ & Hdc).
    split; [reflexivity|]. split; [exact Hdc|].
    intros H. apply (f_equal snd) in H.
    cbn [session snd] in H. rewrite Hdc in H. vm_compute in H. discriminate.
Qed.

(** ** The 2 MHz routine *)

Lemma array_set_nat l (i : nat) v : array_set l (Z.of_nat i) v = <[i := v]> l.
Proof.
  unfold array_set. destruct (Z.leb_spec 0 (Z.of_nat i)); [|lia].
  rewrite Nat2Z.id. reflexivity.
Qed.

(** Passes of [TRIGLOOP2]: every sample goes to the entry the pointer is
    at, one over the other. *)
Lemma hold_iter pins n a (P : nat) :
  LOGICDATAaddr a = Z.of_nat P ->
  let a' := Nat.iter n (sampled pins st) a in
  LOGICDATAaddr a' = Z.of_nat P /\
  DELAYCOUNT a' = DELAYCOUNT a /\
  samples a' = (samples a + n)%nat /\
  accesses a'
  = rev (map (fun j => Store (Z.of_nat P) (CHANPIN pins (samples a + j))) (seq 0 n))
    ++ accesses a /\
  ram a' = match n with
           | O => ram a
           | S m => <[P := CHANPIN pins (samples a + m)]> (ram a)
           end.
Proof.
  intros HP. induction n as [|n IH]; cbn zeta.
  { cbn. rewrite Nat.add_0_r. done. }
  rewrite Nat.iter_succ. cbn zeta in IH.
  destruct IH as (Hp & Hd & Hs & Hacc & Hram).
  set (an := Nat.iter n (sampled pins st) a) in *. clearbody an.
  unfold sampled, st. cbn [LOGICDATAaddr DELAYCOUNT samples accesses ram next_sample].
  rewrite Hp, Hd, Hs, Hacc, Hram, array_set_nat.
  split; [done|]. split; [done|]. split; [lia|]. split.
  - rewrite seq_S, map_app, rev_app_distr. reflexivity.
  - destruct n; [done|]. apply list_insert_insert_eq.
Qed.

(** Passes of [SAMPLOOP2]: the samples go to consecutive entries. *)
Lemma linear_iter pins n a (P : nat) :
  LOGICDATAaddr a = Z.of_nat P ->
  (P + n <= length (ram a))%nat ->
  Z.of_nat (P + n) < 65536 ->
  let a' := Nat.iter n (counted pins st_postinc) a in
  LOGICDATAaddr a' = Z.of_nat (P + n) /\
  samples a' = (samples a + n)%nat /\
  accesses a'
  = rev (map (fun i => Store (Z.of_nat (P + i)) (CHANPIN pins (samples a + i)))
           (seq 0 n)) ++ accesses a /\
  ram a' = take P (ram a)
           ++ map (fun i => CHANPIN pins (samples a + i)) (seq 0 n)
           ++ drop (P + n) (ram a).
Proof.
  intros HP. induction n as [|n IH]; intros Hlen Hmax; cbn zeta.
  { cbn. rewrite !Nat.add_0_r, take_drop. done. }
  rewrite Nat.iter_succ. cbn zeta in IH.
  destruct IH as (Hp & Hs & Hacc & Hram); [lia..|].
  set (an := Nat.iter n (counted pins st_postinc) a) in *. clearbody an.
  unfold counted, sampled, sbiw1, st_postinc, adiw1, set_ptr, st.
  cbn [LOGICDATAaddr DELAYCOUNT samples accesses ram next_sample].
  rewrite Hp, Hs, Hacc, Hram, array_set_nat.
  split; [|split; [lia|split]].
  - rewrite to_uint16_id by lia. lia.
  - rewrite seq_S, map_app, rev_app_distr. reflexivity.
  - destruct (lookup_lt_is_Some_2 (ram a) (P + n)) as [x Hx]; [lia|].
    rewrite (drop_S _ x) by exact Hx.
    rewrite app_assoc, insert_app_r_alt
      by (rewrite length_app, length_take, length_map, length_seq; lia).
    rewrite length_app, length_take, length_map, length_seq.
    replace (P + n - (P `min` length (ram a) + n))%nat with 0%nat by lia.
    cbn [insert list_insert]. rewrite seq_S, map_app, <- !app_assoc.
    cbn [map app]. replace (P + S n)%nat with (S (P + n)) by lia. reflexivity.
Qed.

Lemma send_down_spec n : forall s,
  tx (send_down n s)
  = tx s ++ map (fun i => to_byte (array_get (logicdata s) (Z.of_nat i)))
              (rev (seq 0 n)) /\
  trace (send_down n s) = map (fun i => Load (Z.of_nat i)) (seq 0 n) ++ trace s.
Proof.
  induction n as [|n IH]; intros s.
  { cbn. rewrite app_nil_r. done. }
  cbn [send_down]. destruct (IH (send (Z.of_nat n) s)) as [-> ->].
  destruct (send_fields (Z.of_nat n) s) as (-> & -> & -> & _).
  rewrite seq_S, rev_app_distr, map_app, <- !app_assoc.
  cbn [rev app map Nat.add]. split; [reflexivity|].
  rewrite map_app, <- app_assoc. reflexivity.
Qed.

(** The block of [acquire2MHz], entered with [delayCount = readCount - 1]
    for a read count from 2 up to the capacity. *)
Lemma asm_2MHz_eq mcu pins fuel s k (n : nat) :
  Z.of_nat (S n) = readCount s ->
  readCount s <= MAX_CAPTURE_SIZE mcu ->
  (1 <= n)%nat ->
  length (logicdata s) = Z.to_nat (MAX_CAPTURE_SIZE mcu) ->
  delayCount s = to_int (readCount s - 1) ->
  first_match pins (trigger_values s) (trigger s) (tick s) k ->
  (k < fuel)%nat -> (n <= fuel)%nat ->
  exists a,
    asm_2MHz pins fuel s = Some a /\
    samples a = (tick s + k + S n)%nat /\
    rev (accesses a)
    = rev (trace s)
      ++ map (fun j => Store 0 (CHANPIN pins (tick s + j))) (seq 0 (S k))
      ++ map (fun i => Store (Z.of_nat i) (CHANPIN pins (tick s + k + i))) (seq 1 n) /\
    ram a = map (fun i => CHANPIN pins (tick s + k + i)) (seq 0 (S n))
            ++ drop (S n) (logicdata s).
Proof.
  intros Hn Hmax Hn1 Hlen Hdc [Hbefore Hat] Hk Hfuel.
  pose proof (MAX_CAPTURE_SIZE_range mcu) as Hrange.
  unfold asm_2MHz, TRIGLOOP2, SAMPLOOP2.
  rewrite (brne_trigger_first pins _ samples_st _ _ k) by auto.
  cbn [mbind option_bind].
  destruct (hold_iter pins (S k) (asm_enter s) 0 eq_refl)
    as (Hp1 & Hd1 & Hs1 & Hacc1 & Hram1).
  set (a1 := Nat.iter (S k) (sampled pins st) (asm_enter s)) in *. clearbody a1.
  cbn [asm_enter LOGICDATAaddr DELAYCOUNT samples accesses ram] in *.
  assert (Hd : DELAYCOUNT (adiw1 a1) = to_uint16 (Z.of_nat n)).
  { cbn. rewrite Hd1, Hdc, to_int_id by lia. f_equal. lia. }
  rewrite (brne_count_iter pins _ DELAYCOUNT_st_postinc n) by (auto; lia).
  destruct (linear_iter pins n (adiw1 a1) 1) as (Hp2 & Hs2 & Hacc2 & Hram2).
  { cbn. rewrite Hp1. reflexivity. }
  { cbn. rewrite Hram1, length_insert. lia. }
  { lia. }
  set (a2 := Nat.iter n (counted pins st_postinc) (adiw1 a1)) in *. clearbody a2.
  cbn [adiw1 set_ptr LOGICDATAaddr DELAYCOUNT samples accesses ram] in *.
  exists a2. split; [reflexivity|]. split; [lia|]. split.
  - rewrite Hacc2, Hacc1, !rev_app_distr, !rev_involutive, <- app_assoc.
    do 2 f_equal. rewrite <- seq_shift, map_map. apply map_ext. intros i.
    rewrite Hs1. do 2 f_equal. lia.
  - rewrite Hram2, Hram1, Hs1.
    destruct (logicdata s) as [|x l] eqn:El; [cbn in Hlen; lia|].
    cbn [insert list_insert take drop seq map app Nat.add].
    rewrite take_0, Nat.add_0_r. cbn [app]. f_equal.
    rewrite <- seq_shift, map_map. f_equal.
    apply map_ext. intros i. f_equal. lia.
Qed.

Lemma dump_2MHz_spec s :
  0 < readCount s < 32768 ->
  trace (dump_2MHz s)
  = map (fun i => Load (Z.of_nat i)) (seq 0 (Z.to_nat (readCount s))) ++ trace s /\
  tx (dump_2MHz s)
  = tx s ++ map (fun i => to_byte (array_get (logicdata s) (Z.of_nat i)))
              (rev (seq 0 (Z.to_nat (readCount s)))) /\
  logicdata (dump_2MHz s) = logicdata s /\
  tick (dump_2MHz s) = tick s.
Proof.
  intros Hrc. unfold dump_2MHz. rewrite to_int_id by lia.
  replace (readCount s - 1 + 1) with (readCount s) by lia.
  destruct (send_down_spec (Z.to_nat (readCount s)) s) as [-> ->].
  destruct (send_down_fields (Z.to_nat (readCount s)) s) as (_ & -> & -> & _).
  done.
Qed.

(** C5 (amended).  In [acquire2MHz], for a read count from 2 up to the
    capacity and an input whose first sample satisfying the trigger is the
    [k]-th after the start: during the trigger wait every sample examined is
    stored at position 0, each over the one before, and no other position
    is written, so that the first sample satisfying the trigger ends up at
    position 0; exactly [readCount - 1] further samples are then stored
    linearly at positions 1 to [readCount - 1]; the rest of the buffer is
    untouched, and the dump reads positions [readCount - 1] down to 0. *)
Theorem acquire2MHz_capture :
  forall mcu pins fuel s k,
    1 < readCount s <= MAX_CAPTURE_SIZE mcu ->
    length (logicdata s) = Z.to_nat (MAX_CAPTURE_SIZE mcu) ->
    first_match pins (trigger_values s) (trigger s) (tick s) k ->
    (k < fuel)%nat ->
    readCount s - 1 <= Z.of_nat fuel ->
    let n := Z.to_nat (readCount s) in
    exists s',
      acquire2MHz pins fuel s = Some s' /\
      rev (trace s')
      = rev (trace s)
        ++ map (fun j => Store 0 (CHANPIN pins (tick s + j))) (seq 0 (S k))
        ++ map (fun i => Store (Z.of_nat i) (CHANPIN pins (tick s + k + i)))
             (seq 1 (n - 1))
        ++ map (fun i => Load (Z.of_nat i)) (rev (seq 0 n)) /\
      logicdata s'
      = map (fun i => CHANPIN pins (tick s + k + i)) (seq 0 n)
        ++ drop n (logicdata s) /\
      tick s' = (tick s + k + n)%nat.
Proof.
  intros mcu pins fuel s k Hrc Hlen Hfirst Hk Hfuel n.
  pose proof (MAX_CAPTURE_SIZE_range mcu) as Hrange.
  assert (En : n = S (n - 1)) by (subst n; lia).
  unfold acquire2MHz.
  destruct (asm_2MHz_eq mcu pins fuel
              (set_delayCount (to_int (readCount s - 1)) s) k (n - 1)%nat)
    as (a & -> & Hsamples & Hacc & Hram); cbn [readCount delayCount logicdata
      trigger trigger_values tick trace set_delayCount]; try done; try lia.
  cbn [mbind option_bind]. eexists. split; [reflexivity|].
  match goal with |- context [dump_2MHz ?x] =>
    destruct (dump_2MHz_spec x) as (-> & _ & -> & ->); [cbn; lia|] end.
  cbn [asm_leave trace logicdata tick readCount].
  fold n. split; [|split].
  - rewrite rev_app_distr, Hacc, <- !app_assoc, map_rev. reflexivity.
  - rewrite Hram, <- En. reflexivity.
  - rewrite Hsamples, <- En. reflexivity.
Qed.

Lemma acquire2MHz_capture_witness :
  1 < readCount request_4_low <= MAX_CAPTURE_SIZE ATmega328P /\
  length (logicdata request_4_low) = Z.to_nat (MAX_CAPTURE_SIZE ATmega328P) /\
  first_match falling (trigger_values request_4_low) (trigger request_4_low)
    (tick request_4_low) 1 /\
  (1 < 4)%nat /\
  readCount request_4_low - 1 <= Z.of_nat 4 /\
  exists s',
    acquire2MHz falling 4 request_4_low = Some s' /\
    firstn 4 (logicdata s') = [0; 0; 0; 0] /\
    tick s' = 5%nat.
Proof.
  assert (H1 : 1 < readCount request_4_low <= MAX_CAPTURE_SIZE ATmega328P)
    by (cbn; lia).
  assert (H2 : length (logicdata request_4_low)
               = Z.to_nat (MAX_CAPTURE_SIZE ATmega328P))
    by (vm_compute; reflexivity).
  assert (H3 : first_match falling (trigger_values request_4_low)
                 (trigger request_4_low) (tick request_4_low) 1).
  { split; [|reflexivity]. intros j Hj. replace j with 0%nat by lia.
    vm_compute. discriminate. }
  assert (H4 : (1 < 4)%nat) by lia.
  assert (H5 : readCount request_4_low - 1 <= Z.of_nat 4) by (cbn; lia).
  do 5 (split; [assumption|]).
  destruct (acquire2MHz_capture ATmega328P falling 4 request_4_low 1
              H1 H2 H3 H4 H5) as (s' & Hs' & _ & Hdata & Htick).
  exists s'. split; [exact Hs'|]. split; [|exact Htick].
  rewrite Hdata. reflexivity.
Defined.

(** C5, as stated, fails on the part that the trigger wait does not store:
    with trigger mask 1, trigger values 0 and line 0 high at the first
    sample and low afterwards, the first sample does not satisfy the
    trigger and is stored at position 0 all the same. *)
Lemma acquire2MHz_stores_while_waiting :
  Z.land (Z.lxor (CHANPIN falling 0) (trigger_values request_4_low))
    (trigger request_4_low) <> 0 /\
  exists s',
    acquire2MHz falling 4 request_4_low = Some s' /\
    rev (trace s')
    = [Store 0 1; Store 0 0; Store 1 0; Store 2 0; Store 3 0;
       Load 3; Load 2; Load 1; Load 0] /\
    In (Store 0 (CHANPIN falling 0)) (trace s').
Proof.
  split; [vm_compute; discriminate|].
  destruct (acquire2MHz falling 4 request_4_low) as [s'|] eqn:E;
    [|vm_compute in E; discriminate].
  exists s'. split; [reflexivity|].
  assert (Ht : trace s' = rev [Store 0 1; Store 0 0; Store 1 0; Store 2 0;
                               Store 3 0; Load 3; Load 2; Load 1; Load 0]).
  { vm_compute in E. injection E as <-. reflexivity. }
  rewrite Ht, rev_involutive. split; [reflexivity|].
  vm_compute. tauto.
Qed.

(** ** Invariants of the loops *)

Section Invariants.

Variable pins : nat -> Z.
Variable body : Z -> Asm -> Asm.
Variable Inv : Asm -> Prop.

Lemma brne_trigger_inv v m :
  (forall a, Inv a -> Inv (sampled pins body a)) ->
  forall fuel a a',
    Inv a -> brne_trigger pins body v m fuel a = Some a' -> Inv a'.
Proof.
  intros Hstep. induction fuel as [|fuel IH]; intros a a' Ha; [done|].
  cbn [brne_trigger]. fold (sampled pins body a).
  destruct (_ =? _).
  - intros [= <-]. apply Hstep, Ha.
  - apply IH, Hstep, Ha.
Qed.

Lemma brne_count_inv :
  (forall a, Inv a -> Inv (counted pins body a)) ->
  forall fuel a a',
    Inv a -> brne_count pins body fuel a = Some a' -> Inv a'.
Proof.
  intros Hstep. induction fuel as [|fuel IH]; intros a a' Ha; [done|].
  cbn [brne_count]. fold (sampled pins body a). fold (counted pins body a).
  destruct (_ =? _).
  - intros [= <-]. apply Hstep, Ha.
  - apply IH, Hstep, Ha.
Qed.

(** The same for an invariant that a pass keeps only while the counter is
    not zero, which it is not when a pass begins. *)
Lemma brne_count_inv_nz :
  (forall a, Inv a -> DELAYCOUNT a <> 0 -> Inv (counted pins body a)) ->
  forall fuel a a',
    Inv a -> DELAYCOUNT a <> 0 ->
    brne_count pins body fuel a = Some a' -> Inv a'.
Proof.
  intros Hstep. induction fuel as [|fuel IH]; intros a a' Ha Hnz; [done|].
  cbn [brne_count]. fold (sampled pins body a). fold (counted pins body a).
  destruct (Z.eqb_spec (DELAYCOUNT (counted pins body a)) 0) as [E|E].
  - intros [= <-]. apply Hstep; assumption.
  - apply IH; [apply Hstep; assumption | exact E].
Qed.

End Invariants.

(** ** No access outside the buffer for a read count within the capacity *)

Section Bounds.

Variable mcu : MCU.
Variable pins : nat -> Z.

Lemma within_store_wrap stop a :
  0 < stop <= MAX_CAPTURE_SIZE mcu ->
  within mcu stop a -> within mcu stop (sampled pins (store_wrap stop) a).
Proof.
  intros Hstop [Hp Hacc]. pose proof (MAX_CAPTURE_SIZE_range mcu).
  unfold sampled, store_wrap, wrap_at, st_postinc, adiw1, set_ptr, st, within.
  cbn [LOGICDATAaddr accesses next_sample].
  rewrite to_uint16_id by lia.
  destruct (Z.eqb_spec (LOGICDATAaddr a + 1) stop); cbn [LOGICDATAaddr accesses].
  - split; [lia|]. constructor; [unfold in_bounds; cbn; lia | exact Hacc].
  - split; [lia|]. constructor; [unfold in_bounds; cbn; lia | exact Hacc].
Qed.

Lemma within_counted stop a :
  0 < stop <= MAX_CAPTURE_SIZE mcu ->
  within mcu stop a -> within mcu stop (counted pins (store_wrap stop) a).
Proof.
  intros Hstop Ha. destruct (within_store_wrap stop a Hstop Ha) as [Hp Hacc].
  split; [exact Hp | exact Hacc].
Qed.

Lemma asm_slow_within fuel s a :
  0 < readCount s <= MAX_CAPTURE_SIZE mcu ->
  Forall (in_bounds mcu) (trace s) ->
  asm_slow pins fuel s = Some a ->
  within mcu (readCount s) a.
Proof.
  intros Hrc Htrace. pose proof (MAX_CAPTURE_SIZE_range mcu).
  unfold asm_slow. rewrite (to_uint16_id (readCount s)) by lia.
  destruct (TRIGLOOP pins _ _ _ fuel (asm_enter s)) as [a1|] eqn:E1; [|done].
  cbn [mbind option_bind]. intros E2.
  apply (brne_count_inv pins (store_wrap (readCount s)) (within mcu (readCount s))
           (fun a => within_counted _ a Hrc) fuel a1 a); [|exact E2].
  apply (brne_trigger_inv pins (store_wrap (readCount s)) (within mcu (readCount s))
           (trigger_values s) (trigger s)
           (fun a => within_store_wrap _ a Hrc) fuel (asm_enter s) a1);
    [|exact E1].
  split; [cbn; lia | exact Htrace].
Qed.

Lemma counting_up_counted rc a :
  rc <= MAX_CAPTURE_SIZE mcu ->
  counting_up mcu rc a -> DELAYCOUNT a <> 0 ->
  counting_up mcu rc (counted pins st_postinc a).
Proof.
  intros Hrc (Hp & Hd & Hsum & Hacc) Hnz. pose proof (MAX_CAPTURE_SIZE_range mcu).
  unfold counted, sampled, sbiw1, st_postinc, adiw1, set_ptr, st, counting_up.
  cbn [LOGICDATAaddr DELAYCOUNT accesses next_sample].
  rewrite !to_uint16_id by lia.
  split; [lia|]. split; [lia|]. split; [lia|].
  constructor; [unfold in_bounds; cbn; lia | exact Hacc].
Qed.

Lemma holding_st d a : holding mcu d a -> holding mcu d (sampled pins st a).
Proof.
  intros (Hp & Hd & Hacc). pose proof (MAX_CAPTURE_SIZE_range mcu).
  unfold sampled, st, holding. cbn [LOGICDATAaddr DELAYCOUNT accesses next_sample].
  split; [exact Hp|]. split; [exact Hd|].
  constructor; [unfold in_bounds; cbn; lia | exact Hacc].
Qed.

Lemma asm_2MHz_within fuel s a :
  1 < readCount s <= MAX_CAPTURE_SIZE mcu ->
  delayCount s = readCount s - 1 ->
  Forall (in_bounds mcu) (trace s) ->
  asm_2MHz pins fuel s = Some a ->
  Forall (in_bounds mcu) (accesses a).
Proof.
  intros Hrc Hdc Htrace. pose proof (MAX_CAPTURE_SIZE_range mcu).
  unfold asm_2MHz.
  destruct (TRIGLOOP2 pins _ _ fuel (asm_enter s)) as [a1|] eqn:E1; [|done].
  cbn [mbind option_bind]. intros E2.
  assert (H1 : holding mcu (readCount s - 1) a1).
  { apply (brne_trigger_inv pins st (holding mcu (readCount s - 1))
             (trigger_values s) (trigger s)
             (holding_st _) fuel (asm_enter s) a1); [|exact E1].
    split; [reflexivity|]. split; [|exact Htrace].
    cbn. rewrite Hdc. apply to_uint16_id. lia. }
  destruct H1 as (Hp & Hd & Hacc).
  assert (H2 : counting_up mcu (readCount s) a).
  { apply (brne_count_inv_nz pins st_postinc (counting_up mcu (readCount s))
             (fun a => counting_up_counted _ a (proj2 Hrc)) fuel (adiw1 a1) a);
      [| |exact E2].
    - unfold counting_up. cbn. rewrite Hp, Hd. change (to_uint16 (0 + 1)) with 1.
      split; [lia|]. split; [lia|]. split; [lia | exact Hacc].
    - cbn. rewrite Hd. lia. }
  apply H2.
Qed.

Lemma fill5_within n : forall a,
  0 <= LOGICDATAaddr a ->
  LOGICDATAaddr a + Z.of_nat n <= MAX_CAPTURE_SIZE mcu ->
  Forall (in_bounds mcu) (accesses a) ->
  Forall (in_bounds mcu) (accesses (fill5 pins n a)).
Proof.
  pose proof (MAX_CAPTURE_SIZE_range mcu).
  induction n as [|n IH]; intros a Hp Hsum Hacc; [exact Hacc|].
  cbn [fill5]. apply IH.
  - cbn. rewrite to_uint16_id by lia. lia.
  - cbn. rewrite to_uint16_id by lia. lia.
  - cbn. constructor; [unfold in_bounds; cbn; lia | exact Hacc].
Qed.

Lemma Forall_loads rc (f : nat -> Z) n :
  rc <= MAX_CAPTURE_SIZE mcu ->
  (forall i, (i < n)%nat -> 0 <= f i < rc) ->
  Forall (in_bounds mcu) (map (fun i => Load (f i)) (seq 0 n)).
Proof.
  intros Hrc Hf. apply Forall_forall. intros a Ha.
  apply list_elem_of_In, in_map_iff in Ha. destruct Ha as (i & <- & Hi).
  apply in_seq in Hi. unfold in_bounds. cbn. specialize (Hf i). lia.
Qed.

Lemma acquireSlow_in_bounds fuel s s' :
  0 < readCount s <= MAX_CAPTURE_SIZE mcu ->
  Forall (in_bounds mcu) (trace s) ->
  acquireSlow pins fuel s = Some s' ->
  Forall (in_bounds mcu) (trace s').
Proof.
  intros Hrc Htrace. pose proof (MAX_CAPTURE_SIZE_range mcu).
  pose proof (session_timer_setup s) as Hs. unfold session in Hs.
  injection Hs as _ _ _ Hrc0 _.
  destruct (timer_setup_fields s) as (_ & _ & Htr0 & _).
  unfold acquireSlow.
  destruct (asm_slow pins fuel (timer_setup s)) as [a|] eqn:E; [|done].
  cbn [mbind option_bind]. intros [= <-].
  apply asm_slow_within in E; [|lia|rewrite Htr0; exact Htrace].
  rewrite Hrc0 in E. destruct E as [Hp Hacc].
  unfold dump_slow.
  match goal with |- context [send_backward ?n ?x] =>
    destruct (send_backward_spec n x) as [_ ->] end.
  - cbn. lia.
  - cbn. rewrite Hrc0, !to_int_id; rewrite ?to_int_id; lia.
  - apply Forall_app. split; [|exact Hacc].
    apply Forall_rev. cbn [readCount set_logicIndex asm_leave]. rewrite Hrc0.
    apply (Forall_loads (readCount s)); [lia|].
    intros i _. apply Z.mod_pos_bound. lia.
Qed.

Lemma acquire2MHz_in_bounds fuel s s' :
  1 < readCount s <= MAX_CAPTURE_SIZE mcu ->
  Forall (in_bounds mcu) (trace s) ->
  acquire2MHz pins fuel s = Some s' ->
  Forall (in_bounds mcu) (trace s').
Proof.
  intros Hrc Htrace. pose proof (MAX_CAPTURE_SIZE_range mcu).
  unfold acquire2MHz.
  destruct (asm_2MHz pins fuel _) as [a|] eqn:E; [|done].
  cbn [mbind option_bind]. intros [= <-].
  apply asm_2MHz_within in E;
    [|cbn; lia|cbn; apply to_int_id; lia|exact Htrace].
  match goal with |- context [dump_2MHz ?x] =>
    destruct (dump_2MHz_spec x) as (-> & _); [cbn; lia|] end.
  apply Forall_app. split; [|exact E].
  apply (Forall_loads (readCount s)); [lia|]. cbn. lia.
Qed.

Lemma acquire5MHz_in_bounds fuel s s' :
  0 < readCount s <= MAX_CAPTURE_SIZE mcu ->
  Forall (in_bounds mcu) (trace s) ->
  acquire5MHz pins fuel s = Some s' ->
  Forall (in_bounds mcu) (trace s').
Proof.
  intros Hrc Htrace. pose proof (MAX_CAPTURE_SIZE_range mcu).
  unfold acquire5MHz.
  destruct (wait5 pins _ _ fuel (tick s)) as [t|]; [|done].
  cbn [mbind option_bind]. intros [= <-].
  match goal with |- context [dump_2MHz ?x] =>
    destruct (dump_2MHz_spec x) as (-> & _); [cbn; lia|] end.
  apply Forall_app. split.
  - apply (Forall_loads (readCount s)); [lia|]. cbn. lia.
  - cbn [trace asm_leave]. apply fill5_within.
    + cbn. change (to_uint16 (0 + 1)) with 1. lia.
    + cbn. change (to_uint16 (0 + 1)) with 1. lia.
    + cbn. constructor; [unfold in_bounds; cbn; lia | exact Htrace].
Qed.

(** For a read count from 2 up to the capacity, an acquisition and its
    dump stay within the buffer. *)
Lemma acquire_in_bounds fuel s s' :
  1 < readCount s <= MAX_CAPTURE_SIZE mcu ->
  Forall (in_bounds mcu) (trace s) ->
  acquire pins fuel s = Some s' ->
  Forall (in_bounds mcu) (trace s').
Proof.
  intros Hrc Htrace. unfold acquire.
  destruct (divider s =? 19); [apply acquire5MHz_in_bounds; [lia|done]|].
  destruct (divider s =? 49); [apply acquire2MHz_in_bounds; done|].
  apply acquireSlow_in_bounds; [lia|done].
Qed.

End Bounds.

(** C4 (code defect).  Specified: whatever bytes arrive, no acquisition or
    dump touches [logicdata] outside [0, capacity).  The code: the raw read
    count 0x2000 decodes to -32764 (the overflow of C1), which the clamp
    lets through; the stop address of [acquireSlow] is then the start
    address plus 32772, far behind the array, so the pointer is never taken
    back to the start and the stores run on past the end of the array: with
    [delayCount = 1536] the last one is at index 1536 of the 1536-entry
    buffer.  For read counts from 2 up to the capacity all accesses are
    within the buffer ([acquire_in_bounds]). *)
Theorem negative_read_count_overruns :
  exists s,
    receive ATmega328P (fun _ => 0) (Z.to_nat 1536)
      [SUMP_SET_READ_DELAY_COUNT; 0x00; 0x20; 0x7F; 0x01; SUMP_ARM]
      (power_up ATmega328P) = Some s /\
    readCount s = -32764 /\
    delayCount s = MAX_CAPTURE_SIZE ATmega328P /\
    head (trace s) = Some (Store (MAX_CAPTURE_SIZE ATmega328P) 0) /\
    ~ Forall (in_bounds ATmega328P) (trace s).
Proof.
  destruct (receive ATmega328P (fun _ => 0) (Z.to_nat 1536)
              [SUMP_SET_READ_DELAY_COUNT; 0x00; 0x20; 0x7F; 0x01; SUMP_ARM]
              (power_up ATmega328P)) as [s|] eqn:E;
    [|vm_compute in E; discriminate].
  exists s. split; [reflexivity|].
  vm_compute in E. injection E as <-.
  split; [reflexivity|]. split; [reflexivity|]. split; [reflexivity|].
  intros H. cbn [trace] in H. apply Forall_cons in H. destruct H as [H _].
  unfold in_bounds in H. cbn in H. lia.
Qed.

(** ** A constant input *)

Section Constant.

Variable mcu : MCU.
Variable x : Z.

Let pins : nat -> Z := fun _ => x.

Lemma CHANPIN_const t : CHANPIN pins t = to_byte x.
Proof. reflexivity. Qed.

(** With a constant input a pass of a loop acts on the registers alone. *)
Lemma registers_eq a a' :
  registers a = registers a' <->
  LOGICDATAaddr a = LOGICDATAaddr a' /\ DELAYCOUNT a = DELAYCOUNT a' /\
  ram a = ram a'.
Proof.
  unfold registers. split; [intros [= -> -> ->]; done | intros (-> & -> & ->); done].
Qed.

Lemma registers_sampled_wrap stop a a' :
  registers a = registers a' ->
  registers (sampled pins (store_wrap stop) a)
  = registers (sampled pins (store_wrap stop) a').
Proof.
  intros (Hp & Hd & Hr)%registers_eq. apply registers_eq.
  unfold sampled, store_wrap, wrap_at, st_postinc, adiw1, set_ptr, st.
  rewrite !CHANPIN_const. cbn [LOGICDATAaddr DELAYCOUNT ram next_sample].
  rewrite Hp, Hd, Hr. destruct (_ =? _); done.
Qed.

Lemma registers_counted_wrap stop a a' :
  registers a = registers a' ->
  registers (counted pins (store_wrap stop) a)
  = registers (counted pins (store_wrap stop) a').
Proof.
  intros H. apply (registers_sampled_wrap stop) in H.
  apply registers_eq in H. destruct H as (Hp & Hd & Hr).
  apply registers_eq. unfold counted, sbiw1.
  cbn [LOGICDATAaddr DELAYCOUNT ram]. rewrite Hp, Hd, Hr. done.
Qed.

Lemma registers_iter_counted_wrap stop n a a' :
  registers a = registers a' ->
  registers (Nat.iter n (counted pins (store_wrap stop)) a)
  = registers (Nat.iter n (counted pins (store_wrap stop)) a').
Proof.
  intros H. induction n as [|n IH]; [exact H|].
  rewrite !Nat.iter_succ. apply registers_counted_wrap, IH.
Qed.

Lemma registers_fill5 n : forall a a',
  registers a = registers a' ->
  registers (fill5 pins n a) = registers (fill5 pins n a').
Proof.
  induction n as [|n IH]; intros a a' H; [exact H|].
  cbn [fill5]. apply IH. apply registers_eq in H. destruct H as (Hp & Hd & Hr).
  apply registers_eq. rewrite !CHANPIN_const.
  unfold st_postinc, adiw1, set_ptr, st.
  cbn [LOGICDATAaddr DELAYCOUNT ram next_sample]. rewrite Hp, Hd, Hr. done.
Qed.

(** The pointer of [acquireSlow] stays below the stop address. *)
Lemma pointer_sampled_wrap stop a :
  0 < stop < 65536 ->
  0 <= LOGICDATAaddr a < stop ->
  0 <= LOGICDATAaddr (sampled pins (store_wrap stop) a) < stop.
Proof.
  intros Hstop Hp.
  unfold sampled, store_wrap, wrap_at, st_postinc, adiw1, set_ptr, st.
  cbn [LOGICDATAaddr next_sample]. rewrite to_uint16_id by lia.
  destruct (Z.eqb_spec (LOGICDATAaddr a + 1) stop); cbn [LOGICDATAaddr]; lia.
Qed.

Lemma pointer_iter_counted_wrap stop n a :
  0 < stop < 65536 ->
  0 <= LOGICDATAaddr a < stop ->
  0 <= LOGICDATAaddr (Nat.iter n (counted pins (store_wrap stop)) a) < stop.
Proof.
  intros Hstop Hp. induction n as [|n IH]; [exact Hp|].
  rewrite Nat.iter_succ. apply (pointer_sampled_wrap stop _ Hstop IH).
Qed.

Lemma first_match_const v m t :
  Z.land (Z.lxor (to_byte x) v) m = 0 -> first_match pins v m t 0.
Proof. intros H. split; [intros j Hj; lia | exact H]. Qed.

Lemma wait5_const v m fuel t :
  wait5 pins v m (S fuel) t
  = if Z.land (Z.lxor (to_byte x) v) m =? 0 then Some t
    else wait5 pins v m fuel (S t).
Proof. reflexivity. Qed.

Lemma wait5_never v m fuel : forall t,
  Z.land (Z.lxor (to_byte x) v) m <> 0 -> wait5 pins v m fuel t = None.
Proof.
  induction fuel as [|fuel IH]; intros t H; [reflexivity|].
  rewrite wait5_const. pose proof H as H'.
  apply Z.eqb_neq in H' as ->. apply IH, H.
Qed.

(** With a constant input that does not satisfy the trigger, no
    acquisition returns. *)
Lemma acquire_const_waits fuel s :
  Z.land (Z.lxor (to_byte x) (trigger_values s)) (trigger s) <> 0 ->
  acquire pins fuel s = None.
Proof.
  intros H. unfold acquire.
  destruct (divider s =? 19).
  { unfold acquire5MHz. rewrite wait5_never by exact H. reflexivity. }
  destruct (divider s =? 49).
  { unfold acquire2MHz, asm_2MHz, TRIGLOOP2.
    rewrite (brne_trigger_none pins _ samples_st); [reflexivity|].
    intros j _. exact H. }
  unfold acquireSlow.
  pose proof (session_timer_setup s) as Hs. unfold session in Hs.
  injection Hs as _ Htr Hval _ _.
  rewrite asm_slow_waits; [reflexivity|].
  intros j _. rewrite Htr, Hval. exact H.
Qed.

End Constant.

(** ** Two captures of a constant input *)

Section Twice.

Variable mcu : MCU.
Variable x : Z.

Let pins : nat -> Z := fun _ => x.

Lemma timer_setup_request s :
  readCount (timer_setup s) = readCount s /\
  delayCount (timer_setup s) = delayCount s /\
  trigger (timer_setup s) = trigger s /\
  trigger_values (timer_setup s) = trigger_values s.
Proof.
  pose proof (session_timer_setup s) as Hs. unfold session in Hs.
  injection Hs as _ -> -> -> ->. done.
Qed.

(** What [acquireSlow] sends for a constant input that satisfies the
    trigger, in terms of the registers its block ends with. *)
Lemma acquireSlow_const_tx fuel s :
  0 < readCount s <= MAX_CAPTURE_SIZE mcu ->
  Z.land (Z.lxor (to_byte x) (trigger_values s)) (trigger s) = 0 ->
  65536 <= Z.of_nat fuel ->
  exists s',
    acquireSlow pins fuel s = Some s' /\
    tx s'
    = tx s ++
      backward_bytes
        (ram (Nat.iter (passes (to_uint16 (delayCount s)))
                (counted pins (store_wrap (readCount s)))
                (sampled pins (store_wrap (readCount s))
                   (asm_enter (timer_setup s)))))
        (LOGICDATAaddr (Nat.iter (passes (to_uint16 (delayCount s)))
                (counted pins (store_wrap (readCount s)))
                (sampled pins (store_wrap (readCount s))
                   (asm_enter (timer_setup s)))))
        (readCount s).
Proof.
  intros Hrc Htrig Hfuel. pose proof (MAX_CAPTURE_SIZE_range mcu) as Hmax.
  destruct (timer_setup_request s) as (Hrc0 & Hdc0 & Htr0 & Hval0).
  destruct (timer_setup_fields s) as (_ & _ & _ & Htx0 & _).
  assert (Hpass : (passes (to_uint16 (delayCount s)) <= fuel)%nat).
  { pose proof (passes_range _ (to_uint16_range (delayCount s))). lia. }
  unfold acquireSlow.
  rewrite (asm_slow_eq pins fuel (timer_setup s) 0);
    rewrite ?Hrc0, ?Hdc0, ?Htr0, ?Hval0;
    [|apply (first_match_const x _ _ (tick (timer_setup s))); exact Htrig
     |lia|exact Hpass].
  rewrite (to_uint16_id (readCount s)) by lia.
  change (Nat.iter 1 (sampled pins (store_wrap (readCount s)))
            (asm_enter (timer_setup s)))
    with (sampled pins (store_wrap (readCount s)) (asm_enter (timer_setup s))).
  set (A := Nat.iter _ _ _).
  assert (HA : 0 <= LOGICDATAaddr A < readCount s).
  { subst A. apply pointer_iter_counted_wrap; [lia|].
    apply pointer_sampled_wrap; [lia|]. cbn. lia. }
  cbn [mbind option_bind]. eexists. split; [reflexivity|].
  unfold dump_slow.
  match goal with |- context [send_backward ?n ?X] =>
    destruct (send_backward_spec n X) as [-> _] end.
  - cbn. lia.
  - cbn. rewrite Hrc0, !to_int_id; rewrite ?to_int_id; lia.
  - cbn [tx logicdata logicIndex readCount set_logicIndex asm_leave].
    rewrite Htx0, Hrc0, !to_int_id; rewrite ?to_int_id; try lia.
    reflexivity.
Qed.

Lemma acquireSlow_twice fuel s t :
  0 < readCount s <= MAX_CAPTURE_SIZE mcu ->
  Z.land (Z.lxor (to_byte x) (trigger_values s)) (trigger s) = 0 ->
  65536 <= Z.of_nat fuel ->
  same_request s t -> delayCount t = delayCount s ->
  exists s' t' o,
    acquireSlow pins fuel s = Some s' /\ acquireSlow pins fuel t = Some t' /\
    tx s' = tx s ++ o /\ tx t' = tx t ++ o /\
    Z.of_nat (length o) = readCount s.
Proof.
  intros Hrc Htrig Hfuel (Erc & Etr & Eval & Edata) Edc.
  destruct (acquireSlow_const_tx fuel s Hrc Htrig Hfuel) as (s' & Hs' & Htx).
  destruct (acquireSlow_const_tx fuel t) as (t' & Ht' & Htx');
    [rewrite Erc; exact Hrc | rewrite Etr, Eval; exact Htrig | exact Hfuel |].
  eexists s', t', _. split; [exact Hs'|]. split; [exact Ht'|].
  split; [exact Htx|]. split.
  - rewrite Htx', Erc, Edc. f_equal.
    assert (Hreg : registers
      (Nat.iter (passes (to_uint16 (delayCount s)))
         (counted pins (store_wrap (readCount s)))
         (sampled pins (store_wrap (readCount s)) (asm_enter (timer_setup t))))
      = registers
      (Nat.iter (passes (to_uint16 (delayCount s)))
         (counted pins (store_wrap (readCount s)))
         (sampled pins (store_wrap (readCount s)) (asm_enter (timer_setup s))))).
    { apply registers_iter_counted_wrap, registers_sampled_wrap.
      apply registers_eq. cbn [asm_enter LOGICDATAaddr DELAYCOUNT ram].
      destruct (timer_setup_request s) as (_ & -> & _).
      destruct (timer_setup_request t) as (_ & -> & _).
      destruct (timer_setup_fields s) as (-> & _).
      destruct (timer_setup_fields t) as (-> & _).
      rewrite Edc, Edata. done. }
    apply registers_eq in Hreg. destruct Hreg as (-> & _ & ->). reflexivity.
  - unfold backward_bytes. rewrite length_map, length_seq. lia.
Qed.

(** What [acquire2MHz] sends for a constant input that satisfies the
    trigger. *)
Lemma acquire2MHz_const_tx fuel s :
  1 < readCount s <= MAX_CAPTURE_SIZE mcu ->
  length (logicdata s) = Z.to_nat (MAX_CAPTURE_SIZE mcu) ->
  Z.land (Z.lxor (to_byte x) (trigger_values s)) (trigger s) = 0 ->
  65536 <= Z.of_nat fuel ->
  exists s',
    acquire2MHz pins fuel s = Some s' /\
    tx s'
    = tx s ++
      downward_bytes
        (map (fun _ => to_byte x) (seq 0 (Z.to_nat (readCount s)))
         ++ drop (Z.to_nat (readCount s)) (logicdata s))
        (readCount s).
Proof.
  intros Hrc Hlen Htrig Hfuel. pose proof (MAX_CAPTURE_SIZE_range mcu) as Hmax.
  assert (En : Z.to_nat (readCount s) = S (Z.to_nat (readCount s) - 1)) by lia.
  unfold acquire2MHz.
  destruct (asm_2MHz_eq mcu pins fuel
              (set_delayCount (to_int (readCount s - 1)) s) 0
              (Z.to_nat (readCount s) - 1)%nat)
    as (a & -> & _ & _ & Hram); cbn [readCount delayCount logicdata
      trigger trigger_values tick trace set_delayCount]; try done; try lia.
  { apply (first_match_const x _ _ (tick s)). exact Htrig. }
  cbn [mbind option_bind]. eexists. split; [reflexivity|].
  match goal with |- context [dump_2MHz ?X] =>
    destruct (dump_2MHz_spec X) as (_ & -> & _); [cbn; lia|] end.
  cbn [tx logicdata readCount asm_leave set_delayCount].
  rewrite Hram, <- En. reflexivity.
Qed.

Lemma acquire2MHz_twice fuel s t :
  1 < readCount s <= MAX_CAPTURE_SIZE mcu ->
  length (logicdata s) = Z.to_nat (MAX_CAPTURE_SIZE mcu) ->
  Z.land (Z.lxor (to_byte x) (trigger_values s)) (trigger s) = 0 ->
  65536 <= Z.of_nat fuel ->
  same_request s t ->
  exists s' t' o,
    acquire2MHz pins fuel s = Some s' /\ acquire2MHz pins fuel t = Some t' /\
    tx s' = tx s ++ o /\ tx t' = tx t ++ o /\
    Z.of_nat (length o) = readCount s.
Proof.
  intros Hrc Hlen Htrig Hfuel (Erc & Etr & Eval & Edata).
  destruct (acquire2MHz_const_tx fuel s Hrc Hlen Htrig Hfuel) as (s' & Hs' & Htx).
  destruct (acquire2MHz_const_tx fuel t) as (t' & Ht' & Htx');
    [rewrite Erc; exact Hrc | rewrite Edata; exact Hlen
     | rewrite Etr, Eval; exact Htrig | exact Hfuel |].
  eexists s', t', _. split; [exact Hs'|]. split; [exact Ht'|].
  split; [exact Htx|]. split.
  - rewrite Htx', Erc, Edata. reflexivity.
  - unfold downward_bytes. rewrite length_map, length_rev, length_seq. lia.
Qed.

(** The same for the routine modelled from the spec. *)
Lemma acquire5MHz_const_tx fuel s :
  0 < readCount s <= MAX_CAPTURE_SIZE mcu ->
  Z.land (Z.lxor (to_byte x) (trigger_values s)) (trigger s) = 0 ->
  65536 <= Z.of_nat fuel ->
  exists s',
    acquire5MHz pins fuel s = Some s' /\
    tx s'
    = tx s ++
      downward_bytes
        (ram (fill5 pins (Z.to_nat (readCount s - 1))
                (st_postinc (to_byte x)
                   (mkAsm 0 0 (logicdata s) (S (tick s)) (trace s)))))
        (readCount s).
Proof.
  intros Hrc Htrig Hfuel. pose proof (MAX_CAPTURE_SIZE_range mcu) as Hmax.
  unfold acquire5MHz. destruct fuel as [|fuel]; [lia|].
  unfold pins. rewrite wait5_const. apply Z.eqb_eq in Htrig as ->.
  cbn [mbind option_bind]. eexists. split; [reflexivity|].
  match goal with |- context [dump_2MHz ?X] =>
    destruct (dump_2MHz_spec X) as (_ & -> & _); [cbn; lia|] end.
  reflexivity.
Qed.

Lemma acquire5MHz_twice fuel s t :
  0 < readCount s <= MAX_CAPTURE_SIZE mcu ->
  Z.land (Z.lxor (to_byte x) (trigger_values s)) (trigger s) = 0 ->
  65536 <= Z.of_nat fuel ->
  same_request s t ->
  exists s' t' o,
    acquire5MHz pins fuel s = Some s' /\ acquire5MHz pins fuel t = Some t' /\
    tx s' = tx s ++ o /\ tx t' = tx t ++ o /\
    Z.of_nat (length o) = readCount s.
Proof.
  intros Hrc Htrig Hfuel (Erc & Etr & Eval & Edata).
  destruct (acquire5MHz_const_tx fuel s Hrc Htrig Hfuel) as (s' & Hs' & Htx).
  destruct (acquire5MHz_const_tx fuel t) as (t' & Ht' & Htx');
    [rewrite Erc; exact Hrc | rewrite Etr, Eval; exact Htrig | exact Hfuel |].
  eexists s', t', _. split; [exact Hs'|]. split; [exact Ht'|].
  split; [exact Htx|]. split.
  - rewrite Htx', Erc, Edata. f_equal.
    assert (Hreg : registers
      (fill5 pins (Z.to_nat (readCount s - 1))
         (st_postinc (to_byte x) (mkAsm 0 0 (logicdata s) (S (tick t)) (trace t))))
      = registers
      (fill5 pins (Z.to_nat (readCount s - 1))
         (st_postinc (to_byte x) (mkAsm 0 0 (logicdata s) (S (tick s)) (trace s))))).
    { apply registers_fill5. reflexivity. }
    apply registers_eq in Hreg. destruct Hreg as (_ & _ & ->). reflexivity.
  - unfold downward_bytes. rewrite length_map, length_rev, length_seq. lia.
Qed.

(** Two acquisitions of a constant input for the same request send the
    same bytes. *)
Lemma acquire_twice fuel s t :
  1 < readCount s <= MAX_CAPTURE_SIZE mcu ->
  length (logicdata s) = Z.to_nat (MAX_CAPTURE_SIZE mcu) ->
  Z.land (Z.lxor (to_byte x) (trigger_values s)) (trigger s) = 0 ->
  65536 <= Z.of_nat fuel ->
  same_request s t ->
  (divider t =? 19) = (divider s =? 19) ->
  (divider t =? 49) = (divider s =? 49) ->
  (divider s <> 49 -> delayCount t = delayCount s) ->
  exists s' t' o,
    acquire pins fuel s = Some s' /\ acquire pins fuel t = Some t' /\
    tx s' = tx s ++ o /\ tx t' = tx t ++ o /\
    Z.of_nat (length o) = readCount s.
Proof.
  intros Hrc Hlen Htrig Hfuel Hsame E19 E49 Edc. unfold acquire.
  rewrite E19, E49.
  destruct (Z.eqb_spec (divider s) 19).
  { apply acquire5MHz_twice; try done; lia. }
  destruct (Z.eqb_spec (divider s) 49).
  { apply acquire2MHz_twice; done. }
  apply acquireSlow_twice; try done; [lia | apply Edc; done].
Qed.

Lemma acquire_rx fuel s s' : acquire pins fuel s = Some s' -> rx s' = rx s.
Proof.
  unfold acquire, acquire5MHz, acquire2MHz, acquireSlow, dump_2MHz, dump_slow.
  destruct (divider s =? 19).
  { destruct (wait5 _ _ _ _ _); [|done]. cbn [mbind option_bind]. intros [= <-].
    match goal with |- context [send_down ?n ?X] =>
      destruct (send_down_fields n X) as (_ & _ & _ & -> & _) end. done. }
  destruct (divider s =? 49).
  { destruct (asm_2MHz _ _ _); [|done]. cbn [mbind option_bind]. intros [= <-].
    match goal with |- context [send_down ?n ?X] =>
      destruct (send_down_fields n X) as (_ & _ & _ & -> & _) end. done. }
  destruct (asm_slow _ _ _); [|done]. cbn [mbind option_bind]. intros [= <-].
  match goal with |- context [send_backward ?n ?X] =>
    destruct (send_backward_fields n X) as (_ & _ & _ & ->) end.
  cbn [rx set_logicIndex asm_leave].
  destruct (timer_setup_fields s) as (_ & _ & _ & _ & -> & _). done.
Qed.

End Twice.

(** X14.  For a read count from 2 up to the capacity and the input lines
    held at one value, two arm commands in a row send the same bytes: when
    the value satisfies the trigger both acquisitions return, each sends the
    same [readCount] bytes and every access stays within the buffer; when it
    does not, the first acquisition never returns, so nothing is sent.  For
    [divider = 19] the routine is the one modelled from the spec. *)
Theorem arm_twice_same_output :
  forall mcu x fuel s rest,
    1 < readCount s <= MAX_CAPTURE_SIZE mcu ->
    let pins := fun _ : nat => x in
    let s0 := set_rx (SUMP_ARM :: SUMP_ARM :: rest) s in
    (Z.land (Z.lxor (to_byte x) (trigger_values s)) (trigger s) = 0 ->
     65536 <= Z.of_nat fuel ->
     exists s1 s2 o,
       loop mcu pins fuel s0 = Some s1 /\
       loop mcu pins fuel s1 = Some s2 /\
       tx s1 = tx s ++ o /\
       tx s2 = tx s1 ++ o /\
       Z.of_nat (length o) = readCount s /\
       rx s2 = rest /\
       (Forall (in_bounds mcu) (trace s) -> Forall (in_bounds mcu) (trace s2))) /\
    (Z.land (Z.lxor (to_byte x) (trigger_values s)) (trigger s) <> 0 ->
     forall fuel', loop mcu pins fuel' s0 = None).
Proof.
  intros mcu x fuel s rest Hrc pins s0.
  pose proof (MAX_CAPTURE_SIZE_range mcu) as Hmax. split.
  - intros Htrig Hfuel.
    set (zeros := replicate (Z.to_nat (MAX_CAPTURE_SIZE mcu)) 0).
    set (z1 := set_logicdata zeros
                 (set_cmdByte SUMP_ARM (set_rx (SUMP_ARM :: rest) s0))).
    assert (Hloop1 : loop mcu pins fuel s0 = acquire pins fuel z1)
      by (apply loop_arm; reflexivity).
    assert (Hlen : length (logicdata z1) = Z.to_nat (MAX_CAPTURE_SIZE mcu))
      by (cbn; apply length_replicate).
    destruct (acquire_twice mcu x fuel z1 z1) as (s1 & _ & _ & Hs1 & _);
      try done.
    set (z2 := set_logicdata zeros (set_cmdByte SUMP_ARM (set_rx rest s1))).
    assert (Hrx1 : rx s1 = SUMP_ARM :: rest)
      by (rewrite (acquire_rx x fuel z1 s1 Hs1); reflexivity).
    assert (Hloop2 : loop mcu pins fuel s1 = acquire pins fuel z2)
      by (apply loop_arm; exact Hrx1).
    destruct (acquire_fields pins fuel z1 s1 Hs1)
      as (Htr & Hval & Hrc1 & Hdiv & Hdc).
    destruct (acquire_twice mcu x fuel z1 z2)
      as (s1' & s2 & o & Hs1' & Hs2 & Htx1 & Htx2 & Hlen_o); try done.
    { subst z2. cbn [divider set_logicdata set_cmdByte set_rx]. rewrite Hdiv.
      destruct (Z.eqb_spec (divider z1) 19) as [->|]; [reflexivity|].
      destruct (Z.eqb_spec (divider z1) 49) as [->|]; [reflexivity|].
      cbn [orb]. apply Z.eqb_neq. lia. }
    { subst z2. cbn [divider set_logicdata set_cmdByte set_rx]. rewrite Hdiv.
      destruct (Z.eqb_spec (divider z1) 19) as [->|]; [reflexivity|].
      destruct (Z.eqb_spec (divider z1) 49) as [->|]; [reflexivity|].
      cbn [orb]. apply Z.eqb_neq. lia. }
    { intros H49. subst z2. cbn [delayCount set_logicdata set_cmdByte set_rx].
      rewrite Hdc. destruct (Z.eqb_spec (divider z1) 49); [done|reflexivity]. }
    assert (s1' = s1) as -> by congruence.
    exists s1, s2, o. rewrite Hloop1, Hloop2.
    split; [exact Hs1|]. split; [exact Hs2|]. split; [exact Htx1|].
    split; [exact Htx2|]. split; [exact Hlen_o|]. split.
    + rewrite (acquire_rx x fuel z2 s2 Hs2). reflexivity.
    + intros Htrace.
      apply (acquire_in_bounds mcu pins fuel z2 s2); [| |exact Hs2].
      { subst z2. cbn [readCount set_logicdata set_cmdByte set_rx].
        rewrite Hrc1. exact Hrc. }
      apply (acquire_in_bounds mcu pins fuel z1 s1); [exact Hrc| |exact Hs1].
      exact Htrace.
  - intros Htrig fuel'. rewrite (loop_arm mcu pins fuel' s0 (SUMP_ARM :: rest))
      by reflexivity.
    apply (acquire_const_waits x). exact Htrig.
Qed.

Lemma arm_twice_same_output_witness :
  1 < readCount request_8_4 <= MAX_CAPTURE_SIZE ATmega328P /\
  Z.land (Z.lxor (to_byte 5) (trigger_values request_8_4))
    (trigger request_8_4) = 0 /\
  65536 <= Z.of_nat (Z.to_nat 65536) /\
  exists s1 s2 o,
    loop ATmega328P (fun _ => 5) (Z.to_nat 65536)
      (set_rx [SUMP_ARM; SUMP_ARM] request_8_4) = Some s1 /\
    loop ATmega328P (fun _ => 5) (Z.to_nat 65536) s1 = Some s2 /\
    tx s1 = tx request_8_4 ++ o /\ tx s2 = tx s1 ++ o /\
    Z.of_nat (length o) = 8.
Proof.
  assert (H1 : 1 < readCount request_8_4 <= MAX_CAPTURE_SIZE ATmega328P)
    by (cbn; lia).
  assert (H2 : Z.land (Z.lxor (to_byte 5) (trigger_values request_8_4))
                 (trigger request_8_4) = 0) by reflexivity.
  assert (H3 : 65536 <= Z.of_nat (Z.to_nat 65536)) by lia.
  split; [exact H1|]. split; [exact H2|]. split; [exact H3|].
  destruct (proj1 (arm_twice_same_output ATmega328P 5 (Z.to_nat 65536)
                     request_8_4 [] H1) H2 H3)
    as (s1 & s2 & o & Ha & Hb & Hc & Hd & He & _).
  exists s1, s2, o. split; [exact Ha|]. split; [exact Hb|].
  split; [exact Hc|]. split; [exact Hd | exact He].
Defined.

(** ** The read count of every state the sketch reaches *)

Lemma getCmd_session s : session (getCmd s) = session s.
Proof.
  destruct s as [? ? ? ? ? ? ? ? ? ? ? pending ? ? ?].
  unfold getCmd, Serial_read. cbn [rx].
  destruct pending as [|? [|? [|? [|? ?]]]]; reflexivity.
Qed.

Lemma readCount_getCmd s : readCount (getCmd s) = readCount s.
Proof. pose proof (getCmd_session s) as H. unfold session in H. congruence. Qed.

(** [loop] keeps the read count a multiple of 4. *)
Lemma loop_readCount_mult4 mcu pins fuel s s' :
  readCount s mod 4 = 0 ->
  loop mcu pins fuel s = Some s' ->
  readCount s' mod 4 = 0.
Proof.
  intros H4. unfold loop. destruct (rx s) as [|c r] eqn:Erx.
  { intros [= <-]. exact H4. }
  unfold Serial_read. rewrite Erx.
  repeat lazymatch goal with
    | |- (if ?c then _ else _) = _ -> _ => destruct c
    end;
    try (intros [= <-]; cbn [readCount set_cmdByte set_rx set_trigger
           set_trigger_values set_divider set_delayCount set_readCount];
         rewrite ?readCount_getCmd; first [exact H4 | apply decode_count_mult4]).
  intros H. apply acquire_fields in H. destruct H as (_ & _ & -> & _).
  exact H4.
Qed.

Lemma run_readCount_mult4 mcu pins fuel n : forall s s',
  readCount s mod 4 = 0 ->
  run mcu pins fuel n s = Some s' ->
  readCount s' mod 4 = 0.
Proof.
  induction n as [|n IH]; intros s s' H4; cbn [run].
  { intros [= <-]. exact H4. }
  destruct (loop mcu pins fuel s) as [s1|] eqn:E; [|done].
  cbn [mbind option_bind]. apply IH.
  apply (loop_readCount_mult4 mcu pins fuel s s1 H4 E).
Qed.

(** Whatever bytes arrive after power-up, the read count is a multiple of
    4 and at most the capacity. *)
Lemma reachable_readCount mcu pins fuel bytes s :
  receive mcu pins fuel bytes (power_up mcu) = Some s ->
  readCount s mod 4 = 0.
Proof.
  unfold receive. apply run_readCount_mult4. apply MAX_CAPTURE_SIZE_mult4.
Qed.

(** * Further properties of the dispatcher *)

(** The value that [SUMP_SET_DIVIDER] assembles from three bytes. *)
Lemma divider_bytes b0 b1 b2 :
  0 <= b0 < 256 -> 0 <= b1 < 256 -> 0 <= b2 < 256 ->
  to_ulong (to_ulong (Z.shiftl (to_ulong (to_ulong (Z.shiftl b2 8) + b1)) 8) + b0)
  = b0 + 256 * b1 + 65536 * b2.
Proof.
  intros H0 H1 H2. rewrite !Z.shiftl_mul_pow2 by lia. change (2 ^ 8) with 256.
  unfold to_ulong. rewrite (Z.mod_small (b2 * 256)) by lia.
  rewrite (Z.mod_small (b2 * 256 + b1)) by lia.
  rewrite (Z.mod_small ((b2 * 256 + b1) * 256)) by lia.
  rewrite Z.mod_small by lia. lia.
Qed.

(** X1.  [SUMP_SET_DIVIDER] stores the first three payload bytes as a 24-bit
    little-endian number in [divider]; the fourth byte is read and dropped;
    nothing is sent and the rest of the session state stays. *)
Theorem set_divider_little_endian :
  forall mcu pins fuel p0 p1 p2 p3 rest s,
    exists s',
      loop mcu pins fuel
        (set_rx (SUMP_SET_DIVIDER :: p0 :: p1 :: p2 :: p3 :: rest) s) = Some s' /\
      divider s' = to_byte p0 + 256 * to_byte p1 + 65536 * to_byte p2 /\
      0 <= divider s' < 16777216 /\
      trigger s' = trigger s /\ trigger_values s' = trigger_values s /\
      readCount s' = readCount s /\ delayCount s' = delayCount s /\
      rx s' = rest /\ tx s' = tx s.
Proof.
  intros mcu pins fuel p0 p1 p2 p3 rest s.
  pose proof (to_byte_range p0). pose proof (to_byte_range p1).
  pose proof (to_byte_range p2).
  eexists. split; [reflexivity|].
  assert (Hd : forall t,
    divider (set_divider
      (to_ulong (to_ulong (Z.shiftl (to_ulong (to_ulong
         (Z.shiftl (to_byte (to_byte p2)) 8) + to_byte (to_byte p1))) 8)
         + to_byte (to_byte p0))) t)
    = to_byte p0 + 256 * to_byte p1 + 65536 * to_byte p2).
  { intros t. cbn [divider set_divider]. rewrite !to_byte_idemp.
    apply divider_bytes; assumption. }
  split; [apply Hd|]. split; [rewrite Hd; lia|].
  repeat split; reflexivity.
Qed.

(** X2.  [SUMP_TRIGGER_MASK] and [SUMP_TRIGGER_VALUES] store the first
    payload byte as it is in [trigger] and [trigger_values]; the other three
    bytes are read and dropped, nothing is sent, and the rest of the session
    state stays. *)
Theorem set_trigger_byte :
  forall mcu pins fuel p0 p1 p2 p3 rest s,
    (exists s',
       loop mcu pins fuel
         (set_rx (SUMP_TRIGGER_MASK :: p0 :: p1 :: p2 :: p3 :: rest) s) = Some s' /\
       trigger s' = to_byte p0 /\
       trigger_values s' = trigger_values s /\ divider s' = divider s /\
       readCount s' = readCount s /\ delayCount s' = delayCount s /\
       rx s' = rest /\ tx s' = tx s) /\
    (exists s',
       loop mcu pins fuel
         (set_rx (SUMP_TRIGGER_VALUES :: p0 :: p1 :: p2 :: p3 :: rest) s) = Some s' /\
       trigger_values s' = to_byte p0 /\
       trigger s' = trigger s /\ divider s' = divider s /\
       readCount s' = readCount s /\ delayCount s' = delayCount s /\
       rx s' = rest /\ tx s' = tx s).
Proof.
  intros mcu pins fuel p0 p1 p2 p3 rest s. split.
  - eexists. split; [reflexivity|].
    split; [cbn [trigger set_trigger]; apply to_byte_idemp|].
    repeat split; reflexivity.
  - eexists. split; [reflexivity|].
    split; [cbn [trigger_values set_trigger_values]; apply to_byte_idemp|].
    repeat split; reflexivity.
Qed.

Lemma getCmd_frame s :
  session (getCmd s) = session s /\ tx (getCmd s) = tx s /\
  logicdata (getCmd s) = logicdata s /\ logicIndex (getCmd s) = logicIndex s /\
  tick (getCmd s) = tick s /\ trace (getCmd s) = trace s.
Proof.
  destruct s as [? ? ? ? ? ? ? ? ? ? ? pending ? ? ?].
  unfold getCmd, Serial_read. cbn [rx].
  destruct pending as [|? [|? [|? [|? ?]]]]; done.
Qed.

Lemma send_metadata_frame mcu s :
  session (send_metadata mcu s) = session s /\
  tx (send_metadata mcu s) = tx s ++ map to_byte (metadata mcu) /\
  rx (send_metadata mcu s) = rx s /\
  logicdata (send_metadata mcu s) = logicdata s /\
  logicIndex (send_metadata mcu s) = logicIndex s /\
  tick (send_metadata mcu s) = tick s /\ trace (send_metadata mcu s) = trace s.
Proof.
  unfold send_metadata. generalize (metadata mcu). intros l. revert s.
  induction l as [|b l IH]; intros s; cbn [fold_left map].
  { rewrite app_nil_r. done. }
  destruct (IH (Serial_write b s)) as (-> & -> & -> & -> & -> & -> & ->).
  cbn. rewrite <- app_assoc. done.
Qed.

(** Membership of a byte in a list of opcodes, from equations on the byte. *)
Ltac opcode_in :=
  unfold five_byte_opcodes; cbn [In];
  repeat match goal with
    | H : (_ || _) = true |- _ => apply orb_true_iff in H; destruct H as [H|H]
    | H : (_ =? _) = true |- _ => apply Z.eqb_eq in H
    end;
  unfold SUMP_SET_DIVIDER, SUMP_SET_READ_DELAY_COUNT, SUMP_SET_FLAGS,
    SUMP_TRIGGER_MASK, SUMP_TRIGGER_VALUES, SUMP_TRIGGER_CONFIG,
    SUMP_TRIGGER_MASK2, SUMP_TRIGGER_MASK3, SUMP_TRIGGER_MASK4,
    SUMP_TRIGGER_VALUES2, SUMP_TRIGGER_VALUES3, SUMP_TRIGGER_VALUES4,
    SUMP_TRIGGER_CONFIG2, SUMP_TRIGGER_CONFIG3, SUMP_TRIGGER_CONFIG4 in *;
  lia.

(** A pass of [loop] on a byte other than [SUMP_ARM] returns and leaves the
    capture as it is. *)
Lemma loop_without_arm_frame :
  forall mcu pins fuel c rest s,
    to_byte c <> SUMP_ARM ->
    exists s',
      loop mcu pins fuel (set_rx (c :: rest) s) = Some s' /\
      logicdata s' = logicdata s /\ logicIndex s' = logicIndex s /\
      tick s' = tick s /\ trace s' = trace s.
Proof.
  intros mcu pins fuel c rest s Harm.
  unfold loop, Serial_read. cbn [rx set_rx].
  set (b := to_byte c) in *.
  repeat lazymatch goal with
    | |- exists s', (if ?x =? ?v then _ else _) = _ /\ _ =>
        destruct (Z.eqb_spec x v)
    | |- exists s', (if ?cond then _ else _) = _ /\ _ =>
        destruct cond
    end;
    try contradiction;
    (eexists; split; [reflexivity|]);
    cbn [logicdata logicIndex tick trace set_trigger set_trigger_values
         set_divider set_readCount set_delayCount Serial_write set_tx];
    try match goal with |- context [getCmd ?t] =>
      destruct (getCmd_frame t) as (_ & _ & -> & -> & -> & ->) end;
    try match goal with |- context [send_metadata mcu ?t] =>
      destruct (send_metadata_frame mcu t) as (_ & _ & _ & -> & -> & -> & ->)
    end;
    done.
Qed.

(** X3.  A byte other than [SUMP_ARM] never starts an acquisition: the pass
    of [loop] returns, and the buffer, the cursor, the sample count and the
    trace of accesses stay as they are.  Something is sent only for
    [SUMP_QUERY] and [SUMP_GET_METADATA], and the session state changes only
    for the opcodes 0x80, 0x81, 0xC0 and 0xC1; a byte that is not one of the
    opcodes with a payload, known or not, costs one byte of input. *)
Theorem pass_without_arm :
  forall mcu pins fuel c rest s,
    to_byte c <> SUMP_ARM ->
    exists s',
      loop mcu pins fuel (set_rx (c :: rest) s) = Some s' /\
      logicdata s' = logicdata s /\ logicIndex s' = logicIndex s /\
      tick s' = tick s /\ trace s' = trace s /\
      (to_byte c <> SUMP_QUERY -> to_byte c <> SUMP_GET_METADATA ->
       tx s' = tx s) /\
      (~ In (to_byte c) [SUMP_SET_DIVIDER; SUMP_SET_READ_DELAY_COUNT;
                         SUMP_TRIGGER_MASK; SUMP_TRIGGER_VALUES] ->
       session s' = session s) /\
      (~ In (to_byte c) five_byte_opcodes -> rx s' = rest).
Proof.
  intros mcu pins fuel c rest s Harm.
  unfold loop, Serial_read. cbn [rx set_rx].
  set (b := to_byte c) in *.
  repeat lazymatch goal with
    | |- exists s', (if ?x =? ?v then _ else _) = _ /\ _ =>
        destruct (Z.eqb_spec x v)
    | |- exists s', (if ?cond then _ else _) = _ /\ _ =>
        destruct cond eqn:?
    end;
    try contradiction;
    (eexists; split; [reflexivity|]);
    unfold session;
    cbn [logicdata logicIndex tick trace tx rx set_trigger
         set_trigger_values set_divider set_readCount set_delayCount
         divider trigger trigger_values readCount delayCount
         Serial_write set_tx];
    try match goal with |- context [getCmd ?t] =>
      destruct (getCmd_frame t) as (Hses & -> & -> & -> & -> & ->);
      unfold session in Hses; injection Hses as Hd Ht Hv Hr Hc end;
    try match goal with |- context [send_metadata mcu ?t] =>
      destruct (send_metadata_frame mcu t) as (Hses & -> & -> & -> & -> & -> & ->);
      unfold session in Hses; injection Hses as Hd Ht Hv Hr Hc
    end;
    rewrite ?Hd, ?Ht, ?Hv, ?Hr, ?Hc;
    cbn [logicdata logicIndex tick trace tx rx set_cmdByte set_rx
         divider trigger trigger_values readCount delayCount];
    (split; [reflexivity|]); (split; [reflexivity|]);
    (split; [reflexivity|]); (split; [reflexivity|]);
    (split; [first [intros; congruence | intros; reflexivity]|]);
    (split; [first [intros; reflexivity | intros Hn; exfalso; apply Hn; opcode_in]|]);
    first [intros; reflexivity | intros Hn; exfalso; apply Hn; opcode_in].
Qed.

Lemma pass_without_arm_witness :
  to_byte 0x11 <> SUMP_ARM /\
  to_byte 0x11 <> SUMP_QUERY /\ to_byte 0x11 <> SUMP_GET_METADATA /\
  exists s',
    loop ATmega328P (fun _ => 0) 0 (set_rx [0x11; SUMP_QUERY] request_8_4)
    = Some s' /\
    tx s' = tx request_8_4 /\ session s' = session request_8_4 /\
    rx s' = [SUMP_QUERY].
Proof.
  assert (H1 : to_byte 0x11 <> SUMP_ARM) by (vm_compute; discriminate).
  assert (H2 : to_byte 0x11 <> SUMP_QUERY) by (vm_compute; discriminate).
  assert (H3 : to_byte 0x11 <> SUMP_GET_METADATA) by (vm_compute; discriminate).
  split; [exact H1|]. split; [exact H2|]. split; [exact H3|].
  destruct (pass_without_arm ATmega328P (fun _ => 0) 0%nat 0x11 [SUMP_QUERY]
              request_8_4 H1) as (s' & Hs' & _ & _ & _ & _ & Htx & Hses & Hrx).
  exists s'. split; [exact Hs'|]. split; [apply Htx; assumption|]. split.
  - apply Hses. vm_compute. intros [H|[H|[H|[H|[]]]]]; discriminate.
  - apply Hrx. vm_compute.
    repeat (intros [H|H]; [discriminate|revert H]). tauto.
Defined.

(** X4.  [getCmd] does not test whether the payload has arrived: with fewer
    than four bytes in the receive buffer it takes what is there and stores
    0xFF for every missing byte.  An opcode 0xC0 that arrives alone thus
    sets the trigger mask to 0xFF, and an opcode 0x81 that arrives alone
    sets both counts to 0. *)
Theorem getCmd_missing_bytes :
  forall mcu pins fuel s,
    ((length (rx s) < 4)%nat ->
     rx (getCmd s) = [] /\
     firstn 4 (cmdBytes (getCmd s))
     = map to_byte (rx s) ++ replicate (4 - length (rx s)) 255 /\
     session (getCmd s) = session s) /\
    (exists s',
       loop mcu pins fuel (set_rx [SUMP_TRIGGER_MASK] s) = Some s' /\
       trigger s' = 255) /\
    (exists s',
       loop mcu pins fuel (set_rx [SUMP_SET_READ_DELAY_COUNT] s) = Some s' /\
       readCount s' = 0 /\ delayCount s' = 0).
Proof.
  intros mcu pins fuel s. split; [|split].
  - intros Hlen. destruct s as [? ? ? ? ? ? ? ? ? ? ? pending ? ? ?].
    cbn [rx] in *. unfold getCmd, Serial_read. cbn [rx].
    destruct pending as [|? [|? [|? [|? ?]]]]; cbn [length] in Hlen; [..|lia];
      cbn; rewrite ?to_byte_idemp; done.
  - eexists. split; [reflexivity|]. reflexivity.
  - eexists. split; [reflexivity|]. destruct mcu; split; reflexivity.
Qed.

Lemma getCmd_missing_bytes_witness :
  (length (rx (set_rx [7; 9]%Z request_8_4)) < 4)%nat /\
  firstn 4 (cmdBytes (getCmd (set_rx [7; 9] request_8_4))) = [7; 9; 255; 255].
Proof.
  assert (H : (length (rx (set_rx [7; 9]%Z request_8_4)) < 4)%nat) by (cbn; lia).
  split; [exact H|].
  destruct (proj1 (getCmd_missing_bytes ATmega328P (fun _ => 0) 0%nat
                     (set_rx [7; 9] request_8_4)) H) as (_ & Hbytes & _).
  exact Hbytes.
Defined.

(** X5.  [SUMP_GET_METADATA] sends the 32 bytes of the metadata record in
    order and changes nothing else.  The record ends with the 0x00
    terminator; its sample-memory field (tag 0x21, four bytes, most
    significant first) is the capacity of the buffer of the build, and its
    sample-rate field (tag 0x23) is 5 000 000. *)
Theorem metadata_record :
  forall mcu pins fuel rest s,
    exists s',
      loop mcu pins fuel (set_rx (SUMP_GET_METADATA :: rest) s) = Some s' /\
      tx s' = tx s ++ metadata mcu /\
      rx s' = rest /\ session s' = session s /\
      logicdata s' = logicdata s /\
      length (metadata mcu) = 32%nat /\
      last (metadata mcu) = Some 0 /\
      (exists b3 b2 b1 b0,
         firstn 5 (skipn 17 (metadata mcu)) = [0x21; b3; b2; b1; b0] /\
         ((b3 * 256 + b2) * 256 + b1) * 256 + b0 = MAX_CAPTURE_SIZE mcu) /\
      (exists b3 b2 b1 b0,
         firstn 5 (skipn 22 (metadata mcu)) = [0x23; b3; b2; b1; b0] /\
         ((b3 * 256 + b2) * 256 + b1) * 256 + b0 = 5000000).
Proof.
  intros mcu pins fuel rest s. eexists. split; [reflexivity|].
  match goal with |- context [send_metadata mcu ?t] =>
    destruct (send_metadata_frame mcu t) as (-> & -> & -> & -> & _) end.
  assert (Hbytes : map to_byte (metadata mcu) = metadata mcu)
    by (destruct mcu; reflexivity).
  rewrite Hbytes.
  split; [reflexivity|]. split; [reflexivity|]. split; [reflexivity|].
  split; [reflexivity|]. split; [reflexivity|].
  split; [destruct mcu; reflexivity|]. split.
  - destruct mcu; eexists _, _, _, _; (split; [reflexivity|]); reflexivity.
  - destruct mcu; eexists _, _, _, _; (split; [reflexivity|]); reflexivity.
Qed.

(** X6.  For raw 16-bit fields up to 0x1FFE, where [4 * (raw + 1)] fits the
    [int], [SUMP_SET_READ_DELAY_COUNT] sets [readCount] and [delayCount] to
    [4 * (raw + 1)] clamped to the capacity, the read count from payload
    bytes 0 (low) and 1 (high), the delay count from bytes 2 and 3; both
    are then between 4 and the capacity.  Divider and trigger stay. *)
Theorem set_read_delay_count_in_range :
  forall mcu pins fuel l0 h0 l1 h1 rest s,
    to_byte h0 * 256 + to_byte l0 < 8191 ->
    to_byte h1 * 256 + to_byte l1 < 8191 ->
    exists s',
      loop mcu pins fuel
        (set_rx (SUMP_SET_READ_DELAY_COUNT :: l0 :: h0 :: l1 :: h1 :: rest) s)
      = Some s' /\
      readCount s'
      = Z.min (4 * (to_byte h0 * 256 + to_byte l0 + 1)) (MAX_CAPTURE_SIZE mcu) /\
      delayCount s'
      = Z.min (4 * (to_byte h1 * 256 + to_byte l1 + 1)) (MAX_CAPTURE_SIZE mcu) /\
      4 <= readCount s' <= MAX_CAPTURE_SIZE mcu /\
      4 <= delayCount s' <= MAX_CAPTURE_SIZE mcu /\
      divider s' = divider s /\ trigger s' = trigger s /\
      trigger_values s' = trigger_values s /\ rx s' = rest /\ tx s' = tx s.
Proof.
  intros mcu pins fuel l0 h0 l1 h1 rest s Hr Hd.
  pose proof (to_byte_range l0). pose proof (to_byte_range h0).
  pose proof (to_byte_range l1). pose proof (to_byte_range h1).
  pose proof (MAX_CAPTURE_SIZE_range mcu).
  eexists. split; [reflexivity|].
  assert (Hread : forall t u,
    readCount (set_delayCount u
      (set_readCount (decode_count mcu (to_byte (to_byte h0)) (to_byte (to_byte l0))) t))
    = Z.min (4 * (to_byte h0 * 256 + to_byte l0 + 1)) (MAX_CAPTURE_SIZE mcu)).
  { intros t u. cbn [readCount set_delayCount set_readCount].
    rewrite !to_byte_idemp. apply decode_count_small; lia. }
  assert (Hdelay : forall t,
    delayCount (set_delayCount
      (decode_count mcu (to_byte (to_byte h1)) (to_byte (to_byte l1))) t)
    = Z.min (4 * (to_byte h1 * 256 + to_byte l1 + 1)) (MAX_CAPTURE_SIZE mcu)).
  { intros t. cbn [delayCount set_delayCount].
    rewrite !to_byte_idemp. apply decode_count_small; lia. }
  split; [apply Hread|]. split; [apply Hdelay|].
  split; [rewrite Hread; lia|]. split; [rewrite Hdelay; lia|].
  repeat split; reflexivity.
Qed.

Lemma set_read_delay_count_in_range_witness :
  to_byte 0x01 * 256 + to_byte 0x7F < 8191 /\
  to_byte 0x00 * 256 + to_byte 0x00 < 8191 /\
  exists s',
    loop ATmega328P (fun _ => 0) 0
      (set_rx [SUMP_SET_READ_DELAY_COUNT; 0x7F; 0x01; 0x00; 0x00]
         (power_up ATmega328P)) = Some s' /\
    readCount s' = 1536 /\ delayCount s' = 4.
Proof.
  assert (H1 : to_byte 0x01 * 256 + to_byte 0x7F < 8191) by (vm_compute; reflexivity).
  assert (H2 : to_byte 0x00 * 256 + to_byte 0x00 < 8191) by (vm_compute; reflexivity).
  split; [exact H1|]. split; [exact H2|].
  destruct (set_read_delay_count_in_range ATmega328P (fun _ => 0) 0%nat
              0x7F 0x01 0x00 0x00 [] (power_up ATmega328P) H1 H2)
    as (s' & Hs' & Hrc & Hdc & _).
  exists s'. split; [exact Hs'|]. split; [exact Hrc | exact Hdc].
Defined.

(** * Further properties of the acquisition *)

(** X7.  The timer set-up of [acquireSlow], for every divider that
    [SUMP_SET_DIVIDER] can store: the divider is raised to 99 when below;
    with [q = (divider + 1) / 100], Timer 1 runs without prescaler
    ([TCCR1B] = 9) and counts [16 q] cycles when [16 q] fits 16 bits, and
    runs with prescaler 256 ([TCCR1B] = 12) otherwise, its period then less
    than 256 cycles short of [16 q]; the value written to [OCR1A] is never
    truncated.  All dividers up to 99 give 16 cycles. *)
Theorem timer_period :
  forall s,
    0 <= divider s < 16777216 ->
    let q := (Z.max 99 (divider s) + 1) / 100 in
    divider (timer_setup s) = Z.max 99 (divider s) /\
    15 <= OCR1A (timer_setup s) < 65536 /\
    (16 * q < 65536 /\ TCCR1B (timer_setup s) = 9 /\
     OCR1A (timer_setup s) + 1 = 16 * q
     \/
     65536 <= 16 * q /\ TCCR1B (timer_setup s) = 12 /\
     16 * q - 256 < 256 * (OCR1A (timer_setup s) + 1) <= 16 * q) /\
    (divider s <= 99 ->
     TCCR1B (timer_setup s) = 9 /\ OCR1A (timer_setup s) = 15).
Proof.
  intros s Hd q.
  assert (Hq : 1 <= q <= 167772).
  { subst q. split.
    - apply Z.div_le_lower_bound; lia.
    - enough ((Z.max 99 (divider s) + 1) / 100 < 167773) by lia.
      apply Z.div_lt_upper_bound; lia. }
  assert (H99 : divider s <= 99 -> q = 1).
  { intros H. subst q. replace (Z.max 99 (divider s)) with 99 by lia.
    reflexivity. }
  set (s1 := if divider s <? 99 then set_divider 99 s else s).
  assert (Hclamp : divider s1 = Z.max 99 (divider s)).
  { subst s1. destruct (Z.ltb_spec (divider s) 99);
      cbn [divider set_divider]; lia. }
  assert (Htop : to_ulong (to_ulong (divider s1 + 1) / 100 * 16) = q * 16).
  { rewrite Hclamp. unfold to_ulong.
    rewrite (Z.mod_small (Z.max 99 (divider s) + 1)) by lia.
    fold q. apply Z.mod_small. lia. }
  assert (Hdiv : 256 * (q * 16 / 256) <= q * 16 < 256 * (q * 16 / 256) + 256).
  { pose proof (Z.div_mod (q * 16) 256 ltac:(lia)).
    pose proof (Z.mod_pos_bound (q * 16) 256 ltac:(lia)). lia. }
  assert (Hsetup :
    timer_setup s
    = if q * 16 >=? 65536
      then set_logicIndex 0 (set_timer1 12 (q * 16 / 256 - 1) s1)
      else set_logicIndex 0 (set_timer1 9 (q * 16 - 1) s1)).
  { unfold timer_setup. fold s1. cbv zeta. rewrite Htop.
    destruct (Z.geb_spec (q * 16) 65536) as [Hbig|Hsmall].
    - change (Z.lor 8 4) with 12.
      unfold to_ulong, to_uint16.
      rewrite (Z.mod_small _ 4294967296) by lia.
      rewrite (Z.mod_small _ 65536) by lia. reflexivity.
    - change (Z.lor 8 1) with 9.
      unfold to_ulong, to_uint16.
      rewrite (Z.mod_small _ 4294967296) by lia.
      rewrite (Z.mod_small _ 65536) by lia. reflexivity. }
  rewrite Hsetup.
  destruct (Z.geb_spec (q * 16) 65536) as [Hbig|Hsmall];
    cbn [divider OCR1A TCCR1B set_timer1 set_logicIndex].
  - split; [exact Hclamp|]. split; [lia|]. split; [right; lia|].
    intros H. specialize (H99 H). lia.
  - split; [exact Hclamp|]. split; [lia|]. split; [left; lia|].
    intros H. specialize (H99 H). split; [reflexivity|lia].
Qed.

Lemma timer_period_witness :
  0 <= divider (set_divider 99999 request_8_4) < 16777216 /\
  TCCR1B (timer_setup (set_divider 99999 request_8_4)) = 9 /\
  OCR1A (timer_setup (set_divider 99999 request_8_4)) + 1 = 16000.
Proof.
  assert (H : 0 <= divider (set_divider 99999 request_8_4) < 16777216)
    by (cbn; lia).
  split; [exact H|].
  destruct (timer_period (set_divider 99999 request_8_4) H)
    as (_ & _ & [(_ & H1 & H2)|(Hbig & _)] & _).
  - split; [exact H1 | exact H2].
  - exfalso. vm_compute in Hbig. apply Hbig. reflexivity.
Defined.

Lemma loop_arm_byte mcu pins fuel s c r :
  rx s = c :: r -> to_byte c = SUMP_ARM ->
  loop mcu pins fuel s
  = acquire pins fuel
      (set_logicdata (replicate (Z.to_nat (MAX_CAPTURE_SIZE mcu)) 0)
         (set_cmdByte SUMP_ARM (set_rx r s))).
Proof.
  intros H E. unfold loop, Serial_read. rewrite H, E. reflexivity.
Qed.

(** X8.  A pass of [loop] that begins with a read count from 2 up to the
    capacity keeps every access to [logicdata] within the buffer, whatever
    byte it reads and whatever the delay count, the divider and the input
    are. *)
Theorem pass_in_bounds :
  forall mcu pins fuel s s',
    1 < readCount s <= MAX_CAPTURE_SIZE mcu ->
    Forall (in_bounds mcu) (trace s) ->
    loop mcu pins fuel s = Some s' ->
    Forall (in_bounds mcu) (trace s').
Proof.
  intros mcu pins fuel s s' Hrc Htrace Hloop.
  destruct (rx s) as [|c r] eqn:Hrx.
  { rewrite loop_idle in Hloop by exact Hrx. injection Hloop as <-. exact Htrace. }
  destruct (Z.eq_dec (to_byte c) SUMP_ARM) as [Earm|Earm].
  - rewrite (loop_arm_byte mcu pins fuel s c r Hrx Earm) in Hloop.
    eapply acquire_in_bounds; [| |exact Hloop]; cbn; assumption.
  - destruct (loop_without_arm_frame mcu pins fuel c r s Earm)
      as (s1 & Hs1 & _ & _ & _ & Htr).
    assert (Hs : set_rx (c :: r) s = s).
    { destruct s. cbn in Hrx. subst. reflexivity. }
    rewrite Hs in Hs1. rewrite Hs1 in Hloop. injection Hloop as <-.
    rewrite Htr. exact Htrace.
Qed.

Lemma pass_in_bounds_witness :
  1 < readCount request_8_4 <= MAX_CAPTURE_SIZE ATmega328P /\
  Forall (in_bounds ATmega328P) (trace (set_rx [SUMP_ARM] request_8_4)) /\
  exists s',
    loop ATmega328P (fun _ => 0) 8 (set_rx [SUMP_ARM] request_8_4) = Some s' /\
    Forall (in_bounds ATmega328P) (trace s').
Proof.
  assert (H1 : 1 < readCount request_8_4 <= MAX_CAPTURE_SIZE ATmega328P)
    by (cbn; lia).
  assert (H2 : Forall (in_bounds ATmega328P)
                 (trace (set_rx [SUMP_ARM] request_8_4))) by constructor.
  split; [exact H1|]. split; [exact H2|].
  destruct (loop ATmega328P (fun _ => 0) 8 (set_rx [SUMP_ARM] request_8_4))
    as [s'|] eqn:E; [|vm_compute in E; discriminate].
  exists s'. split; [reflexivity|].
  exact (pass_in_bounds ATmega328P (fun _ => 0) 8%nat
           (set_rx [SUMP_ARM] request_8_4) s' H1 H2 E).
Defined.

(** ** The circular buffer of the slow acquisition *)

Lemma lookup_map_seq {A} (f : nat -> A) n i :
  (i < n)%nat -> map f (seq 0 n) !! i = Some (f i).
Proof.
  induction n as [|n IH]; intros Hi; [lia|].
  rewrite seq_S, map_app. cbn [Nat.add map].
  destruct (Nat.eq_dec i n) as [->|Hne].
  - rewrite lookup_app_r by (rewrite length_map, length_seq; lia).
    rewrite length_map, length_seq, Nat.sub_diag. reflexivity.
  - rewrite lookup_app_l by (rewrite length_map, length_seq; lia).
    apply IH. lia.
Qed.

Lemma mod_succ n r :
  (0 < r)%nat ->
  (S n mod r = if S (n mod r) =? r then 0 else S (n mod r))%nat.
Proof.
  intros Hr.
  pose proof (Nat.div_mod_eq n r) as Hn.
  pose proof (Nat.mod_upper_bound n r ltac:(lia)) as Hlt.
  destruct (Nat.eqb_spec (S (n mod r)) r) as [E|E]; symmetry.
  - apply (Nat.mod_unique _ _ (S (n / r))); lia.
  - apply (Nat.mod_unique _ _ (n / r)); lia.
Qed.

Lemma mod_apart m n r :
  (m < n)%nat -> (n < m + r)%nat -> (m mod r <> n mod r)%nat.
Proof.
  intros Hmn Hnr E.
  pose proof (Nat.div_mod_eq n r) as Hn.
  pose proof (Nat.div_mod_eq m r) as Hm.
  rewrite E in Hm.
  destruct (le_lt_dec (n / r) (m / r)); nia.
Qed.

Lemma ram_sampled_wrap pins stop a :
  ram (sampled pins (store_wrap stop) a)
  = array_set (ram a) (LOGICDATAaddr a) (CHANPIN pins (samples a)).
Proof.
  unfold sampled, store_wrap, wrap_at.
  destruct (_ =? _); reflexivity.
Qed.

Lemma pointer_after_store pins stop a :
  LOGICDATAaddr (sampled pins (store_wrap stop) a)
  = if to_uint16 (LOGICDATAaddr a + 1) =? stop then 0
    else to_uint16 (LOGICDATAaddr a + 1).
Proof.
  unfold sampled, store_wrap, wrap_at.
  cbn [LOGICDATAaddr st_postinc adiw1 st set_ptr next_sample].
  destruct (_ =? _); reflexivity.
Qed.

Lemma circular_sampled pins r t0 init n a :
  (0 < r <= length init)%nat -> Z.of_nat r < 65536 ->
  circular pins r t0 init n a ->
  circular pins r t0 init (S n) (sampled pins (store_wrap (Z.of_nat r)) a).
Proof.
  intros Hr Hmax (Hs & Hp & Hl & Hnew & Hold).
  pose proof (Nat.mod_upper_bound n r ltac:(lia)) as Hlt.
  unfold circular.
  rewrite (samples_sampled pins _ (samples_store_wrap _)).
  rewrite ram_sampled_wrap, pointer_after_store, Hp, Hs, array_set_nat.
  rewrite to_uint16_id by lia.
  split; [lia|]. split; [|split; [|split]].
  - rewrite (mod_succ n r) by lia.
    destruct (Z.eqb_spec (Z.of_nat (n mod r) + 1) (Z.of_nat r));
      destruct (Nat.eqb_spec (S (n mod r)) r); lia.
  - rewrite length_insert. exact Hl.
  - intros m Hm Hwin. destruct (Nat.eq_dec m n) as [->|Hne].
    + apply list_lookup_insert_eq. lia.
    + rewrite list_lookup_insert_ne by (apply not_eq_sym, mod_apart; lia).
      apply Hnew; lia.
  - intros i Hi. pose proof (Nat.Div0.mod_le n r).
    rewrite list_lookup_insert_ne by lia. apply Hold. lia.
Qed.

Lemma circular_counted pins r t0 init n a :
  (0 < r <= length init)%nat -> Z.of_nat r < 65536 ->
  circular pins r t0 init n a ->
  circular pins r t0 init (S n) (counted pins (store_wrap (Z.of_nat r)) a).
Proof.
  intros Hr Hmax H. exact (circular_sampled pins r t0 init n a Hr Hmax H).
Qed.

Lemma circular_iter_sampled pins r t0 init j : forall n a,
  (0 < r <= length init)%nat -> Z.of_nat r < 65536 ->
  circular pins r t0 init n a ->
  circular pins r t0 init (j + n)
    (Nat.iter j (sampled pins (store_wrap (Z.of_nat r))) a).
Proof.
  induction j as [|j IH]; intros n a Hr Hmax H; [exact H|].
  rewrite Nat.iter_succ. cbn [Nat.add].
  apply circular_sampled; auto.
Qed.

Lemma circular_iter_counted pins r t0 init j : forall n a,
  (0 < r <= length init)%nat -> Z.of_nat r < 65536 ->
  circular pins r t0 init n a ->
  circular pins r t0 init (j + n)
    (Nat.iter j (counted pins (store_wrap (Z.of_nat r))) a).
Proof.
  induction j as [|j IH]; intros n a Hr Hmax H; [exact H|].
  rewrite Nat.iter_succ. cbn [Nat.add].
  apply circular_counted; auto.
Qed.

Lemma circular_enter pins r s :
  circular pins r (tick s) (logicdata s) 0 (asm_enter s).
Proof.
  unfold circular. cbn [asm_enter samples LOGICDATAaddr ram].
  rewrite Nat.Div0.mod_0_l.
  split; [lia|]. split; [reflexivity|]. split; [reflexivity|].
  split; [intros m Hm; lia | reflexivity].
Qed.

(** What [acquireSlow] sends: the samples from the newest back, as many as
    were stored and the buffer holds, then what was in the slots that no
    store reached. *)
Lemma acquireSlow_output pins fuel s k :
  0 < readCount s < 32768 ->
  readCount s <= Z.of_nat (length (logicdata s)) ->
  first_match pins (trigger_values s) (trigger s) (tick s) k ->
  (k < fuel)%nat ->
  (passes (to_uint16 (delayCount s)) <= fuel)%nat ->
  let r := Z.to_nat (readCount s) in
  let N := (passes (to_uint16 (delayCount s)) + S k)%nat in
  exists s',
    acquireSlow pins fuel s = Some s' /\
    tick s' = (tick s + N)%nat /\
    rx s' = rx s /\
    tx s'
    = tx s ++ map (fun i => if (i <? N)%nat
                            then CHANPIN pins (tick s + (N - 1 - i))
                            else to_byte (array_get (logicdata s)
                                            (Z.of_nat (N - 1 + r - i))))
                (seq 0 r).
Proof.
  intros Hrc Hlen Hfirst Hk Hfuel r N.
  assert (Er : readCount s = Z.of_nat r) by (subst r; lia).
  assert (Hr : (0 < r <= length (logicdata s))%nat) by lia.
  clearbody r.
  pose proof (session_timer_setup s) as Hses. unfold session in Hses.
  injection Hses as _ Htr Hval Hrcs Hdc.
  destruct (timer_setup_fields s) as (Hld & Htick & _ & Htx & Hrx & _).
  pose proof (asm_slow_eq pins fuel (timer_setup s) k) as Hasm.
  pose proof (circular_enter pins r (timer_setup s)) as Henter.
  unfold acquireSlow.
  set (s1 := timer_setup s) in *. clearbody s1.
  rewrite Htr, Hval, Htick, Hdc, Hrcs in Hasm. specialize (Hasm Hfirst Hk Hfuel).
  rewrite Htick, Hld in Henter.
  rewrite Er, (to_uint16_id (Z.of_nat r)) in Hasm by lia.
  rewrite Hasm. cbn [mbind option_bind].
  match type of Hasm with _ = Some ?x => set (a := x) end.
  assert (Hcirc : circular pins r (tick s) (logicdata s) N a).
  { subst a N. apply circular_iter_counted; [lia..|].
    pose proof (circular_iter_sampled pins r (tick s) (logicdata s) (S k) 0
                  (asm_enter s1) Hr ltac:(lia) Henter) as H0.
    rewrite Nat.add_0_r in H0. exact H0. }
  clearbody a. destruct Hcirc as (Hs & Hp & Hl & Hnew & Hold).
  pose proof (Nat.mod_upper_bound N r ltac:(lia)) as Hmod.
  eexists. split; [reflexivity|]. split; [|split].
  - rewrite tick_dump_slow. exact Hs.
  - unfold dump_slow.
    match goal with |- context [send_backward ?n ?x] =>
      destruct (send_backward_fields n x) as (_ & _ & _ & ->) end.
    exact Hrx.
  - unfold dump_slow.
    cbn [logicIndex readCount set_logicIndex asm_leave].
    rewrite Hp, Hrcs, Er, Nat2Z.id.
    rewrite (to_int_id (Z.of_nat (N mod r))) by lia.
    rewrite (to_int_id (Z.of_nat (N mod r) - 1)) by lia.
    match goal with |- context [send_backward r ?x] =>
      destruct (send_backward_spec r x) as [-> _] end.
    { cbn [readCount set_logicIndex asm_leave]. lia. }
    { cbn [readCount logicIndex set_logicIndex asm_leave]. lia. }
    cbn [tx logicdata logicIndex readCount set_logicIndex asm_leave].
    rewrite Htx, Hrcs, Er. f_equal.
    apply map_ext_in. intros i Hi. apply in_seq in Hi.
    rewrite Nat2Z.inj_mod.
    replace (Z.of_nat N mod Z.of_nat r - 1 - Z.of_nat i)
      with (Z.of_nat N mod Z.of_nat r - (1 + Z.of_nat i)) by lia.
    rewrite Zminus_mod_idemp_l.
    destruct (Nat.ltb_spec i N) as [HiN|HiN].
    + replace (Z.of_nat N - (1 + Z.of_nat i)) with (Z.of_nat (N - 1 - i)) by lia.
      rewrite <- Nat2Z.inj_mod. unfold array_get.
      destruct (Z.leb_spec 0 (Z.of_nat ((N - 1 - i) mod r))); [|lia].
      rewrite Nat2Z.id, Hnew by lia. cbn [default from_option].
      apply to_byte_idemp.
    + replace ((Z.of_nat N - (1 + Z.of_nat i)) mod Z.of_nat r)
        with (Z.of_nat (N - 1 + r - i)).
      2:{ apply (Z.mod_unique_pos _ _ (-1)); lia. }
      unfold array_get.
      destruct (Z.leb_spec 0 (Z.of_nat (N - 1 + r - i))); [|lia].
      rewrite Nat2Z.id, Hold by lia. reflexivity.
Qed.

Lemma armed_fields mcu rest s :
  let s0 := set_logicdata (replicate (Z.to_nat (MAX_CAPTURE_SIZE mcu)) 0)
              (set_cmdByte SUMP_ARM (set_rx rest (set_rx (SUMP_ARM :: rest) s))) in
  readCount s0 = readCount s /\ delayCount s0 = delayCount s /\
  trigger s0 = trigger s /\ trigger_values s0 = trigger_values s /\
  tick s0 = tick s /\ tx s0 = tx s /\ rx s0 = rest /\
  divider s0 = divider s /\
  logicdata s0 = replicate (Z.to_nat (MAX_CAPTURE_SIZE mcu)) 0.
Proof. cbv zeta. repeat split; reflexivity. Qed.

Lemma array_get_cleared n j : array_get (replicate n 0) j = 0.
Proof.
  unfold array_get. destruct (0 <=? j); [|reflexivity].
  destruct (replicate n 0 !! Z.to_nat j) as [x|] eqn:E; [|reflexivity].
  apply lookup_replicate in E as [-> _]. reflexivity.
Qed.

(** X9.  What the host receives after [SUMP_ARM] in the timer-paced regime
    (a divider other than 19 and 49), for a read count up to the capacity
    and a positive delay count, when the first sample that satisfies the
    trigger is the [k]-th: [k + 1 + delayCount] samples are taken; the
    [readCount] bytes sent are the samples from the newest back, and once
    the samples taken are used up, zeros from the cleared buffer; and with
    [delayCount < readCount] the sample that satisfied the trigger is the
    byte at position [delayCount], with the [delayCount] samples taken
    after it before it. *)
Theorem slow_capture_output :
  forall mcu pins fuel s rest k,
    divider s <> 19 -> divider s <> 49 ->
    0 < readCount s <= MAX_CAPTURE_SIZE mcu ->
    0 < delayCount s < 32768 ->
    first_match pins (trigger_values s) (trigger s) (tick s) k ->
    (k < fuel)%nat ->
    delayCount s <= Z.of_nat fuel ->
    let N := (Z.to_nat (delayCount s) + S k)%nat in
    exists s',
      loop mcu pins fuel (set_rx (SUMP_ARM :: rest) s) = Some s' /\
      tick s' = (tick s + N)%nat /\
      rx s' = rest /\
      tx s'
      = tx s ++ map (fun i => if (i <? N)%nat
                              then CHANPIN pins (tick s + (N - 1 - i))
                              else 0)
                  (seq 0 (Z.to_nat (readCount s))) /\
      (delayCount s < readCount s ->
       tx s' !! (length (tx s) + Z.to_nat (delayCount s))%nat
       = Some (CHANPIN pins (tick s + k))).
Proof.
  intros mcu pins fuel s rest k H19 H49 Hrc Hdc Hfirst Hk Hfuel N.
  pose proof (MAX_CAPTURE_SIZE_range mcu) as Hmax.
  rewrite (loop_arm mcu pins fuel _ rest) by reflexivity.
  destruct (armed_fields mcu rest s)
    as (Erc & Edc & Etr & Eval & Etick & Etx & Erx & Ediv & Eld).
  set (s0 := set_logicdata _ _) in *. clearbody s0.
  rewrite acquire_slow_branch by (rewrite Ediv; assumption).
  assert (Hp : passes (to_uint16 (delayCount s)) = Z.to_nat (delayCount s)).
  { rewrite to_uint16_id by lia. apply Nat2Z.inj. rewrite passes_pos; lia. }
  pose proof (acquireSlow_output pins fuel s0 k) as Hout. cbv zeta in Hout.
  rewrite Erc, Edc, Etr, Eval, Etick, Etx, Erx, Eld, Hp, length_replicate in Hout.
  fold N in Hout.
  destruct Hout as (s' & -> & Htick & Hrx & Htx); [lia|lia|exact Hfirst|exact Hk|lia|].
  assert (Hsent : tx s'
    = tx s ++ map (fun i => if (i <? N)%nat
                            then CHANPIN pins (tick s + (N - 1 - i)) else 0)
                (seq 0 (Z.to_nat (readCount s)))).
  { rewrite Htx. f_equal. apply map_ext. intros i.
    destruct (i <? N)%nat; [reflexivity|]. rewrite array_get_cleared.
    reflexivity. }
  exists s'. split; [reflexivity|]. split; [exact Htick|].
  split; [exact Hrx|]. split; [exact Hsent|].
  intros Hlt. rewrite Hsent, lookup_app_r by lia.
  replace (length (tx s) + Z.to_nat (delayCount s) - length (tx s))%nat
    with (Z.to_nat (delayCount s)) by lia.
  rewrite lookup_map_seq by lia.
  destruct (Nat.ltb_spec (Z.to_nat (delayCount s)) N) as [_|Hge]; [|lia].
  do 3 f_equal. lia.
Qed.

Lemma slow_capture_output_witness :
  divider request_8_2_line2 <> 19 /\ divider request_8_2_line2 <> 49 /\
  0 < readCount request_8_2_line2 <= MAX_CAPTURE_SIZE ATmega328P /\
  0 < delayCount request_8_2_line2 < 32768 /\
  first_match ramp (trigger_values request_8_2_line2)
    (trigger request_8_2_line2) (tick request_8_2_line2) 4 /\
  (4 < 8)%nat /\
  delayCount request_8_2_line2 <= Z.of_nat 8 /\
  exists s',
    loop ATmega328P ramp 8 (set_rx [SUMP_ARM] request_8_2_line2) = Some s' /\
    tx s' = [6; 5; 4; 3; 2; 1; 0; 0] /\
    tx s' !! 2%nat = Some 4.
Proof.
  assert (H1 : divider request_8_2_line2 <> 19) by (cbn; lia).
  assert (H2 : divider request_8_2_line2 <> 49) by (cbn; lia).
  assert (H3 : 0 < readCount request_8_2_line2 <= MAX_CAPTURE_SIZE ATmega328P)
    by (cbn; lia).
  assert (H4 : 0 < delayCount request_8_2_line2 < 32768) by (cbn; lia).
  assert (H5 : first_match ramp (trigger_values request_8_2_line2)
                 (trigger request_8_2_line2) (tick request_8_2_line2) 4).
  { split; [|reflexivity]. intros j Hj.
    do 4 (destruct j as [|j]; [vm_compute; discriminate|]). lia. }
  assert (H6 : (4 < 8)%nat) by lia.
  assert (H7 : delayCount request_8_2_line2 <= Z.of_nat 8) by (cbn; lia).
  do 7 (split; [assumption|]).
  destruct (slow_capture_output ATmega328P ramp 8 request_8_2_line2 [] 4
              H1 H2 H3 H4 H5 H6 H7) as (s' & Hs' & _ & _ & Htx & Hpos).
  exists s'. split; [exact Hs'|]. split.
  - rewrite Htx. reflexivity.
  - apply Hpos. cbn. lia.
Defined.

(** X10.  What the host receives after [SUMP_ARM] with the divider 49 (the
    2 MHz regime), for a read count from 2 up to the capacity, whatever the
    delay count is: [readCount] bytes, which are the sample that satisfied
    the trigger and the [readCount - 1] samples after it, the newest first
    and the trigger sample last; nothing from before the trigger is sent. *)
Theorem fast_capture_output :
  forall mcu pins fuel s rest k,
    divider s = 49 ->
    1 < readCount s <= MAX_CAPTURE_SIZE mcu ->
    first_match pins (trigger_values s) (trigger s) (tick s) k ->
    (k < fuel)%nat ->
    readCount s - 1 <= Z.of_nat fuel ->
    let n := Z.to_nat (readCount s) in
    exists s',
      loop mcu pins fuel (set_rx (SUMP_ARM :: rest) s) = Some s' /\
      tick s' = (tick s + k + n)%nat /\
      rx s' = rest /\
      tx s' = tx s ++ map (fun i => CHANPIN pins (tick s + k + i)) (rev (seq 0 n)) /\
      last (tx s') = Some (CHANPIN pins (tick s + k)).
Proof.
  intros mcu pins fuel s rest k H49 Hrc Hfirst Hk Hfuel n.
  pose proof (MAX_CAPTURE_SIZE_range mcu) as Hmax.
  assert (En : n = S (n - 1)) by (subst n; lia).
  rewrite (loop_arm mcu pins fuel _ rest) by reflexivity.
  destruct (armed_fields mcu rest s)
    as (Erc & Edc & Etr & Eval & Etick & Etx & Erx & Ediv & Eld).
  set (s0 := set_logicdata _ _) in *. clearbody s0.
  unfold acquire. rewrite Ediv, H49. cbn [Z.eqb Pos.eqb].
  unfold acquire2MHz.
  destruct (asm_2MHz_eq mcu pins fuel
              (set_delayCount (to_int (readCount s0 - 1)) s0) k (n - 1)%nat)
    as (a & -> & Hsamples & _ & Hram);
    cbn [readCount delayCount logicdata trigger trigger_values tick trace
         set_delayCount];
    rewrite ?Erc, ?Etr, ?Eval, ?Etick, ?Eld, ?length_replicate;
    try done; try lia.
  cbn [mbind option_bind].
  match goal with |- context [dump_2MHz ?x] =>
    destruct (dump_2MHz_spec x) as (_ & Hsent & _ & Hticks);
      [cbn [readCount asm_leave set_delayCount]; lia|] end.
  cbn [readCount logicdata tick tx asm_leave set_delayCount] in Hsent, Hticks.
  rewrite Erc, Etx in Hsent. fold n in Hsent.
  cbn [readCount delayCount logicdata tick set_delayCount] in Hsamples, Hram.
  rewrite Etick, <- En in Hsamples, Hram.
  assert (Hout : forall i, (i < n)%nat ->
            to_byte (array_get (ram a) (Z.of_nat i)) = CHANPIN pins (tick s + k + i)).
  { intros i Hi. rewrite Hram. unfold array_get.
    destruct (Z.leb_spec 0 (Z.of_nat i)); [|lia].
    rewrite Nat2Z.id, lookup_app_l by (rewrite length_map, length_seq; lia).
    rewrite lookup_map_seq by lia. apply to_byte_idemp. }
  assert (Htx : tx (dump_2MHz (asm_leave a (set_delayCount (to_int (readCount s - 1)) s0)))
                = tx s ++ map (fun i => CHANPIN pins (tick s + k + i)) (rev (seq 0 n))).
  { rewrite Hsent. f_equal. apply map_ext_in. intros i Hi.
    apply in_rev, in_seq in Hi. apply Hout. lia. }
  eexists. split; [reflexivity|]. split; [|split; [|split]].
  - rewrite Hticks. exact Hsamples.
  - unfold dump_2MHz.
    match goal with |- context [send_down ?m ?x] =>
      destruct (send_down_fields m x) as (_ & _ & _ & -> & _) end.
    exact Erx.
  - exact Htx.
  - rewrite Htx, En. cbn [seq rev]. rewrite map_app, app_assoc. cbn [map].
    rewrite last_snoc, Nat.add_0_r. reflexivity.
Qed.

Lemma fast_capture_output_witness :
  divider (set_divider 49 request_8_2_line2) = 49 /\
  1 < readCount (set_divider 49 request_8_2_line2) <= MAX_CAPTURE_SIZE ATmega328P /\
  first_match ramp (trigger_values (set_divider 49 request_8_2_line2))
    (trigger (set_divider 49 request_8_2_line2))
    (tick (set_divider 49 request_8_2_line2)) 4 /\
  (4 < 8)%nat /\
  readCount (set_divider 49 request_8_2_line2) - 1 <= Z.of_nat 8 /\
  exists s',
    loop ATmega328P ramp 8
      (set_rx [SUMP_ARM] (set_divider 49 request_8_2_line2)) = Some s' /\
    tx s' = [11; 10; 9; 8; 7; 6; 5; 4].
Proof.
  assert (H1 : divider (set_divider 49 request_8_2_line2) = 49) by reflexivity.
  assert (H2 : 1 < readCount (set_divider 49 request_8_2_line2)
               <= MAX_CAPTURE_SIZE ATmega328P) by (cbn; lia).
  assert (H3 : first_match ramp (trigger_values (set_divider 49 request_8_2_line2))
                 (trigger (set_divider 49 request_8_2_line2))
                 (tick (set_divider 49 request_8_2_line2)) 4).
  { split; [|reflexivity]. intros j Hj.
    do 4 (destruct j as [|j]; [vm_compute; discriminate|]). lia. }
  assert (H4 : (4 < 8)%nat) by lia.
  assert (H5 : readCount (set_divider 49 request_8_2_line2) - 1 <= Z.of_nat 8)
    by (cbn; lia).
  do 5 (split; [assumption|]).
  destruct (fast_capture_output ATmega328P ramp 8
              (set_divider 49 request_8_2_line2) [] 4 H1 H2 H3 H4 H5)
    as (s' & Hs' & _ & _ & Htx & _).
  exists s'. split; [exact Hs'|]. rewrite Htx. reflexivity.
Defined.

(** X11.  In the timer-paced regime with a delay count that is not below
    the read count (the two are equal when the host asks for the whole
    capture after the trigger), the sample that satisfied the trigger has
    been overwritten when the dump begins: every byte sent is a sample
    taken after it, the last one the sample [delayCount - readCount + 1]
    places after the trigger sample. *)
Theorem trigger_sample_overwritten :
  forall mcu pins fuel s rest k,
    divider s <> 19 -> divider s <> 49 ->
    0 < readCount s <= MAX_CAPTURE_SIZE mcu ->
    readCount s <= delayCount s < 32768 ->
    first_match pins (trigger_values s) (trigger s) (tick s) k ->
    (k < fuel)%nat ->
    delayCount s <= Z.of_nat fuel ->
    exists s',
      loop mcu pins fuel (set_rx (SUMP_ARM :: rest) s) = Some s' /\
      tx s'
      = tx s ++ map (fun i => CHANPIN pins
                                (tick s + k + 1 + (Z.to_nat (delayCount s) - 1 - i)))
                  (seq 0 (Z.to_nat (readCount s))) /\
      last (tx s')
      = Some (CHANPIN pins
                (tick s + k + 1 + Z.to_nat (delayCount s - readCount s))).
Proof.
  intros mcu pins fuel s rest k H19 H49 Hrc Hdc Hfirst Hk Hfuel.
  pose proof (MAX_CAPTURE_SIZE_range mcu) as Hmax.
  rewrite (loop_arm mcu pins fuel _ rest) by reflexivity.
  destruct (armed_fields mcu rest s)
    as (Erc & Edc & Etr & Eval & Etick & Etx & Erx & Ediv & Eld).
  set (s0 := set_logicdata _ _) in *. clearbody s0.
  rewrite acquire_slow_branch by (rewrite Ediv; assumption).
  assert (Hp : passes (to_uint16 (delayCount s)) = Z.to_nat (delayCount s)).
  { rewrite to_uint16_id by lia. apply Nat2Z.inj. rewrite passes_pos; lia. }
  pose proof (acquireSlow_output pins fuel s0 k) as Hout. cbv zeta in Hout.
  rewrite Erc, Edc, Etr, Eval, Etick, Etx, Erx, Eld, Hp, length_replicate in Hout.
  destruct Hout as (s' & -> & _ & _ & Htx); [lia|lia|exact Hfirst|exact Hk|lia|].
  set (d := Z.to_nat (delayCount s)) in *.
  set (r := Z.to_nat (readCount s)) in *.
  assert (Hrd : (0 < r <= d)%nat) by (subst r d; lia).
  assert (Ed : delayCount s = Z.of_nat d) by (subst d; lia).
  assert (Er : readCount s = Z.of_nat r) by (subst r; lia).
  clearbody r d.
  assert (Hsent : tx s'
    = tx s ++ map (fun i => CHANPIN pins (tick s + k + 1 + (d - 1 - i))) (seq 0 r)).
  { rewrite Htx. f_equal. apply map_ext_in. intros i Hi. apply in_seq in Hi.
    destruct (Nat.ltb_spec i (d + S k)) as [_|Hge]; [|lia].
    f_equal. lia. }
  exists s'. split; [reflexivity|]. split; [exact Hsent|].
  rewrite Hsent. destruct r as [|r']; [lia|].
  rewrite seq_S, map_app, app_assoc. cbn [map Nat.add].
  rewrite last_snoc. do 2 f_equal.
  rewrite Ed, Er. lia.
Qed.

Lemma trigger_sample_overwritten_witness :
  divider request_8_8_line2 <> 19 /\ divider request_8_8_line2 <> 49 /\
  0 < readCount request_8_8_line2 <= MAX_CAPTURE_SIZE ATmega328P /\
  readCount request_8_8_line2 <= delayCount request_8_8_line2 < 32768 /\
  first_match ramp (trigger_values request_8_8_line2)
    (trigger request_8_8_line2) (tick request_8_8_line2) 4 /\
  (4 < 8)%nat /\
  delayCount request_8_8_line2 <= Z.of_nat 8 /\
  exists s',
    loop ATmega328P ramp 8 (set_rx [SUMP_ARM] request_8_8_line2) = Some s' /\
    tx s' = [12; 11; 10; 9; 8; 7; 6; 5].
Proof.
  assert (H1 : divider request_8_8_line2 <> 19) by (cbn; lia).
  assert (H2 : divider request_8_8_line2 <> 49) by (cbn; lia).
  assert (H3 : 0 < readCount request_8_8_line2 <= MAX_CAPTURE_SIZE ATmega328P)
    by (cbn; lia).
  assert (H4 : readCount request_8_8_line2 <= delayCount request_8_8_line2 < 32768)
    by (cbn; lia).
  assert (H5 : first_match ramp (trigger_values request_8_8_line2)
                 (trigger request_8_8_line2) (tick request_8_8_line2) 4).
  { split; [|reflexivity]. intros j Hj.
    do 4 (destruct j as [|j]; [vm_compute; discriminate|]). lia. }
  assert (H6 : (4 < 8)%nat) by lia.
  assert (H7 : delayCount request_8_8_line2 <= Z.of_nat 8) by (cbn; lia).
  do 7 (split; [assumption|]).
  destruct (trigger_sample_overwritten ATmega328P ramp 8 request_8_8_line2 [] 4
              H1 H2 H3 H4 H5 H6 H7) as (s' & Hs' & Htx & _).
  exists s'. split; [exact Hs'|]. rewrite Htx. reflexivity.
Defined.



(** ** The ranges of the session state *)

Lemma cmd_getCmd_byte s i : (i < 4)%nat -> 0 <= cmd (getCmd s) i < 256.
Proof.
  intros Hi. destruct s as [? ? ? ? ? ? ? ? ? ? ? pending ? ? ?].
  unfold cmd, getCmd, Serial_read. cbn [rx].
  destruct pending as [|? [|? [|? [|? ?]]]];
    cbn [rx set_rx cmdBytes set_cmdBytes];
    do 4 (destruct i as [|i]; [cbn [nth]; apply to_byte_range|]); lia.
Qed.

Lemma getCmd_fields s :
  divider (getCmd s) = divider s /\ trigger (getCmd s) = trigger s /\
  trigger_values (getCmd s) = trigger_values s /\
  readCount (getCmd s) = readCount s /\ delayCount (getCmd s) = delayCount s.
Proof.
  pose proof (getCmd_session s) as H. unfold session in H.
  repeat split; congruence.
Qed.

Lemma send_metadata_fields mcu s :
  divider (send_metadata mcu s) = divider s /\
  trigger (send_metadata mcu s) = trigger s /\
  trigger_values (send_metadata mcu s) = trigger_values s /\
  readCount (send_metadata mcu s) = readCount s /\
  delayCount (send_metadata mcu s) = delayCount s.
Proof.
  destruct (send_metadata_frame mcu s) as (H & _). unfold session in H.
  repeat split; congruence.
Qed.

Ltac payload_read mcu :=
  lazymatch goal with
  | |- context [getCmd ?x] =>
      let g := fresh "g" in
      destruct (getCmd_fields x) as (? & ? & ? & ? & ?);
      pose proof (cmd_getCmd_byte x 0 ltac:(lia));
      pose proof (cmd_getCmd_byte x 1 ltac:(lia));
      pose proof (cmd_getCmd_byte x 2 ltac:(lia));
      pose proof (cmd_getCmd_byte x 3 ltac:(lia));
      set (g := getCmd x) in *; clearbody g;
      pose proof (decode_count_le mcu (cmd g 1) (cmd g 0));
      pose proof (decode_count_le mcu (cmd g 3) (cmd g 2));
      pose proof (decode_count_mult4 mcu (cmd g 1) (cmd g 0))
  | |- context [send_metadata ?m ?x] =>
      let g := fresh "g" in
      destruct (send_metadata_fields m x) as (? & ? & ? & ? & ?);
      set (g := send_metadata m x) in *; clearbody g
  | _ => idtac
  end.

(** [loop] keeps the session state within its ranges. *)
Lemma loop_in_range mcu pins fuel s s' :
  in_range mcu s ->
  loop mcu pins fuel s = Some s' ->
  in_range mcu s'.
Proof.
  intros (Htr & Hval & Hdiv & H4 & Hrc & Hdc).
  pose proof (MAX_CAPTURE_SIZE_range mcu) as Hmax.
  unfold loop. destruct (rx s) as [|c r] eqn:Erx.
  { intros [= <-]. done. }
  unfold Serial_read. rewrite Erx.
  repeat lazymatch goal with
    | |- (if ?c then _ else _) = _ -> _ => destruct c
    end;
    try (intros [= <-]; unfold in_range; payload_read mcu; unfold cmd in *;
         cbn [readCount delayCount trigger trigger_values divider cmdBytes
              set_cmdByte set_rx set_trigger set_trigger_values set_divider
              set_delayCount set_readCount Serial_write set_tx] in *;
         repeat match goal with
           | H : _ = _ |- _ => rewrite H
           end;
         rewrite ?divider_bytes by assumption;
         repeat split; first [assumption | lia]).
  intros H. apply acquire_fields in H.
  destruct H as (Etr & Eval & Erc & Ediv & Edc).
  cbn [readCount delayCount trigger trigger_values divider
       set_cmdByte set_rx set_logicdata] in *.
  unfold in_range. rewrite Etr, Eval, Erc, Ediv, Edc.
  pose proof (to_int_range (readCount s - 1)).
  destruct (_ || _); destruct (divider s =? 49); repeat split; first [assumption | lia].
Qed.

Lemma run_in_range mcu pins fuel n : forall s s',
  in_range mcu s ->
  run mcu pins fuel n s = Some s' ->
  in_range mcu s'.
Proof.
  induction n as [|n IH]; intros s s' Hs; cbn [run].
  { intros [= <-]. exact Hs. }
  destruct (loop mcu pins fuel s) as [s1|] eqn:E; [|done].
  cbn [mbind option_bind]. apply IH.
  apply (loop_in_range mcu pins fuel s s1 Hs E).
Qed.

(** A pass of [loop] that is [arm_ready] keeps the accesses within the
    array. *)
Lemma loop_keeps_in_bounds mcu pins fuel s s' :
  arm_ready mcu s = true ->
  Forall (in_bounds mcu) (trace s) ->
  loop mcu pins fuel s = Some s' ->
  Forall (in_bounds mcu) (trace s').
Proof.
  intros Hready Htrace Hloop. unfold arm_ready in Hready.
  destruct (rx s) as [|c r] eqn:Hrx.
  { rewrite loop_idle in Hloop by exact Hrx. injection Hloop as <-. exact Htrace. }
  destruct (Z.eqb_spec (to_byte c) SUMP_ARM) as [Earm|Earm].
  - cbn [negb orb] in Hready. apply andb_true_iff in Hready.
    destruct Hready as [Hlo Hhi]. apply Z.ltb_lt in Hlo. apply Z.leb_le in Hhi.
    rewrite (loop_arm_byte mcu pins fuel s c r Hrx Earm) in Hloop.
    eapply acquire_in_bounds; [| |exact Hloop]; cbn; [lia|assumption].
  - destruct (loop_without_arm_frame mcu pins fuel c r s Earm)
      as (s1 & Hs1 & _ & _ & _ & Htr).
    assert (Hs : set_rx (c :: r) s = s).
    { destruct s. cbn in Hrx. subst. reflexivity. }
    rewrite Hs in Hs1. rewrite Hs1 in Hloop. injection Hloop as <-.
    rewrite Htr. exact Htrace.
Qed.

Lemma run_keeps mcu pins fuel n : forall s s',
  arms_ready mcu pins fuel n s = true ->
  in_range mcu s -> Forall (in_bounds mcu) (trace s) ->
  run mcu pins fuel n s = Some s' ->
  in_range mcu s' /\ Forall (in_bounds mcu) (trace s').
Proof.
  induction n as [|n IH]; intros s s' Hready Hs Htrace; cbn [run].
  { intros [= <-]. done. }
  cbn [arms_ready] in Hready. apply andb_true_iff in Hready.
  destruct Hready as [Hnow Hlater].
  destruct (loop mcu pins fuel s) as [s1|] eqn:E; [|done].
  cbn [mbind option_bind]. apply IH; [exact Hlater| |].
  - apply (loop_in_range mcu pins fuel s s1 Hs E).
  - apply (loop_keeps_in_bounds mcu pins fuel s s1 Hnow Htrace E).
Qed.

(** X13.  Whatever bytes the host has sent since power-up, and whatever the
    input was, as long as every arm on the way was made with a read count
    from 2 up to the capacity: every access to [logicdata] was within the
    array, and in the state reached the trigger mask and the trigger values
    are bytes, the divider is below 2^24, the read count is a multiple of 4
    that does not exceed the capacity, and both counts are within [int]. *)
Theorem reachable_in_range :
  forall mcu pins fuel bytes s,
    arms_ready mcu pins fuel (length bytes) (set_rx bytes (power_up mcu)) = true ->
    receive mcu pins fuel bytes (power_up mcu) = Some s ->
    in_range mcu s /\ Forall (in_bounds mcu) (trace s).
Proof.
  intros mcu pins fuel bytes s Hready H.
  unfold receive in H.
  apply (run_keeps mcu pins fuel _ _ s Hready); [| |exact H].
  - pose proof (MAX_CAPTURE_SIZE_range mcu).
    unfold in_range. cbn [power_up set_rx trigger trigger_values divider
                          readCount delayCount rx].
    repeat split; try lia. apply MAX_CAPTURE_SIZE_mult4.
  - constructor.
Qed.

Lemma reachable_in_range_witness :
  arms_ready ATmega328P ramp 8 6
    (set_rx [SUMP_SET_READ_DELAY_COUNT; 1; 0; 0; 0; SUMP_ARM]
       (power_up ATmega328P)) = true /\
  exists s,
    receive ATmega328P ramp 8 [SUMP_SET_READ_DELAY_COUNT; 1; 0; 0; 0; SUMP_ARM]
      (power_up ATmega328P) = Some s /\
    readCount s = 8 /\ delayCount s = 4 /\ tx s = [4; 3; 2; 1; 0; 0; 0; 0] /\
    in_range ATmega328P s /\ Forall (in_bounds ATmega328P) (trace s).
Proof.
  assert (H1 : arms_ready ATmega328P ramp 8 6
                 (set_rx [SUMP_SET_READ_DELAY_COUNT; 1; 0; 0; 0; SUMP_ARM]
                    (power_up ATmega328P)) = true)
    by (vm_compute; reflexivity).
  split; [exact H1|].
  destruct (receive ATmega328P ramp 8
              [SUMP_SET_READ_DELAY_COUNT; 1; 0; 0; 0; SUMP_ARM]
              (power_up ATmega328P))
    as [s|] eqn:E; [|vm_compute in E; discriminate].
  exists s. split; [reflexivity|].
  pose proof (reachable_in_range ATmega328P ramp 8%nat
                [SUMP_SET_READ_DELAY_COUNT; 1; 0; 0; 0; SUMP_ARM] s H1 E) as Hs.
  vm_compute in E. injection E as <-.
  split; [reflexivity|]. split; [reflexivity|]. split; [reflexivity|].
  exact Hs.
Defined.

(** ** An arm with the read count 0 *)





